(** * Business-rule agent: decision pipeline and execution engine

    A shallow embedding of

    - [src/execution/engine.py]  ([DefaultActionExecutor],
      [BusinessRuleExecutionEngine]),
    - [src/agents/business_rule_agent.py]  ([BusinessRuleAgent]),
    - [src/api/services.py]  ([AgenticSystemService]),
    - [src/business_rules/manager.py]  ([BusinessRule],
      [BusinessRulesManager], without the loading of YAML files),
    - [src/rag/qdrant_client.py]  ([QdrantRAG]) and [src/rag/service.py]
      ([BusinessRulesRAG], without [initialize] and [reinitialize]),
    - [src/agents/llm_service.py]  (the response parsers and the chat of
      [LocalLLMService]),
    - [src/utils/performance.py]  ([PerformanceMonitor] and the
      [monitor_performance] wrapper),

    together with the properties of the specification that concern them
    and further properties that the code shows.

    Python objects that the code mutates are threaded through a state and
    exception monad; the outside world (clock, vector store, language model,
    a pluggable action executor) is an abstract state [X] reached through
    type classes, the way the Python code reaches it through duck-typed
    collaborators. *)

From Stdlib Require Import String Ascii List ZArith QArith Lia Bool Arith.
From Stdlib Require Import DecimalString Decimal DecimalNat.
From Stdlib Require Import Sorted Permutation.
Import ListNotations.

Open Scope string_scope.
Open Scope list_scope.

Set Implicit Arguments.
Set Warnings "-register-all".

(* ================================================================== *)
(** * Python values *)
(* ================================================================== *)

(** The JSON-like values that travel in [Dict[str, Any]] parameters,
    contexts and handler outputs.  A [dict] keeps its insertion order, so
    it is an association list.  [VFloat] carries an exact rational: the
    arithmetic on floats that the handlers perform stays behind the
    [PyRuntime] interface below. *)
Inductive PyVal : Type :=
| VNone
| VBool (b : bool)
| VInt (z : Z)
| VFloat (q : Q)
| VStr (s : string)
| VList (l : list PyVal)
| VDict (d : list (string * PyVal)).

(** [bool(v)] *)
Definition truthy (v : PyVal) : bool :=
  match v with
  | VNone => false
  | VBool b => b
  | VInt z => negb (z =? 0)%Z
  | VFloat q => negb (Qeq_bool q 0)
  | VStr s => negb (s =? "")%string
  | VList l => match l with [] => false | _ => true end
  | VDict d => match d with [] => false | _ => true end
  end.

(** [type(v).__name__] *)
Definition type_name (v : PyVal) : string :=
  match v with
  | VNone => "NoneType"
  | VBool _ => "bool"
  | VInt _ => "int"
  | VFloat _ => "float"
  | VStr _ => "str"
  | VList _ => "list"
  | VDict _ => "dict"
  end.

Fixpoint assoc {A : Type} (k : string) (d : list (string * A)) : option A :=
  match d with
  | [] => None
  | (k', v) :: rest => if (k' =? k)%string then Some v else assoc k rest
  end.

Definition keys {A : Type} (d : list (string * A)) : list string :=
  map fst d.

(* ================================================================== *)
(** * Exceptions and the state-and-exception monad *)
(* ================================================================== *)

(** An instance of (a subclass of) [Exception]; [exn_text] is [str(e)].
    [KeyboardInterrupt] and the other [BaseException]-only signals are
    not exceptions in this sense and are outside the model. *)
Record Exn : Type := mkExn { exn_class : string; exn_text : string }.

Definition KeyError (k : string) : Exn :=
  mkExn "KeyError" ("'" ++ k ++ "'").

Definition AttributeError (v : PyVal) (attr : string) : Exn :=
  mkExn "AttributeError"
        ("'" ++ type_name v ++ "' object has no attribute '" ++ attr ++ "'").

Definition RuntimeError (msg : string) : Exn := mkExn "RuntimeError" msg.

Inductive Res (A : Type) : Type :=
| Ok (a : A)
| Raise (e : Exn).

Arguments Ok {A} a.
Arguments Raise {A} e.

(** A computation over a mutable state [S]: it returns or raises, and in
    both cases leaves a state behind (Python does not roll back the
    mutations made before a [raise]). *)
Definition M (S A : Type) : Type := S -> Res A * S.

Definition ret {S A} (a : A) : M S A := fun s => (Ok a, s).

Definition bind {S A B} (m : M S A) (k : A -> M S B) : M S B :=
  fun s => match m s with
           | (Ok a, s1) => k a s1
           | (Raise e, s1) => (Raise e, s1)
           end.

Definition raise {S A} (e : Exn) : M S A := fun s => (Raise e, s).

Definition lift_res {S A} (r : Res A) : M S A := fun s => (r, s).

Definition gets {S A} (f : S -> A) : M S A := fun s => (Ok (f s), s).

Definition modify {S} (f : S -> S) : M S unit := fun s => (Ok tt, f s).

(** [try: m  except Exception as e: h e] *)
Definition try_except {S A} (m : M S A) (h : Exn -> M S A) : M S A :=
  fun s => match m s with
           | (Ok a, s1) => (Ok a, s1)
           | (Raise e, s1) => h e s1
           end.

(** [try: m  finally: fin] : [fin] runs on both exits; what [m] returned
    or raised is passed on unless [fin] itself raises. *)
Definition try_finally {S A} (m : M S A) (fin : M S unit) : M S A :=
  fun s => let '(r, s1) := m s in
           match fin s1 with
           | (Ok _, s2) => (r, s2)
           | (Raise e, s2) => (Raise e, s2)
           end.

(** A computation on the world [X] run where a local object [L] is also
    in scope. *)
Definition lift_world {X L A} (m : M X A) : M (X * L) A :=
  fun s => let '(r, x1) := m (fst s) in (r, (x1, snd s)).

Definition get_local {X L A} (f : L -> A) : M (X * L) A :=
  gets (fun s => f (snd s)).

Definition set_local {X L} (f : L -> L) : M (X * L) unit :=
  modify (fun s => (fst s, f (snd s))).

(** Runs [m] with a fresh local object [l] and hands the object back with
    the result.  When [m] raises, the object is unreachable and dropped. *)
Definition with_local {X L A} (l : L) (m : M (X * L) A) : M X (A * L) :=
  fun x => match m (x, l) with
           | (Ok a, (x1, l1)) => (Ok (a, l1), x1)
           | (Raise e, (x1, _)) => (Raise e, x1)
           end.

Declare Scope monad_scope.
Delimit Scope monad_scope with monad.
Notation "x <- m ;; k" := (bind m (fun x => k))
  (at level 61, m at next level, right associativity) : monad_scope.
Notation "m ;;; k" := (bind m (fun _ => k))
  (at level 61, right associativity) : monad_scope.
Open Scope monad_scope.

(** [for x in xs: body x] *)
Fixpoint for_each {S A} (xs : list A) (body : A -> M S unit) : M S unit :=
  match xs with
  | [] => ret tt
  | x :: rest => body x ;;; for_each rest body
  end.

(** [d[k]] on a dict whose key [k] may be missing *)
Definition subscript {S A} (k : string) (field : option A) : M S A :=
  match field with
  | Some a => ret a
  | None => raise (KeyError k)
  end.

(** [v.get(k, default)]: a method of dicts only *)
Definition py_get {S} (v : PyVal) (k : string) (default : PyVal) : M S PyVal :=
  match v with
  | VDict d => ret (match assoc k d with Some a => a | None => default end)
  | _ => raise (AttributeError v "get")
  end.

(* ================================================================== *)
(** * Clock and formatting *)
(* ================================================================== *)

Record datetime : Type := mkDatetime {
  year : nat; month : nat; day : nat;
  hour : nat; minute : nat; second : nat; microsecond : nat
}.

(** [str(n)] for a non-negative [int] *)
Definition str_nat (n : nat) : string :=
  NilEmpty.string_of_uint (Nat.to_uint n).

Fixpoint zeros (n : nat) : string :=
  match n with
  | O => ""
  | S n' => String "0" (zeros n')
  end.

(** [%0wd] *)
Definition zero_pad (w n : nat) : string :=
  let s := str_nat n in zeros (w - String.length s) ++ s.

(** [t.strftime('%Y%m%d_%H%M%S')] *)
Definition strftime_plan (t : datetime) : string :=
  zero_pad 4 (year t) ++ zero_pad 2 (month t) ++ zero_pad 2 (day t) ++ "_" ++
  zero_pad 2 (hour t) ++ zero_pad 2 (minute t) ++ zero_pad 2 (second t).

(** [t.isoformat()] *)
Definition isoformat (t : datetime) : string :=
  zero_pad 4 (year t) ++ "-" ++ zero_pad 2 (month t) ++ "-" ++
  zero_pad 2 (day t) ++ "T" ++ zero_pad 2 (hour t) ++ ":" ++
  zero_pad 2 (minute t) ++ ":" ++ zero_pad 2 (second t) ++
  (if Nat.eqb (microsecond t) 0 then ""
   else "." ++ zero_pad 6 (microsecond t)).

(** [datetime.now()]: reading the clock is an action on the world. *)
Class Clock (X : Type) : Type := {
  datetime_now : X -> datetime * X
}.

Definition now {X} {clock : Clock X} : M X datetime :=
  fun x => let '(t, x1) := datetime_now x in (Ok t, x1).

(** What the code asks of the Python runtime beyond dictionary access:
    arithmetic and comparison on values of any type (which raise
    [TypeError], [ValueError] or [OverflowError] on the wrong ones), [str]
    of a value inside an f-string, the text of a traceback, the length
    of a time interval, the product [a * b] of two floats as the machine
    rounds it (0.7 * 0.8 is 0.5599999999999999, not 0.56), and the
    Unicode case mapping of [str.lower] on text that leaves the ASCII
    range. *)
Class PyRuntime : Type := {
  py_mul : PyVal -> PyVal -> Res PyVal;
  py_int : PyVal -> Res PyVal;
  py_gt : PyVal -> PyVal -> Res bool;
  py_str : PyVal -> string;
  format_exc : Exn -> string;
  total_seconds : datetime -> datetime -> Q;
  float_mul : Q -> Q -> Q;
  unicode_lower : string -> string
}.

(* ================================================================== *)
(** * The action executor interface and its default registry *)
(* ================================================================== *)

(** [class ActionExecutor(ABC)].  An implementation may keep state and
    touch the world, and either method may raise. *)
Class ActionExecutor (X : Type) : Type := {
  execute : string -> PyVal -> PyVal -> M X PyVal;
  validate_parameters : string -> PyVal -> M X bool
}.

Module DefaultActionExecutor.

Section Handlers.

Context {X : Type} {clock : Clock X} {runtime : PyRuntime}.

Definition handler : Type := PyVal -> PyVal -> M X PyVal.

(** [datetime.now().isoformat()] *)
Definition timestamp : M X PyVal :=
  t <- now ;; ret (VStr (isoformat t)).

Definition strs (l : list string) : PyVal := VList (map VStr l).

(** ** Finance *)

Definition _approve_basic_review : handler := fun parameters context =>
  ts <- timestamp ;;
  ret (VDict [("success", VBool true);
              ("action_taken", VStr "loan_approved_for_basic_review");
              ("next_steps",
               strs ["Basic underwriting review"; "Document verification"]);
              ("approval_level", VStr "basic");
              ("timestamp", ts)]).

Definition _require_manual_review : handler := fun parameters context =>
  ts <- timestamp ;;
  ret (VDict [("success", VBool true);
              ("action_taken", VStr "manual_review_required");
              ("assigned_to", VStr "senior_underwriter");
              ("priority", VStr "high");
              ("review_criteria", parameters);
              ("timestamp", ts)]).

Definition _instant_approve : handler := fun parameters context =>
  amount <- py_get context "loan_amount" (VInt 0) ;;
  rate <- py_get context "interest_rate" (VStr "TBD") ;;
  ts <- timestamp ;;
  ret (VDict [("success", VBool true);
              ("action_taken", VStr "instant_approval");
              ("approval_amount", amount);
              ("approval_rate", rate);
              ("timestamp", ts)]).

Definition _require_collateral : handler := fun parameters context =>
  ts <- timestamp ;;
  ret (VDict [("success", VBool true);
              ("action_taken", VStr "collateral_required");
              ("collateral_percentage", VInt 80);
              ("acceptable_collateral_types",
               strs ["real_estate"; "securities"; "cash_deposit"]);
              ("timestamp", ts)]).

Definition _deny_access : handler := fun parameters context =>
  roles <- py_get parameters "authorized_roles" (VList []) ;;
  ts <- timestamp ;;
  ret (VDict [("success", VBool true);
              ("action_taken", VStr "access_denied");
              ("reason",
               VStr "Insufficient privileges for financial data access");
              ("required_roles", roles);
              ("timestamp", ts)]).

(** ** Inventory *)

Definition _generate_low_stock_alert : handler := fun parameters context =>
  current <- py_get context "current_stock" (VInt 0) ;;
  minimum <- py_get context "minimum_stock_level" (VInt 0) ;;
  ts <- timestamp ;;
  ret (VDict [("success", VBool true);
              ("action_taken", VStr "low_stock_alert_generated");
              ("alert_sent_to",
               strs ["inventory_manager"; "procurement_team"]);
              ("current_stock", current);
              ("minimum_stock", minimum);
              ("timestamp", ts)]).

Definition _emergency_reorder : handler := fun parameters context =>
  minimum <- py_get context "minimum_stock_level" (VInt 100) ;;
  reorder_quantity <- lift_res (py_mul minimum (VInt 2)) ;;
  ts <- timestamp ;;
  ret (VDict [("success", VBool true);
              ("action_taken", VStr "emergency_reorder_initiated");
              ("reorder_quantity", reorder_quantity);
              ("supplier", VStr "primary_supplier");
              ("expected_delivery", VStr "24-48 hours");
              ("timestamp", ts)]).

Definition _block_reorder : handler := fun parameters context =>
  current <- py_get context "current_stock" (VInt 0) ;;
  maximum <- py_get context "maximum_stock_level" (VInt 0) ;;
  ts <- timestamp ;;
  ret (VDict [("success", VBool true);
              ("action_taken", VStr "reorder_blocked");
              ("reason", VStr "Current stock exceeds maximum threshold");
              ("current_stock", current);
              ("maximum_stock", maximum);
              ("timestamp", ts)]).

Definition _increase_reorder_quantity : handler := fun parameters context =>
  base_quantity <- py_get context "normal_reorder_quantity" (VInt 100) ;;
  multiplier <- py_get parameters "seasonal_multiplier" (VFloat (3 # 2)) ;;
  product <- lift_res (py_mul base_quantity multiplier) ;;
  new_quantity <- lift_res (py_int product) ;;
  ts <- timestamp ;;
  ret (VDict [("success", VBool true);
              ("action_taken", VStr "reorder_quantity_increased");
              ("original_quantity", base_quantity);
              ("new_quantity", new_quantity);
              ("multiplier", multiplier);
              ("reason", VStr "Seasonal demand adjustment");
              ("timestamp", ts)]).

Definition _mark_for_clearance : handler := fun parameters context =>
  expiry <- py_get context "expiry_date" VNone ;;
  ts <- timestamp ;;
  ret (VDict [("success", VBool true);
              ("action_taken", VStr "marked_for_clearance");
              ("clearance_discount", VStr "50%");
              ("expiry_date", expiry);
              ("notification_sent", VStr "sales_team");
              ("timestamp", ts)]).

(** ** Compliance *)

Definition _schedule_data_deletion : handler := fun parameters context =>
  data_type <- py_get context "data_type" (VStr "personal") ;;
  ts <- timestamp ;;
  ret (VDict [("success", VBool true);
              ("action_taken", VStr "data_deletion_scheduled");
              ("scheduled_date", VStr "30 days from now");
              ("data_categories", data_type);
              ("compliance_regulation", VStr "GDPR");
              ("timestamp", ts)]).

Definition _request_consent_renewal : handler := fun parameters context =>
  email <- py_get context "user_email" (VStr "user") ;;
  ts <- timestamp ;;
  ret (VDict [("success", VBool true);
              ("action_taken", VStr "consent_renewal_requested");
              ("notification_sent", email);
              ("consent_type", VStr "data_processing");
              ("deadline", VStr "30 days");
              ("timestamp", ts)]).

Definition _execute_data_deletion : handler := fun parameters context =>
  ts <- timestamp ;;
  ret (VDict [("success", VBool true);
              ("action_taken", VStr "data_deleted");
              ("deletion_scope", VStr "all_personal_data");
              ("verification_required", VBool true);
              ("compliance_log_updated", VBool true);
              ("timestamp", ts)]).

Definition _enforce_encryption : handler := fun parameters context =>
  standard <- py_get parameters "required_encryption_standard"
                     (VStr "AES256") ;;
  ts <- timestamp ;;
  ret (VDict [("success", VBool true);
              ("action_taken", VStr "encryption_enforced");
              ("encryption_standard", standard);
              ("data_encrypted", VBool true);
              ("compliance_status", VStr "PCI-DSS compliant");
              ("timestamp", ts)]).

(** ** Customer service *)

Definition _route_to_senior_agent : handler := fun parameters context =>
  tier <- py_get context "customer_tier" (VStr "VIP") ;;
  ts <- timestamp ;;
  ret (VDict [("success", VBool true);
              ("action_taken", VStr "routed_to_senior_agent");
              ("agent_type", VStr "senior_support");
              ("priority", VStr "high");
              ("customer_tier", tier);
              ("timestamp", ts)]).

Definition _escalate_to_technical_team : handler := fun parameters context =>
  score <- py_get context "complexity_score" (VInt 8) ;;
  ts <- timestamp ;;
  ret (VDict [("success", VBool true);
              ("action_taken", VStr "escalated_to_technical_team");
              ("team", VStr "technical_support");
              ("complexity_score", score);
              ("issue_category", VStr "technical");
              ("timestamp", ts)]).

Definition _route_to_global_team : handler := fun parameters context =>
  local_time <- timestamp ;;
  ts <- timestamp ;;
  ret (VDict [("success", VBool true);
              ("action_taken", VStr "routed_to_global_team");
              ("team_location", VStr "asia_pacific");
              ("reason", VStr "after_hours_support");
              ("local_time", local_time);
              ("timestamp", ts)]).

Definition _route_to_billing_specialist : handler := fun parameters context =>
  amount <- py_get context "dispute_amount" (VInt 0) ;;
  amount' <- py_get context "dispute_amount" (VInt 0) ;;
  high <- lift_res (py_gt amount' (VInt 1000)) ;;
  ts <- timestamp ;;
  ret (VDict [("success", VBool true);
              ("action_taken", VStr "routed_to_billing_specialist");
              ("specialist_team", VStr "billing_disputes");
              ("dispute_amount", amount);
              ("priority", VStr (if high then "high" else "normal"));
              ("timestamp", ts)]).

(** [self.supported_actions], built in [__init__] *)
Definition supported_actions : list (string * handler) :=
  [ ("approve_basic_review", _approve_basic_review);
    ("require_manual_review", _require_manual_review);
    ("instant_approve", _instant_approve);
    ("require_collateral", _require_collateral);
    ("deny_access", _deny_access);
    ("generate_low_stock_alert", _generate_low_stock_alert);
    ("emergency_reorder", _emergency_reorder);
    ("block_reorder", _block_reorder);
    ("increase_reorder_quantity", _increase_reorder_quantity);
    ("mark_for_clearance", _mark_for_clearance);
    ("schedule_data_deletion", _schedule_data_deletion);
    ("request_consent_renewal", _request_consent_renewal);
    ("execute_data_deletion", _execute_data_deletion);
    ("enforce_encryption", _enforce_encryption);
    ("route_to_senior_agent", _route_to_senior_agent);
    ("escalate_to_technical_team", _escalate_to_technical_team);
    ("route_to_global_team", _route_to_global_team);
    ("route_to_billing_specialist", _route_to_billing_specialist) ].

(** The two result mappings that [execute] builds itself. *)
Definition unsupported (action : string) : PyVal :=
  VDict [("success", VBool false);
         ("error", VStr ("Unsupported action: " ++ action));
         ("supported_actions", strs (keys supported_actions))].

Definition handler_error (action : string) (e : Exn) : PyVal :=
  VDict [("success", VBool false);
         ("error", VStr ("Error executing " ++ action ++ ": " ++ exn_text e));
         ("traceback", VStr (format_exc e))].

(** [DefaultActionExecutor.execute] *)
Definition execute (action : string) (parameters context : PyVal)
  : M X PyVal :=
  match assoc action supported_actions with
  | None => ret (unsupported action)
  | Some h =>
      try_except (h parameters context)
                 (fun e => ret (handler_error action e))
  end.

(** [DefaultActionExecutor.validate_parameters]:
    [isinstance(parameters, dict)] *)
Definition validate_parameters (action : string) (parameters : PyVal)
  : M X bool :=
  ret (match parameters with VDict _ => true | _ => false end).

#[export] Instance default_action_executor : ActionExecutor X := {
  execute := execute;
  validate_parameters := validate_parameters
}.

End Handlers.

End DefaultActionExecutor.

(* ================================================================== *)
(** * Data model of the execution engine *)
(* ================================================================== *)

Inductive ExecutionStatus : Type :=
| PENDING | RUNNING | COMPLETED | FAILED | SKIPPED.

(** [ExecutionStatus.value] *)
Definition status_value (s : ExecutionStatus) : string :=
  match s with
  | PENDING => "pending"
  | RUNNING => "running"
  | COMPLETED => "completed"
  | FAILED => "failed"
  | SKIPPED => "skipped"
  end.

Definition status_eqb (a b : ExecutionStatus) : bool :=
  match a, b with
  | PENDING, PENDING | RUNNING, RUNNING | COMPLETED, COMPLETED
  | FAILED, FAILED | SKIPPED, SKIPPED => true
  | _, _ => false
  end.

(** A rule as the pipeline and the engine pass it around: a
    [Dict[str, Any]].  Each field is one key of the dictionary and is
    [None] when the key is absent, which is what separates [rule["k"]]
    (a [KeyError]) from [rule.get("k", default)].  The values have the
    types of the [Rule] record of the data model: ids, names and actions
    are strings, and a confidence, a float in the source, is an exact
    rational.  The priority is a value of any type: the request model of
    the API admits [None], a rule file is not validated, and the engine
    compares whatever it finds. *)
Record RuleDict : Type := mkRuleDict {
  r_id : option string;
  r_name : option string;
  r_description : option string;
  r_condition : option string;
  r_action : option string;
  r_priority : option PyVal;
  r_parameters : option PyVal;
  r_confidence : option Q;
  r_reasoning : option string;
  r_execution_order : option Z;
  r_expected_outcome : option string
}.

Record ExecutionResult : Type := mkExecutionResult {
  rule_id : string;
  rule_name : string;
  status : ExecutionStatus;
  start_time : datetime;
  end_time : option datetime;
  output : PyVal;
  error_message : option PyVal;
  execution_logs : list string
}.

Record ExecutionPlan : Type := mkExecutionPlan {
  plan_id : string;
  scenario : string;
  rules : list RuleDict;
  context : PyVal;
  execution_results : list ExecutionResult;
  overall_status : ExecutionStatus;
  plan_start_time : option datetime;
  plan_end_time : option datetime
}.

(** Attribute assignments on the two mutable dataclasses. *)
Definition set_status (v : ExecutionStatus) (r : ExecutionResult) :=
  mkExecutionResult (rule_id r) (rule_name r) v (start_time r) (end_time r)
                    (output r) (error_message r) (execution_logs r).

Definition set_end_time (v : option datetime) (r : ExecutionResult) :=
  mkExecutionResult (rule_id r) (rule_name r) (status r) (start_time r) v
                    (output r) (error_message r) (execution_logs r).

Definition set_output (v : PyVal) (r : ExecutionResult) :=
  mkExecutionResult (rule_id r) (rule_name r) (status r) (start_time r)
                    (end_time r) v (error_message r) (execution_logs r).

Definition set_error_message (v : option PyVal) (r : ExecutionResult) :=
  mkExecutionResult (rule_id r) (rule_name r) (status r) (start_time r)
                    (end_time r) (output r) v (execution_logs r).

Definition append_log (line : string) (r : ExecutionResult) :=
  mkExecutionResult (rule_id r) (rule_name r) (status r) (start_time r)
                    (end_time r) (output r) (error_message r)
                    (execution_logs r ++ [line]).

Definition set_overall_status (v : ExecutionStatus) (p : ExecutionPlan) :=
  mkExecutionPlan (plan_id p) (scenario p) (rules p) (context p)
                  (execution_results p) v (plan_start_time p)
                  (plan_end_time p).

Definition set_plan_start_time (v : option datetime) (p : ExecutionPlan) :=
  mkExecutionPlan (plan_id p) (scenario p) (rules p) (context p)
                  (execution_results p) (overall_status p) v
                  (plan_end_time p).

Definition set_plan_end_time (v : option datetime) (p : ExecutionPlan) :=
  mkExecutionPlan (plan_id p) (scenario p) (rules p) (context p)
                  (execution_results p) (overall_status p)
                  (plan_start_time p) v.

Definition append_result (r : ExecutionResult) (p : ExecutionPlan) :=
  mkExecutionPlan (plan_id p) (scenario p) (rules p) (context p)
                  (execution_results p ++ [r]) (overall_status p)
                  (plan_start_time p) (plan_end_time p).

(** The dictionary that [get_execution_summary] returns (and that
    [analyze_and_execute] builds by hand when nothing runs). *)
Record ResultInfo : Type := mkResultInfo {
  i_rule_id : string;
  i_rule_name : string;
  i_status : string;
  i_duration : PyVal;
  i_output : PyVal;
  i_error : option PyVal
}.

Record ExecutionSummary : Type := mkExecutionSummary {
  s_plan_id : string;
  s_scenario : string;
  s_overall_status : string;
  s_total_rules : nat;
  s_successful_rules : nat;
  s_failed_rules : nat;
  s_execution_time : PyVal;
  s_results : list ResultInfo;
  s_message : option string
}.

(** [[x for x in xs if p x]] where the test may raise *)
Fixpoint filter_m {S A} (p : A -> M S bool) (xs : list A) : M S (list A) :=
  match xs with
  | [] => ret []
  | x :: rest =>
      b <- p x ;;
      kept <- filter_m p rest ;;
      ret (if b then x :: kept else kept)
  end.

Definition is_failed (r : ExecutionResult) : bool :=
  status_eqb (status r) FAILED.

Definition is_completed (r : ExecutionResult) : bool :=
  status_eqb (status r) COMPLETED.

Definition nonempty {A} (l : list A) : bool :=
  match l with [] => false | _ => true end.

(** The [TypeError] of [v >= n] for a [v] that has no order with
    integers. *)
Definition NotOrdered (v : PyVal) : Exn :=
  mkExn "TypeError"
        ("'>=' not supported between instances of '" ++ type_name v
         ++ "' and 'int'").

(** [v >= n] for an integer [n]: numbers compare by value ([True] is 1
    and [False] is 0), every other value raises. *)
Definition py_ge_int (v : PyVal) (n : Z) : Res bool :=
  match v with
  | VInt z => Ok (z >=? n)%Z
  | VBool b => Ok ((if b then 1 else 0) >=? n)%Z
  | VFloat q => Ok (Qle_bool (inject_Z n) q)
  | _ => Raise (NotOrdered v)
  end.

(* ================================================================== *)
(** * BusinessRuleExecutionEngine *)
(* ================================================================== *)

Module Engine.

(** [self]: the executor is the [ActionExecutor] instance in scope, the
    history is the only attribute that changes.  A history entry is the
    plan as it was when it was appended, which is the plan as
    [execute_plan] returns it.  (The code appends the plan object
    itself: a caller that changes a returned plan, or executes it once
    more, changes its entry too.  The properties below are about the
    length of the history and about plans that are executed once.) *)
Record BusinessRuleExecutionEngine : Type := mkEngine {
  execution_history : list ExecutionPlan
}.

(** [__init__] *)
Definition init : BusinessRuleExecutionEngine := mkEngine [].

Section Engine.

Context {X : Type} {clock : Clock X} {runtime : PyRuntime} {executor : ActionExecutor X}.

(** [create_execution_plan] *)
Definition create_execution_plan (self : BusinessRuleExecutionEngine)
    (scenario : string) (rules : list RuleDict) (context : PyVal)
  : M X ExecutionPlan :=
  t <- now ;;
  let plan_id := ("plan_" ++ strftime_plan t ++ "_" ++
                  str_nat (length (execution_history self)))%string in
  ret (mkExecutionPlan plan_id scenario rules context [] PENDING None None).

(** [ExecutionResult(rule_id=id, rule_name=name,
                     status=ExecutionStatus.RUNNING, start_time=t)] *)
Definition fresh_result (id name : string) (t : datetime) : ExecutionResult :=
  mkExecutionResult id name RUNNING t None (VDict []) None [].

(** The local object of [_execute_single_rule]. *)
Definition set_result (f : ExecutionResult -> ExecutionResult)
  : M (X * ExecutionResult) unit := set_local f.

(** [rule.get("parameters", {})] *)
Definition parameters_or_empty (rule : RuleDict) : PyVal :=
  match r_parameters rule with Some p => p | None => VDict [] end.

(** [rule.get("priority", 1)] *)
Definition priority_or_1 (rule : RuleDict) : PyVal :=
  match r_priority rule with Some p => p | None => VInt 1 end.

(** The body of the [try] in [_execute_single_rule]. *)
Definition dispatch (rule : RuleDict) (context : PyVal)
  : M (X * ExecutionResult) unit :=
  action <- subscript "action" (r_action rule) ;;
  valid <- lift_world (validate_parameters action (parameters_or_empty rule)) ;;
  if negb valid then
    set_result (set_status FAILED) ;;;
    set_result (set_error_message
                  (Some (VStr "Parameter validation failed")))
  else
    id <- subscript "id" (r_id rule) ;;
    name <- subscript "name" (r_name rule) ;;
    set_result (append_log
                  ("Starting execution of rule " ++ id ++ ": " ++ name)) ;;;
    action <- subscript "action" (r_action rule) ;;
    execution_output <-
      lift_world (execute action (parameters_or_empty rule) context) ;;
    set_result (set_output execution_output) ;;;
    success <- py_get execution_output "success" (VBool false) ;;
    if truthy success then
      set_result (set_status COMPLETED) ;;;
      taken <- py_get execution_output "action_taken" (VStr "Unknown") ;;
      set_result (append_log
                    ("Rule executed successfully: " ++ py_str taken))
    else
      set_result (set_status FAILED) ;;;
      err <- py_get execution_output "error" (VStr "Unknown error") ;;
      set_result (set_error_message (Some err)) ;;;
      set_result (append_log ("Rule execution failed: " ++ py_str err)).

(** The [except Exception as e] clause of [_execute_single_rule]. *)
Definition on_dispatch_error (e : Exn) : M (X * ExecutionResult) unit :=
  set_result (set_status FAILED) ;;;
  set_result (set_error_message (Some (VStr (exn_text e)))) ;;;
  set_result (append_log ("Exception during execution: " ++ exn_text e)).

(** [_execute_single_rule] *)
Definition _execute_single_rule (rule : RuleDict) (context : PyVal)
  : M X ExecutionResult :=
  id <- subscript "id" (r_id rule) ;;
  name <- subscript "name" (r_name rule) ;;
  t <- now ;;
  let result := fresh_result id name t in
  out <- with_local result
           (try_finally
              (try_except (dispatch rule context) on_dispatch_error)
              (t' <- lift_world now ;;
               set_result (set_end_time (Some t')))) ;;
  ret (snd out).

(** [any(rule["priority"] >= 3 for rule in plan.rules
         if rule["id"] == rule_id)]: the generator stops at the first
    critical rule, and a rule without the key, or with a priority that
    has no order with integers, raises before that. *)
Fixpoint any_critical {S} (rules : list RuleDict) (rule_id : string)
  : M S bool :=
  match rules with
  | [] => ret false
  | rule :: rest =>
      id <- subscript "id" (r_id rule) ;;
      if (id =? rule_id)%string then
        priority <- subscript "priority" (r_priority rule) ;;
        critical <- lift_res (py_ge_int priority 3) ;;
        if critical then ret true else any_critical rest rule_id
      else any_critical rest rule_id
  end.

(** The locals of [execute_plan]: the plan and [self]. *)
Definition Frame : Type := (ExecutionPlan * BusinessRuleExecutionEngine)%type.

Definition get_plan {A} (f : ExecutionPlan -> A) : M (X * Frame) A :=
  get_local (fun l => f (fst l)).

Definition set_plan (f : ExecutionPlan -> ExecutionPlan)
  : M (X * Frame) unit :=
  set_local (fun l => (f (fst l), snd l)).

(** [self.execution_history.append(plan)] *)
Definition append_history : M (X * Frame) unit :=
  set_local (fun l => (fst l,
                       mkEngine (execution_history (snd l) ++ [fst l]))).

(** One turn of the [for rule in plan.rules] loop.  The comparison of
    the priority is evaluated for a FAILED result only ([and] does not
    evaluate its right operand otherwise), and it raises for a priority
    that has no order with integers. *)
Definition run_rule (rule : RuleDict) : M (X * Frame) unit :=
  context <- get_plan context ;;
  result <- lift_world (_execute_single_rule rule context) ;;
  set_plan (append_result result) ;;;
  if is_failed result then
    critical <- lift_res (py_ge_int (priority_or_1 rule) 3) ;;
    if critical then
      id <- subscript "id" (r_id rule) ;;
      ret tt (* logger.warning *)
    else ret tt
  else ret tt.

(** "Determine overall status" *)
Definition determine_overall_status : M (X * Frame) unit :=
  results <- get_plan execution_results ;;
  let failed_results := filter is_failed results in
  if nonempty failed_results then
    rules <- get_plan rules ;;
    critical_failures <-
      filter_m (fun r => any_critical rules (rule_id r)) failed_results ;;
    if nonempty critical_failures then
      set_plan (set_overall_status FAILED)
    else
      set_plan (set_overall_status COMPLETED)
  else
    set_plan (set_overall_status COMPLETED).

(** [execute_plan] *)
Definition execute_plan (self : BusinessRuleExecutionEngine)
    (plan : ExecutionPlan)
  : M X (ExecutionPlan * BusinessRuleExecutionEngine) :=
  out <- with_local (plan, self)
           (t <- lift_world now ;;
            set_plan (set_plan_start_time (Some t)) ;;;
            set_plan (set_overall_status RUNNING) ;;;
            try_finally
              (try_except
                 (rules <- get_plan rules ;;
                  for_each rules run_rule ;;;
                  determine_overall_status)
                 (fun e => set_plan (set_overall_status FAILED)))
              (t' <- lift_world now ;;
               set_plan (set_plan_end_time (Some t')) ;;;
               append_history)) ;;
  ret (snd out).

(** [ExecutionResult.duration] *)
Definition duration (r : ExecutionResult) : PyVal :=
  match end_time r with
  | Some e => VFloat (total_seconds e (start_time r))
  | None => VNone
  end.

(** [get_execution_summary] *)
Definition get_execution_summary (plan : ExecutionPlan) : ExecutionSummary :=
  let successful_rules := filter is_completed (execution_results plan) in
  let failed_rules := filter is_failed (execution_results plan) in
  mkExecutionSummary
    (plan_id plan) (scenario plan) (status_value (overall_status plan))
    (length (rules plan)) (length successful_rules) (length failed_rules)
    (match plan_end_time plan, plan_start_time plan with
     | Some e, Some s => VFloat (total_seconds e s)
     | _, _ => VNone
     end)
    (map (fun result =>
            mkResultInfo (rule_id result) (rule_name result)
                         (status_value (status result)) (duration result)
                         (output result) (error_message result))
         (execution_results plan))
    None.

(** [get_execution_history] *)
Definition get_execution_history (self : BusinessRuleExecutionEngine)
  : list ExecutionSummary :=
  map get_execution_summary (execution_history self).

End Engine.

End Engine.

(* ================================================================== *)
(** * Collaborators of the decision pipeline *)
(* ================================================================== *)

(** [qdrant_client.SearchResult] *)
Record SearchResult : Type := mkSearchResult {
  sr_rule_id : string;
  sr_score : Q;
  sr_content : string;
  sr_metadata : list (string * PyVal)
}.

(** [business_rules.BusinessRule] *)
Record BusinessRule : Type := mkBusinessRule {
  br_id : string;
  br_name : string;
  br_description : string;
  br_domain : string;
  br_category : string;
  br_condition : string;
  br_action : string;
  br_priority : Z;
  br_parameters : PyVal;
  br_metadata : PyVal
}.

(** One entry of ["applicable_rules"] in the analysis that the reasoning
    provider returns; a key the provider left out is [None]. *)
Record RuleRef : Type := mkRuleRef {
  rr_rule_id : option string;
  rr_confidence : option Q;
  rr_reasoning : option string
}.

(** The analysis dictionary of [analyze_scenario] of the provider. *)
Record Analysis : Type := mkAnalysis {
  an_error : option string;
  an_applicable_rules : option (list RuleRef);
  an_overall_assessment : option string;
  an_recommended_actions : option (list string)
}.

(** One entry of ["executable_rules"] in the provider's ordering. *)
Record ExecRule : Type := mkExecRule {
  er_rule_id : option string;
  er_execution_order : option Z;
  er_condition_met : option bool;
  er_expected_outcome : option string
}.

(** The dictionary that [reason_about_rules] returns. *)
Record Reasoning : Type := mkReasoning {
  rs_executable_rules : option (list ExecRule)
}.

(** [BusinessRulesRAG], as far as the agent uses it. *)
Class RagService (X : Type) : Type := {
  query_rules :
    string -> nat -> option string -> option string -> Q ->
    M X (list SearchResult);
  get_rule_by_id : string -> M X (option BusinessRule)
}.

(** [LocalLLMService], as far as the agent uses it. *)
Class LLMService (X : Type) : Type := {
  llm_analyze_scenario : string -> list PyVal -> option PyVal -> M X Analysis;
  reason_about_rules : list RuleDict -> PyVal -> M X Reasoning;
  generate_explanation : list RuleDict -> string -> PyVal -> M X string
}.

(* ================================================================== *)
(** * Strings and lists as the pipeline uses them *)
(* ================================================================== *)

(** [c.lower()] for a character of the ASCII range *)
Definition lower_ascii (c : ascii) : ascii :=
  let n := nat_of_ascii c in
  if (65 <=? n)%nat && (n <=? 90)%nat then ascii_of_nat (n + 32) else c.

(** [s.isascii()] *)
Fixpoint isascii (s : string) : bool :=
  match s with
  | EmptyString => true
  | String c rest => (nat_of_ascii c <? 128)%nat && isascii rest
  end.

(** [s.lower()] for a string of the ASCII range: the letters A to Z
    become a to z, every other character stays. *)
Fixpoint lower_ascii_text (s : string) : string :=
  match s with
  | EmptyString => EmptyString
  | String c rest => String (lower_ascii c) (lower_ascii_text rest)
  end.

(** [s.lower()].  It follows the Unicode case mapping: the Kelvin sign
    becomes [k], for one.  On ASCII text that is the mapping of the
    letters A to Z; on any other text it is the runtime's.  Text that
    leaves the ASCII range is held in UTF-8, where [term in s] is still
    the containment of one sequence of bytes in another. *)
Definition lower {runtime : PyRuntime} (s : string) : string :=
  if isascii s then lower_ascii_text s else unicode_lower s.

(** [term in s] *)
Fixpoint contains (term s : string) : bool :=
  String.prefix term s ||
  match s with
  | EmptyString => false
  | String _ rest => contains term rest
  end.

(** [sep.join(parts)] *)
Definition join (sep : string) (parts : list string) : string :=
  String.concat sep parts.

(** [bool(hint)] for an [Optional[str]] *)
Definition hint_given (h : option string) : bool :=
  match h with
  | Some s => negb (s =? "")%string
  | None => false
  end.

(** [context or {}] *)
Definition context_or_empty (c : option PyVal) : PyVal :=
  match c with
  | Some v => if truthy v then v else VDict []
  | None => VDict []
  end.

(** [list.sort(key=...)] is a stable sort, and the result of a stable
    sort is determined by the list and the key; insertion from the right
    computes it. *)
Fixpoint insert_by {A} (key : A -> Z) (x : A) (l : list A) : list A :=
  match l with
  | [] => [x]
  | y :: rest =>
      if (key x <=? key y)%Z then x :: l else y :: insert_by key x rest
  end.

Definition sort_by {A} (key : A -> Z) (l : list A) : list A :=
  fold_right (insert_by key) [] l.

(** [l[i] = f(l[i])] for an index in range *)
Fixpoint update_at {A} (i : nat) (f : A -> A) (l : list A) : list A :=
  match l, i with
  | [], _ => []
  | x :: rest, O => f x :: rest
  | x :: rest, S i' => x :: update_at i' f rest
  end.

(** [sum(qs)] *)
Definition sum_q (qs : list Q) : Q := fold_left Qplus qs 0.

(* ================================================================== *)
(** * BusinessRuleAgent *)
(* ================================================================== *)

Module Agent.

Inductive AgentState : Type :=
| IDLE | ANALYZING | QUERYING_RULES | REASONING | DECIDING | EXPLAINING
| AGENT_COMPLETED | ERROR.

(** One step of [AgentDecision.execution_plan]. *)
Record ExecutionStep : Type := mkExecutionStep {
  step : nat;
  step_rule_id : string;
  step_rule_name : string;
  step_action : string;
  step_expected_outcome : string;
  step_parameters : PyVal
}.

(** [AgentDecision.metadata] *)
Record DecisionMetadata : Type := mkDecisionMetadata {
  md_error : option string;
  total_rules_considered : nat;
  rules_above_threshold : nat;
  overall_assessment : string;
  recommended_actions : list string;
  context_provided : bool;
  agent_iterations : nat
}.

Record AgentDecision : Type := mkAgentDecision {
  scenario : string;
  applicable_rules : list RuleDict;
  decision_outcome : string;
  confidence : Q;
  reasoning : string;
  execution_plan : list ExecutionStep;
  metadata : DecisionMetadata
}.

(** [self] *)
Record BusinessRuleAgent : Type := mkAgent {
  confidence_threshold : Q;
  max_iterations : nat;
  state : AgentState;
  current_scenario : option string;
  iteration_count : nat;
  decision_history : list AgentDecision
}.

(** [__init__] *)
Definition init (confidence_threshold : Q) (max_iterations : nat)
  : BusinessRuleAgent :=
  mkAgent confidence_threshold max_iterations IDLE None 0 [].

Definition set_state (v : AgentState) (a : BusinessRuleAgent) :=
  mkAgent (confidence_threshold a) (max_iterations a) v (current_scenario a)
          (iteration_count a) (decision_history a).

Definition set_current_scenario (v : option string) (a : BusinessRuleAgent) :=
  mkAgent (confidence_threshold a) (max_iterations a) (state a) v
          (iteration_count a) (decision_history a).

Definition set_iteration_count (v : nat) (a : BusinessRuleAgent) :=
  mkAgent (confidence_threshold a) (max_iterations a) (state a)
          (current_scenario a) v (decision_history a).

Definition append_decision (d : AgentDecision) (a : BusinessRuleAgent) :=
  mkAgent (confidence_threshold a) (max_iterations a) (state a)
          (current_scenario a) (iteration_count a) (decision_history a ++ [d]).

(** [full_rule.update({"execution_order": ..., "expected_outcome": ...})] *)
Definition update_order (order : Z) (outcome : string) (r : RuleDict) :=
  mkRuleDict (r_id r) (r_name r) (r_description r) (r_condition r)
             (r_action r) (r_priority r) (r_parameters r) (r_confidence r)
             (r_reasoning r) (Some order) (Some outcome).

(** [x.get("execution_order", 0)] *)
Definition order_or_0 (r : RuleDict) : Z :=
  match r_execution_order r with Some o => o | None => 0%Z end.

(** [analysis_result.get("applicable_rules", [])] *)
Definition applicable_or_empty (analysis_result : Analysis) : list RuleRef :=
  match an_applicable_rules analysis_result with
  | Some l => l | None => [] end.

(** [rule.get("confidence", 0)] *)
Definition confidence_or_0 (r : RuleDict) : Q :=
  match r_confidence r with Some c => c | None => 0 end.

Definition ref_confidence_or_0 (r : RuleRef) : Q :=
  match rr_confidence r with Some c => c | None => 0 end.

(** [if test: query_parts.append(part)] *)
Definition part_if (test : bool) (part : string) : list string :=
  if test then [part] else [].

(** [_enhance_query] *)
Definition _enhance_query {runtime : PyRuntime} (scenario : string)
    (domain_hint category_hint : option string) : string :=
  let scenario_lower := lower scenario in
  let mentions terms := existsb (fun term => contains term scenario_lower)
                                terms in
  let hint h := match h with Some s => s | None => "" end in
  join " "
    ([scenario]
     ++ part_if (hint_given domain_hint)
                (String.append "domain:" (hint domain_hint))
     ++ part_if (hint_given category_hint)
                (String.append "category:" (hint category_hint))
     ++ part_if (mentions ["loan"; "credit"; "finance"; "money"; "payment"])
                "financial business rules"
     ++ part_if (mentions ["inventory"; "stock"; "product"; "warehouse"])
                "inventory management rules"
     ++ part_if (mentions ["customer"; "support"; "service"; "ticket"])
                "customer service rules"
     ++ part_if (mentions ["data"; "privacy"; "compliance"; "gdpr";
                           "regulation"])
                "compliance regulatory rules").

(** [_create_no_rules_decision] *)
Definition _create_no_rules_decision (scenario : string) : AgentDecision :=
  mkAgentDecision scenario [] "No applicable business rules found" 0
    "The RAG system did not find any business rules relevant to this scenario. This could indicate that the scenario is outside the scope of current rule coverage, or the scenario description needs to be more specific."
    []
    (mkDecisionMetadata None 0 0 "No rules found"
       ["Review scenario description"; "Check rule coverage";
        "Consider adding new rules"]
       false 0).

(** [_create_error_decision] *)
Definition _create_error_decision (self : BusinessRuleAgent)
    (scenario error_message : string) : AgentDecision :=
  mkAgentDecision scenario [] ("Analysis failed: " ++ error_message) 0
    ("An error occurred during analysis: " ++ error_message)
    []
    (mkDecisionMetadata (Some error_message) 0 0 "Error occurred"
       ["Check system logs"; "Verify system components"]
       false (iteration_count self)).

Section Agent.

Context {X : Type} {runtime : PyRuntime} {rag : RagService X}
        {llm : LLMService X}.

(** [_query_relevant_rules].  The threshold that it passes on,
    [self.confidence_threshold * 0.8], is a product of floats. *)
Definition _query_relevant_rules (self : BusinessRuleAgent)
    (scenario : string) (domain_hint category_hint : option string)
  : M X (list SearchResult) :=
  try_except
    (let enhanced_query := _enhance_query scenario domain_hint category_hint in
     query_rules enhanced_query 10 domain_hint category_hint
                 (float_mul (confidence_threshold self) (8 # 10)))
    (fun e => ret []).

(** One element of [rules_data] in [_analyze_with_llm]. *)
Definition rule_data (rule : SearchResult) : M X PyVal :=
  let meta k := subscript k (assoc k (sr_metadata rule)) in
  name <- meta "name" ;;
  description <- meta "description" ;;
  domain <- meta "domain" ;;
  category <- meta "category" ;;
  condition <- meta "condition" ;;
  action <- meta "action" ;;
  priority <- meta "priority" ;;
  parameters <- meta "parameters" ;;
  ret (VDict [("id", VStr (sr_rule_id rule)); ("name", name);
              ("description", description); ("domain", domain);
              ("category", category); ("condition", condition);
              ("action", action); ("priority", priority);
              ("parameters", parameters);
              ("similarity_score", VFloat (sr_score rule))]).

(** [[f x for x in xs]] where [f] may raise *)
Fixpoint map_m {A B} (f : A -> M X B) (xs : list A) : M X (list B) :=
  match xs with
  | [] => ret []
  | x :: rest => y <- f x ;; ys <- map_m f rest ;; ret (y :: ys)
  end.

(** [_analyze_with_llm] *)
Definition _analyze_with_llm (scenario : string) (rules : list SearchResult)
    (context : option PyVal) : M X Analysis :=
  rules_data <- map_m rule_data rules ;;
  analysis <- llm_analyze_scenario scenario rules_data context ;;
  match an_error analysis with
  | Some _ => ret (mkAnalysis None (Some []) (Some "Analysis failed") (Some []))
  | None => ret analysis
  end.

(** The loop that fills [full_rules] in [_determine_executable_rules]. *)
Fixpoint resolve_rules (high_confidence_rules : list RuleRef)
  : M X (list RuleDict) :=
  match high_confidence_rules with
  | [] => ret []
  | rule_ref :: rest =>
      rule_id <- subscript "rule_id" (rr_rule_id rule_ref) ;;
      found <- get_rule_by_id rule_id ;;
      more <- resolve_rules rest ;;
      match found with
      | Some full_rule =>
          ret (mkRuleDict
                 (Some (br_id full_rule)) (Some (br_name full_rule))
                 (Some (br_description full_rule))
                 (Some (br_condition full_rule))
                 (Some (br_action full_rule))
                 (Some (VInt (br_priority full_rule)))
                 (Some (br_parameters full_rule))
                 (Some (ref_confidence_or_0 rule_ref))
                 (Some match rr_reasoning rule_ref with
                       | Some r => r | None => "" end)
                 None None
               :: more)
      | None => ret more
      end
  end.

(** [next((r for r in full_rules if r["id"] == exec_rule["rule_id"]), None)]:
    the position of the first rule with that id.  Both subscripts are
    evaluated at every turn of the generator, and at none when
    [full_rules] is empty. *)
Fixpoint find_full_rule (full_rules : list RuleDict) (exec_rule : ExecRule)
    (i : nat) : M X (option nat) :=
  match full_rules with
  | [] => ret None
  | r :: rest =>
      id <- subscript "id" (r_id r) ;;
      rule_id <- subscript "rule_id" (er_rule_id exec_rule) ;;
      if (id =? rule_id)%string then ret (Some i)
      else find_full_rule rest exec_rule (S i)
  end.

(** [exec_rule.get("condition_met", False)] *)
Definition condition_met (exec_rule : ExecRule) : bool :=
  match er_condition_met exec_rule with Some b => b | None => false end.

(** [exec_rule.get("execution_order", 0)] *)
Definition execution_order_or_0 (exec_rule : ExecRule) : Z :=
  match er_execution_order exec_rule with Some o => o | None => 0%Z end.

(** [exec_rule.get("expected_outcome", "")] *)
Definition expected_outcome_or_empty (exec_rule : ExecRule) : string :=
  match er_expected_outcome exec_rule with Some o => o | None => "" end.

(** "Merge reasoning results back with full rule data".  The rules in
    [full_rules] are objects: [final_rules] holds references to them
    (their positions), and [update] changes the object that every
    reference to it sees. *)
Fixpoint merge_loop (executable_rules : list ExecRule)
    (full_rules : list RuleDict) (final_rules : list nat)
  : M X (list RuleDict * list nat) :=
  match executable_rules with
  | [] => ret (full_rules, final_rules)
  | exec_rule :: rest =>
      if condition_met exec_rule then
        found <- find_full_rule full_rules exec_rule 0 ;;
        match found with
        | Some i =>
            merge_loop rest
                       (update_at i
                          (update_order
                             (execution_order_or_0 exec_rule)
                             (expected_outcome_or_empty exec_rule))
                          full_rules)
                       (final_rules ++ [i])
        | None => merge_loop rest full_rules final_rules
        end
      else merge_loop rest full_rules final_rules
  end.

(** What a reference in [final_rules] points to. *)
Definition deref (full_rules : list RuleDict) (i : nat) : RuleDict :=
  nth i full_rules (mkRuleDict None None None None None None None None None
                               None None).

(** The merge and the sort that end [_determine_executable_rules]. *)
Definition merge_and_sort (full_rules : list RuleDict)
    (executable_rules : list ExecRule) : M X (list RuleDict) :=
  merged <- merge_loop executable_rules full_rules [] ;;
  let '(full_rules', final_rules) := merged in
  ret (sort_by order_or_0 (map (deref full_rules') final_rules)).

(** [_determine_executable_rules] *)
Definition _determine_executable_rules (self : BusinessRuleAgent)
    (analysis_result : Analysis) (context : PyVal) : M X (list RuleDict) :=
  let applicable_rules := applicable_or_empty analysis_result in
  let high_confidence_rules :=
    filter (fun rule =>
              Qle_bool (confidence_threshold self) (ref_confidence_or_0 rule))
           applicable_rules in
  if negb (nonempty high_confidence_rules) then ret []
  else
    full_rules <- resolve_rules high_confidence_rules ;;
    reasoning_result <- reason_about_rules full_rules context ;;
    let executable_rules :=
      match rs_executable_rules reasoning_result with
      | Some l => l | None => [] end in
    merge_and_sort full_rules executable_rules.

(** [[rule["action"] for rule in executable_rules]] *)
Definition actions_of (executable_rules : list RuleDict) : M X (list string) :=
  map_m (fun rule => subscript "action" (r_action rule)) executable_rules.

(** [_generate_explanation] *)
Definition _generate_explanation (executable_rules : list RuleDict)
    (scenario : string) (context : option PyVal) : M X string :=
  if negb (nonempty executable_rules) then
    ret "No applicable business rules were found for this scenario."
  else
    actions <- actions_of executable_rules ;;
    let outcome := join " and " actions in
    generate_explanation executable_rules outcome (context_or_empty context).

(** The steps of the execution plan, numbered from [i + 1]. *)
Fixpoint plan_steps (i : nat) (executable_rules : list RuleDict)
  : M X (list ExecutionStep) :=
  match executable_rules with
  | [] => ret []
  | rule :: rest =>
      id <- subscript "id" (r_id rule) ;;
      name <- subscript "name" (r_name rule) ;;
      action <- subscript "action" (r_action rule) ;;
      parameters <- subscript "parameters" (r_parameters rule) ;;
      more <- plan_steps (S i) rest ;;
      ret (mkExecutionStep (i + 1) id name action
                           match r_expected_outcome rule with
                           | Some o => o | None => "" end
                           parameters
           :: more)
  end.

(** "Calculate overall confidence" *)
Definition overall_confidence (executable_rules : list RuleDict) : Q :=
  if nonempty executable_rules then
    let confidences := map confidence_or_0 executable_rules in
    sum_q confidences / inject_Z (Z.of_nat (length confidences))
  else 0.

(** [_create_decision] *)
Definition _create_decision (self : BusinessRuleAgent) (scenario : string)
    (executable_rules : list RuleDict) (analysis_result : Analysis)
    (explanation : string) (context : option PyVal) : M X AgentDecision :=
  let overall_confidence := overall_confidence executable_rules in
  execution_plan <- plan_steps 0 executable_rules ;;
  outcome <-
    (if nonempty executable_rules then
       actions <- actions_of executable_rules ;;
       ret ("Execute " ++ str_nat (length actions) ++ " rule(s): " ++
            join ", " actions)%string
     else ret "No rules to execute") ;;
  ret (mkAgentDecision scenario executable_rules outcome overall_confidence
         explanation execution_plan
         (mkDecisionMetadata None
            (length (applicable_or_empty analysis_result))
            (length executable_rules)
            match an_overall_assessment analysis_result with
            | Some a => a | None => "" end
            match an_recommended_actions analysis_result with
            | Some l => l | None => [] end
            match context with Some _ => true | None => false end
            (iteration_count self))).

Definition get_self {A} (f : BusinessRuleAgent -> A)
  : M (X * BusinessRuleAgent) A := get_local f.

Definition set_self (f : BusinessRuleAgent -> BusinessRuleAgent)
  : M (X * BusinessRuleAgent) unit := set_local f.

(** The body of the [try] in [analyze_scenario]. *)
Definition pipeline (scenario_description : string)
    (business_context : option PyVal)
    (domain_hint category_hint : option string)
  : M (X * BusinessRuleAgent) AgentDecision :=
  set_self (set_state QUERYING_RULES) ;;;
  self <- get_self (fun a => a) ;;
  relevant_rules <-
    lift_world (_query_relevant_rules self scenario_description
                                      domain_hint category_hint) ;;
  if negb (nonempty relevant_rules) then
    ret (_create_no_rules_decision scenario_description)
  else
    set_self (set_state REASONING) ;;;
    analysis_result <-
      lift_world (_analyze_with_llm scenario_description relevant_rules
                                    business_context) ;;
    set_self (set_state DECIDING) ;;;
    executable_rules <-
      lift_world (_determine_executable_rules
                    self analysis_result
                    (context_or_empty business_context)) ;;
    set_self (set_state EXPLAINING) ;;;
    explanation <-
      lift_world (_generate_explanation executable_rules scenario_description
                                        business_context) ;;
    decision <-
      lift_world (_create_decision self scenario_description executable_rules
                                   analysis_result explanation
                                   business_context) ;;
    set_self (append_decision decision) ;;;
    set_self (set_state AGENT_COMPLETED) ;;;
    ret decision.

(** [analyze_scenario] *)
Definition analyze_scenario (self : BusinessRuleAgent)
    (scenario_description : string) (business_context : option PyVal)
    (domain_hint category_hint : option string)
  : M X (AgentDecision * BusinessRuleAgent) :=
  with_local self
    (set_self (set_state ANALYZING) ;;;
     set_self (set_current_scenario (Some scenario_description)) ;;;
     set_self (set_iteration_count 0) ;;;
     try_except
       (pipeline scenario_description business_context
                 domain_hint category_hint)
       (fun e =>
          set_self (set_state ERROR) ;;;
          self <- get_self (fun a => a) ;;
          ret (_create_error_decision self scenario_description
                                      (exn_text e)))).

End Agent.


(** [get_decision_history]: a copy of the list *)
Definition get_decision_history (self : BusinessRuleAgent)
  : list AgentDecision := decision_history self.

(** [get_current_state] *)
Definition get_current_state (self : BusinessRuleAgent) : AgentState :=
  state self.

(** [reset_state] *)
Definition reset_state (self : BusinessRuleAgent) : BusinessRuleAgent :=
  set_iteration_count 0 (set_current_scenario None (set_state IDLE self)).

End Agent.

(* ================================================================== *)
(** * Dictionaries and slices *)
(* ================================================================== *)

(** [d[k] = v] on a dictionary that keeps its insertion order: the value
    of an existing key is replaced where it stands, a new key goes to the
    end. *)
Fixpoint dict_set {A} (k : string) (v : A) (d : list (string * A))
  : list (string * A) :=
  match d with
  | [] => [(k, v)]
  | (k', v') :: rest =>
      if (k' =? k)%string then (k, v) :: rest
      else (k', v') :: dict_set k v rest
  end.

(** [k in d] *)
Definition dict_has {A} (k : string) (d : list (string * A)) : bool :=
  match assoc k d with Some _ => true | None => false end.

(** The bound of a slice, as Python adjusts it to a sequence of length
    [len]: a negative bound counts from the end, and every bound is
    clipped to [[0, len]]. *)
Definition slice_index (len i : Z) : Z :=
  if (i <? 0)%Z then Z.max (i + len) 0 else Z.min i len.

(** [l[start:stop]] *)
Definition py_slice {A} (l : list A) (start stop : Z) : list A :=
  let len := Z.of_nat (length l) in
  let s := slice_index len start in
  let e := slice_index len stop in
  firstn (Z.to_nat (e - s)) (skipn (Z.to_nat s) l).

(** The iteration order of a [set] of strings is fixed by the runtime
    and by nothing in the program: [list(set(l))] is some arrangement of
    the distinct elements of [l]. *)
Class PySets : Type := {
  list_of_set : list string -> list string;
  list_of_set_distinct :
    forall l, Permutation (list_of_set l) (nodup string_dec l)
}.

(* ================================================================== *)
(** * BusinessRule and BusinessRulesManager *)
(* ================================================================== *)

Module Manager.

Section Rule.

Context {runtime : PyRuntime}.

(** The items of the dictionary that [to_dict] returns. *)
Definition to_dict_items (self : BusinessRule) : list (string * PyVal) :=
  [("id", VStr (br_id self)); ("name", VStr (br_name self));
   ("description", VStr (br_description self));
   ("domain", VStr (br_domain self));
   ("category", VStr (br_category self));
   ("condition", VStr (br_condition self));
   ("action", VStr (br_action self));
   ("priority", VInt (br_priority self));
   ("parameters", br_parameters self);
   ("metadata", br_metadata self)].

(** [BusinessRule.to_dict] *)
Definition to_dict (self : BusinessRule) : PyVal :=
  VDict (to_dict_items self).

(** [f"{k}={v}"] for one item of the parameters *)
Definition param_text (item : string * PyVal) : string :=
  (fst item ++ "=" ++ py_str (snd item))%string.

(** [BusinessRule.to_text]; [parameters.items()] is a method of
    mappings only. *)
Definition to_text (self : BusinessRule) : Res string :=
  let text_parts :=
    [String.append "Domain: " (br_domain self);
     String.append "Category: " (br_category self);
     String.append "Rule: " (br_name self);
     String.append "Description: " (br_description self);
     String.append "Condition: " (br_condition self);
     String.append "Action: " (br_action self);
     String.append "Priority: " (py_str (VInt (br_priority self)))] in
  if truthy (br_parameters self) then
    match br_parameters self with
    | VDict d =>
        let params_text := join ", " (map param_text d) in
        Ok (join " | " (text_parts
                        ++ [String.append "Parameters: " params_text]))
    | v => Raise (AttributeError v "items")
    end
  else Ok (join " | " text_parts).

End Rule.

(** [self]; the directory matters to [load_rules] only. *)
Record BusinessRulesManager : Type := mkManager {
  rules_directory : string;
  rules : list BusinessRule;
  _rules_by_id : list (string * BusinessRule);
  _rules_by_domain : list (string * list BusinessRule)
}.

(** [__init__] *)
Definition init (rules_directory : string) : BusinessRulesManager :=
  mkManager rules_directory [] [] [].

(** One turn of the loop of [_build_indices], on the two dictionaries. *)
Definition index_rule
    (indices : list (string * BusinessRule)
               * list (string * list BusinessRule))
    (rule : BusinessRule)
  : list (string * BusinessRule) * list (string * list BusinessRule) :=
  let '(by_id, by_domain) := indices in
  let by_id := dict_set (br_id rule) rule by_id in
  let by_domain :=
    if negb (dict_has (br_domain rule) by_domain)
    then dict_set (br_domain rule) [] by_domain else by_domain in
  let bucket :=
    match assoc (br_domain rule) by_domain with
    | Some l => l | None => [] end in
  (by_id, dict_set (br_domain rule) (bucket ++ [rule]) by_domain).

(** [_build_indices]: both dictionaries are cleared and filled again
    from [self.rules]. *)
Definition _build_indices (self : BusinessRulesManager)
  : BusinessRulesManager :=
  let '(by_id, by_domain) := fold_left index_rule (rules self) ([], []) in
  mkManager (rules_directory self) (rules self) by_id by_domain.

(** [get_rule_by_id] *)
Definition get_rule_by_id (self : BusinessRulesManager) (rule_id : string)
  : option BusinessRule :=
  assoc rule_id (_rules_by_id self).

(** [get_rules_by_domain] *)
Definition get_rules_by_domain (self : BusinessRulesManager) (domain : string)
  : list BusinessRule :=
  match assoc domain (_rules_by_domain self) with
  | Some l => l | None => [] end.

(** [get_rules_by_category] *)
Definition get_rules_by_category (self : BusinessRulesManager)
    (category : string) : list BusinessRule :=
  filter (fun rule => (br_category rule =? category)%string) (rules self).

(** [get_all_rules]: a copy of the list *)
Definition get_all_rules (self : BusinessRulesManager) : list BusinessRule :=
  rules self.

(** [get_domains] *)
Definition get_domains (self : BusinessRulesManager) : list string :=
  keys (_rules_by_domain self).

Section Search.

Context {runtime : PyRuntime} {sets : PySets}.

(** [[f x for x in xs]] where [f] may raise *)
Fixpoint map_res {A B} (f : A -> Res B) (xs : list A) : Res (list B) :=
  match xs with
  | [] => Ok []
  | x :: rest =>
      match f x with
      | Raise e => Raise e
      | Ok y =>
          match map_res f rest with
          | Raise e => Raise e
          | Ok ys => Ok (y :: ys)
          end
      end
  end.

(** [get_rules_as_text] *)
Definition get_rules_as_text (self : BusinessRulesManager)
  : Res (list string) :=
  map_res to_text (rules self).

(** [get_categories] *)
Definition get_categories (self : BusinessRulesManager) : list string :=
  list_of_set (map br_category (rules self)).

(** [filter and rule.field != filter] *)
Definition filtered_out (filter : option string) (field : string) : bool :=
  match filter with
  | Some f => negb (f =? "")%string && negb (field =? f)%string
  | None => false
  end.

(** The loop of [search_rules]. *)
Fixpoint matching_rules (query_lower : string)
    (domain category : option string) (rules : list BusinessRule)
  : Res (list BusinessRule) :=
  match rules with
  | [] => Ok []
  | rule :: rest =>
      if filtered_out domain (br_domain rule) then
        matching_rules query_lower domain category rest
      else if filtered_out category (br_category rule) then
        matching_rules query_lower domain category rest
      else
        match to_text rule with
        | Raise e => Raise e
        | Ok text =>
            let rule_text := lower text in
            match matching_rules query_lower domain category rest with
            | Raise e => Raise e
            | Ok more =>
                Ok (if contains query_lower rule_text then rule :: more
                    else more)
            end
        end
  end.

(** [search_rules].  [sort(key=..., reverse=True)] is stable too: rules
    of equal priority keep their order, which is what the stable
    ascending sort by the negated key computes. *)
Definition search_rules (self : BusinessRulesManager) (query : string)
    (domain category : option string) : Res (list BusinessRule) :=
  let query_lower := lower query in
  match matching_rules query_lower domain category (rules self) with
  | Raise e => Raise e
  | Ok matching => Ok (sort_by (fun r => (- br_priority r)%Z) matching)
  end.

End Search.

End Manager.

(* ================================================================== *)
(** * QdrantRAG *)
(* ================================================================== *)

(** A vector of floats *)
Definition Embedding : Type := list Q.

(** [range(0, n, step)] for a positive [step] *)
Definition range_by (n step : nat) : list nat :=
  map (fun k => k * step)%nat (seq 0 ((n + step - 1) / step)).

Module Qdrant.

(** [FieldCondition(key=..., match=MatchValue(value=...))] and
    [FieldCondition(key=..., range=Range(gte=...))] *)
Inductive FieldCondition : Type :=
| MatchValue (key value : string)
| RangeGte (key : string) (gte : Z).

(** [Filter(must=...)] *)
Definition Filter : Type := list FieldCondition.

(** [PointStruct(id=..., vector=..., payload=...)] *)
Record PointStruct : Type := mkPoint {
  point_id : string;
  vector : Embedding;
  payload : list (string * PyVal)
}.

(** The payload of a stored point as [search_similar_rules] reads it
    back: the rule id and the text are strings, as [add_rules] wrote
    them; a key that the point lacks is [None]. *)
Record Payload : Type := mkPayload {
  p_rule_id : option string;
  p_text_content : option string;
  p_fields : list (string * PyVal)
}.

(** A point that the client returns, with its score. *)
Record ScoredPoint : Type := mkScoredPoint {
  hit_score : Q;
  hit_payload : Payload
}.

(** What [get_collection] tells of a collection. *)
Record CollectionInfo : Type := mkCollectionInfo {
  points_count : Z;
  vectors_size : Z;
  vectors_distance : string
}.

(** The [qdrant_client] library, and [uuid.uuid4]. *)
Class QdrantClient (X : Type) : Type := {
  new_client : string -> Z -> M X unit;
  get_collections : M X (list string);
  delete_collection : string -> M X unit;
  create_cosine_collection : string -> Z -> M X unit;
  upsert : string -> list PointStruct -> M X unit;
  search : string -> Embedding -> option Filter -> Z -> M X (list ScoredPoint);
  scroll : string -> Filter -> Z -> M X (list ScoredPoint);
  get_collection : string -> M X CollectionInfo;
  uuid4 : M X string
}.

(** [self]; [client] is set once [connect] has built one. *)
Record QdrantRAG : Type := mkQdrantRAG {
  host : string;
  port : Z;
  collection_name : string;
  vector_size : Z;
  client : bool
}.

(** [__init__] *)
Definition init (host : string) (port : Z) (collection_name : string)
    (vector_size : Z) : QdrantRAG :=
  mkQdrantRAG host port collection_name vector_size false.

Definition batch_size : nat := 100.

(** The batches of the insert loop: [points[i:i + batch_size]] for [i]
    in [range(0, len(points), batch_size)]. *)
Definition batches (points : list PointStruct) : list (list PointStruct) :=
  map (fun i => py_slice points (Z.of_nat i) (Z.of_nat (i + batch_size)))
      (range_by (length points) batch_size).

(** "Build filters" *)
Definition must_conditions (domain_filter category_filter : option string)
    (min_priority : option Z) : list FieldCondition :=
  match domain_filter with
  | Some d => if hint_given domain_filter then [MatchValue "domain" d] else []
  | None => []
  end
  ++ match category_filter with
     | Some c =>
         if hint_given category_filter then [MatchValue "category" c] else []
     | None => []
     end
  ++ match min_priority with
     | Some p => if (p =? 0)%Z then [] else [RangeGte "priority" p]
     | None => []
     end.

(** [Filter(must=must_conditions) if must_conditions else None] *)
Definition query_filter (domain_filter category_filter : option string)
    (min_priority : option Z) : option Filter :=
  let must := must_conditions domain_filter category_filter min_priority in
  if nonempty must then Some must else None.

(** The keys of the payload that go into [SearchResult.metadata]. *)
Definition metadata_keys : list string :=
  ["name"; "description"; "domain"; "category"; "condition"; "action";
   "priority"; "parameters"; "metadata"].

Section QdrantRAG.

Context {X : Type} {qdrant : QdrantClient X}.

(** [connect] *)
Definition connect (self : QdrantRAG) : M X (bool * QdrantRAG) :=
  try_except
    (new_client (host self) (port self) ;;;
     ret (true, mkQdrantRAG (host self) (port self) (collection_name self)
                            (vector_size self) true))
    (fun e => ret (false, self)).

(** [create_collection] *)
Definition create_collection (self : QdrantRAG) (recreate : bool) : M X bool :=
  if negb (client self) then ret false
  else
    try_except
      (collections <- get_collections ;;
       let collection_exists :=
         existsb (fun name => (name =? collection_name self)%string)
                 collections in
       collection_exists <-
         (if collection_exists && recreate then
            delete_collection (collection_name self) ;;; ret false
          else ret collection_exists) ;;
       (if negb collection_exists then
          create_cosine_collection (collection_name self) (vector_size self)
        else ret tt) ;;;
       ret true)
      (fun e => ret false).

(** One point of [add_rules]. *)
Definition point_of (item : list (string * PyVal) * Embedding)
  : M X PointStruct :=
  let '(rule_data, embedding) := item in
  let field k := subscript k (assoc k rule_data) in
  id <- uuid4 ;;
  rule_id <- field "id" ;;
  name <- field "name" ;;
  description <- field "description" ;;
  domain <- field "domain" ;;
  category <- field "category" ;;
  condition <- field "condition" ;;
  action <- field "action" ;;
  priority <- field "priority" ;;
  parameters <- field "parameters" ;;
  metadata <- field "metadata" ;;
  ret (mkPoint id embedding
         [("rule_id", rule_id); ("name", name); ("description", description);
          ("domain", domain); ("category", category);
          ("condition", condition); ("action", action);
          ("priority", priority); ("parameters", parameters);
          ("metadata", metadata);
          ("text_content",
           match assoc "text_content" rule_data with
           | Some t => t | None => VStr "" end)]).

(** [add_rules] *)
Definition add_rules (self : QdrantRAG)
    (rules_data : list (list (string * PyVal))) (embeddings : list Embedding)
  : M X bool :=
  if negb (client self) then ret false
  else if negb (length rules_data =? length embeddings)%nat then ret false
  else
    try_except
      (points <- Agent.map_m point_of (combine rules_data embeddings) ;;
       for_each (batches points)
                (fun batch => upsert (collection_name self) batch) ;;;
       ret true)
      (fun e => ret false).

(** [SearchResult(rule_id=..., score=..., content=..., metadata={...})]
    from the payload of a point *)
Definition search_result_of (score : Q) (payload : Payload)
  : M X SearchResult :=
  let field k := subscript k (assoc k (p_fields payload)) in
  rule_id <- subscript "rule_id" (p_rule_id payload) ;;
  let content :=
    match p_text_content payload with Some t => t | None => "" end in
  name <- field "name" ;;
  description <- field "description" ;;
  domain <- field "domain" ;;
  category <- field "category" ;;
  condition <- field "condition" ;;
  action <- field "action" ;;
  priority <- field "priority" ;;
  parameters <- field "parameters" ;;
  metadata <- field "metadata" ;;
  ret (mkSearchResult rule_id score content
         [("name", name); ("description", description); ("domain", domain);
          ("category", category); ("condition", condition);
          ("action", action); ("priority", priority);
          ("parameters", parameters); ("metadata", metadata)]).

(** [search_similar_rules] *)
Definition search_similar_rules (self : QdrantRAG)
    (query_embedding : Embedding) (top_k : Z)
    (domain_filter category_filter : option string) (min_priority : option Z)
  : M X (list SearchResult) :=
  if negb (client self) then ret []
  else
    try_except
      (search_result <-
         search (collection_name self) query_embedding
                (query_filter domain_filter category_filter min_priority)
                top_k ;;
       Agent.map_m (fun hit => search_result_of (hit_score hit)
                                                (hit_payload hit))
                   search_result)
      (fun e => ret []).

(** [get_rule_by_id]: the first point that carries the id, as a perfect
    match. *)
Definition get_rule_by_id (self : QdrantRAG) (rule_id : string)
  : M X (option SearchResult) :=
  if negb (client self) then ret None
  else
    try_except
      (points <- scroll (collection_name self)
                        [MatchValue "rule_id" rule_id] 1 ;;
       match points with
       | hit :: _ =>
           result <- search_result_of 1 (hit_payload hit) ;;
           ret (Some result)
       | [] => ret None
       end)
      (fun e => ret None).

(** [get_collection_info] *)
Definition get_collection_info (self : QdrantRAG) : M X PyVal :=
  if negb (client self) then ret (VDict [("error", VStr "Not connected")])
  else
    try_except
      (info <- get_collection (collection_name self) ;;
       ret (VDict [("status", VStr "connected");
                   ("collection_name", VStr (collection_name self));
                   ("points_count", VInt (points_count info));
                   ("vector_size", VInt (vectors_size info));
                   ("distance", VStr (vectors_distance info))]))
      (fun e => ret (VDict [("error", VStr (exn_text e))])).

(** [clear_collection] *)
Definition clear_collection (self : QdrantRAG) : M X bool :=
  if negb (client self) then ret false
  else
    try_except
      (delete_collection (collection_name self) ;;;
       create_collection self false ;;;
       ret true)
      (fun e => ret false).

End QdrantRAG.

End Qdrant.

(* ================================================================== *)
(** * BusinessRulesRAG *)
(* ================================================================== *)

(** [EmbeddingsService], as the RAG service uses it; either generator
    returns [None] when it fails. *)
Class EmbeddingsService (X : Type) : Type := {
  generate_embeddings : list string -> M X (option (list Embedding));
  generate_single_embedding : string -> M X (option Embedding);
  embedding_model_name : X -> string
}.

Module Rag.

(** [self]; the embeddings service is the instance in scope. *)
Record BusinessRulesRAG : Type := mkRag {
  rules_manager : Manager.BusinessRulesManager;
  vector_size : Z;
  qdrant_rag : Qdrant.QdrantRAG;
  initialized : bool
}.

Section BusinessRulesRAG.

Context {X : Type} {runtime : PyRuntime} {sets : PySets}
        {qdrant : Qdrant.QdrantClient X} {embeddings : EmbeddingsService X}.

(** [rule_data = rule.to_dict(); rule_data["text_content"] = text] *)
Definition rule_data_of (item : BusinessRule * string)
  : list (string * PyVal) :=
  dict_set "text_content" (VStr (snd item)) (Manager.to_dict_items (fst item)).

(** [index_rules] *)
Definition index_rules (self : BusinessRulesRAG) : M X bool :=
  if negb (initialized self) then ret false
  else
    try_except
      (let rules := Manager.get_all_rules (rules_manager self) in
       if negb (nonempty rules) then ret true
       else
         rule_texts <- lift_res (Manager.map_res Manager.to_text rules) ;;
         embeddings <- generate_embeddings rule_texts ;;
         match embeddings with
         | None => ret false
         | Some embeddings =>
             let rules_data := map rule_data_of (combine rules rule_texts) in
             Qdrant.add_rules (qdrant_rag self) rules_data embeddings
         end)
      (fun e => ret false).

(** [query_rules] *)
Definition query_rules (self : BusinessRulesRAG) (query : string) (top_k : Z)
    (domain_filter category_filter : option string) (min_priority : option Z)
    (confidence_threshold : Q) : M X (list SearchResult) :=
  if negb (initialized self) then ret []
  else
    try_except
      (query_embedding <- generate_single_embedding query ;;
       match query_embedding with
       | None => ret []
       | Some query_embedding =>
           results <-
             Qdrant.search_similar_rules (qdrant_rag self) query_embedding
                                         top_k domain_filter category_filter
                                         min_priority ;;
           ret (filter (fun r => Qle_bool confidence_threshold (sr_score r))
                       results)
       end)
      (fun e => ret []).

(** [get_rule_by_id] *)
Definition get_rule_by_id (self : BusinessRulesRAG) (rule_id : string)
  : option BusinessRule :=
  Manager.get_rule_by_id (rules_manager self) rule_id.

(** [get_system_info] *)
Definition get_system_info (self : BusinessRulesRAG) : M X PyVal :=
  let manager := rules_manager self in
  vector_db_info <- Qdrant.get_collection_info (qdrant_rag self) ;;
  embedding_model <- gets embedding_model_name ;;
  ret (VDict [("initialized", VBool (initialized self));
              ("total_rules",
               VInt (Z.of_nat (length (Manager.rules manager))));
              ("domains", VList (map VStr (Manager.get_domains manager)));
              ("categories",
               VList (map VStr (Manager.get_categories manager)));
              ("vector_db_info", vector_db_info);
              ("embedding_model", VStr embedding_model);
              ("vector_dimension", VInt (vector_size self))]).

(** The service as the agent holds it: [query_rules] is called with
    [top_k = 10], both hints, the threshold and no [min_priority]. *)
Definition as_rag_service (self : BusinessRulesRAG) : RagService X :=
  @Build_RagService X
    (fun query top_k domain_filter category_filter confidence_threshold =>
       query_rules self query (Z.of_nat top_k) domain_filter category_filter
                   None confidence_threshold)
    (fun rule_id => ret (get_rule_by_id self rule_id)).

End BusinessRulesRAG.

End Rag.

(** [BusinessRulesRAG], as far as the service reaches into it: the rules
    manager it holds and its status report. *)
Class RagFacade (X : Type) : Type := {
  rules_manager : X -> Manager.BusinessRulesManager;
  rag_get_system_info : M X PyVal
}.

(** [LocalLLMService.chat_with_context], as the service calls it: it is
    given the messages, each with its role and content, and the system
    prompt. *)
Class ChatModel (X : Type) : Type := {
  chat_with_context : list (string * string) -> option string -> M X string
}.

(* ================================================================== *)
(** * Text search and slices *)
(* ================================================================== *)

(** [s.find(c)] for a one-character [c]: the first index, or [-1] *)
Fixpoint py_find (c : ascii) (s : string) : Z :=
  match s with
  | EmptyString => (-1)%Z
  | String a rest =>
      if Ascii.eqb a c then 0%Z
      else let i := py_find c rest in
           if (i <? 0)%Z then (-1)%Z else (i + 1)%Z
  end.

(** [s.rfind(c)]: the last index, or [-1] *)
Fixpoint py_rfind (c : ascii) (s : string) : Z :=
  match s with
  | EmptyString => (-1)%Z
  | String a rest =>
      let i := py_rfind c rest in
      if (i <? 0)%Z then (if Ascii.eqb a c then 0%Z else (-1)%Z)
      else (i + 1)%Z
  end.

(** [s[start:stop]] *)
Definition str_slice (s : string) (start stop : Z) : string :=
  string_of_list_ascii (py_slice (list_ascii_of_string s) start stop).

(** [try: m  except cls: h], where [cls] has no subclasses *)
Definition try_except_class {A} (cls : string) (m : Res A) (h : Res A)
  : Res A :=
  match m with
  | Ok a => Ok a
  | Raise e => if (exn_class e =? cls)%string then h else Raise e
  end.

(** [json.loads] *)
Class Json : Type := {
  json_loads : string -> Res PyVal
}.

(* ================================================================== *)
(** * LocalLLMService *)
(* ================================================================== *)

Module LocalLLM.

(** The message roles of the chat interface. *)
Inductive MessageRole : Type := SYSTEM | USER | ASSISTANT.

(** [ChatMessage(role=..., content=...)] *)
Record ChatMessage : Type := mkChatMessage {
  cm_role : MessageRole;
  cm_content : string
}.

(** The [Ollama] model object: its constructor with the parameters of
    the service, [complete(prompt).text] and
    [chat(messages).message.content]. *)
Class Ollama (X : Type) : Type := {
  new_ollama : string -> string -> Q -> Q -> Z -> Q -> M X unit;
  complete : string -> M X string;
  chat : list ChatMessage -> M X string
}.

(** [self]; [llm] is set once [initialize] has built the model. *)
Record LocalLLMService : Type := mkLocalLLM {
  model : string;
  base_url : string;
  temperature : Q;
  top_p : Q;
  top_k : Z;
  request_timeout : Q;
  llm : bool
}.

(** [__init__] *)
Definition init (model base_url : string) (temperature top_p : Q)
    (top_k : Z) (request_timeout : Q) : LocalLLMService :=
  mkLocalLLM model base_url temperature top_p top_k request_timeout false.

(** [self.llm = ...] *)
Definition with_llm (self : LocalLLMService) : LocalLLMService :=
  mkLocalLLM (model self) (base_url self) (temperature self) (top_p self)
             (top_k self) (request_timeout self) true.

Section Parsing.

Context {json : Json}.

(** The text between the first opening and the last closing brace, when
    there is one. *)
Definition json_span (response_text : string) : option string :=
  let start_idx := py_find "{" response_text in
  let end_idx := (py_rfind "}" response_text + 1)%Z in
  if negb (start_idx =? -1)%Z && (end_idx >? start_idx)%Z
  then Some (str_slice response_text start_idx end_idx)
  else None.

(** [_parse_analysis_response] *)
Definition _parse_analysis_response (response_text : string) : Res PyVal :=
  try_except_class "JSONDecodeError"
    match json_span response_text with
    | Some json_str => json_loads json_str
    | None =>
        Ok (VDict [("applicable_rules", VList []);
                   ("overall_assessment", VStr response_text);
                   ("recommended_actions", VList [])])
    end
    (Ok (VDict [("applicable_rules", VList []);
                ("overall_assessment", VStr response_text);
                ("recommended_actions", VList []);
                ("parsing_error", VStr "Failed to parse JSON response")])).

(** [_parse_reasoning_response] *)
Definition _parse_reasoning_response (response_text : string) : Res PyVal :=
  try_except_class "JSONDecodeError"
    match json_span response_text with
    | Some json_str => json_loads json_str
    | None =>
        Ok (VDict [("executable_rules", VList []);
                   ("conflicts", VList []);
                   ("execution_plan", VStr response_text)])
    end
    (Ok (VDict [("executable_rules", VList []);
                ("conflicts", VList []);
                ("execution_plan", VStr response_text);
                ("parsing_error", VStr "Failed to parse JSON response")])).

End Parsing.

Section Chat.

Context {X : Type} {ollama : Ollama X}.

(** [initialize]: the model is built and asked to complete ["Hello"]. *)
Definition initialize (self : LocalLLMService)
  : M X (bool * LocalLLMService) :=
  fun x =>
    match new_ollama (model self) (base_url self) (temperature self)
                     (top_p self) (top_k self) (request_timeout self) x with
    | (Raise e, x1) => (Ok (false, self), x1)
    | (Ok _, x1) =>
        let self1 := with_llm self in
        match complete "Hello" x1 with
        | (Ok _, x2) => (Ok (true, self1), x2)
        | (Raise e, x2) => (Ok (false, self1), x2)
        end
    end.

(** The message that one entry of the conversation becomes. *)
Definition chat_message_of (msg : string * string) : ChatMessage :=
  mkChatMessage (if (fst msg =? "user")%string then USER else ASSISTANT)
                (snd msg).

(** [chat_with_context]; a message is its role and its content. *)
Definition chat_with_context (self : LocalLLMService)
    (messages : list (string * string)) (system_prompt : option string)
  : M X string :=
  if negb (llm self) then ret "Error: LLM service not initialized"
  else
    try_except
      (let chat_messages :=
         match system_prompt with
         | Some p => if hint_given system_prompt
                     then [mkChatMessage SYSTEM p] else []
         | None => []
         end
         ++ map chat_message_of messages in
       chat chat_messages)
      (fun e => ret (String.append "Error: " (exn_text e))).

(** The service as [AgenticSystemService] holds it. *)
Definition as_chat_model (self : LocalLLMService) : ChatModel X :=
  @Build_ChatModel X (chat_with_context self).

End Chat.

End LocalLLM.

(* ================================================================== *)
(** * Performance monitoring *)
(* ================================================================== *)

(** [time.time()] *)
Class Time (X : Type) : Type := {
  time_time : X -> Q * X
}.

(** The float arithmetic of the monitor: [a - b], [sum(l)] and [a / b]. *)
Class PyFloats : Type := {
  float_sub : Q -> Q -> Q;
  float_sum : list Q -> Q;
  true_div : Q -> Q -> Q
}.

(** [d[k] = f(d[k])] for a key of the dictionary *)
Definition adjust {A} (k : string) (f : A -> A) (d : list (string * A))
  : list (string * A) :=
  map (fun item => if (fst item =? k)%string
                   then (fst item, f (snd item)) else item) d.

(** [min(l)] and [max(l)] of a list that starts with [q] *)
Definition py_min (q : Q) (l : list Q) : Q :=
  fold_left (fun m a => if Qle_bool m a then m else a) l q.

Definition py_max (q : Q) (l : list Q) : Q :=
  fold_left (fun m a => if Qle_bool a m then m else a) l q.

Module Performance.

(** [PerformanceMetrics] *)
Record PerformanceMetrics : Type := mkMetrics {
  operation : string;
  start_time : Q;
  end_time : option Q;
  duration : option Q;
  success : bool;
  error : option string;
  metadata : list (string * PyVal)
}.

(** The entry of one operation type in the summary. *)
Record TypeStats : Type := mkTypeStats {
  ts_count : nat;
  ts_successful : nat;
  ts_failed : nat;
  ts_avg_duration : PyVal
}.

(** The summary of a monitor that has recorded something. *)
Record Summary : Type := mkSummary {
  total_operations : nat;
  successful_operations : nat;
  failed_operations : nat;
  completion_rate : Q;
  avg_duration : PyVal;
  min_duration : PyVal;
  max_duration : PyVal;
  operations_by_type : list (string * TypeStats)
}.

(** What [get_metrics_summary] returns: [{"total_operations": 0}], or the
    full summary. *)
Inductive MetricsSummary : Type :=
| NoOperations
| Operations (summary : Summary).

(** [PerformanceMonitor]: the records are objects that the monitor's list
    and the callers of [start_operation] both refer to, so they live in a
    heap and [metrics] lists their addresses. *)
Record PerformanceMonitor : Type := mkMonitor {
  heap : list PerformanceMetrics;
  metrics : list nat
}.

(** [__init__] *)
Definition init : PerformanceMonitor := mkMonitor [] [].

(** The records that [self.metrics] lists. *)
Definition records (self : PerformanceMonitor) : list PerformanceMetrics :=
  flat_map (fun ref => match nth_error (heap self) ref with
                       | Some m => [m]
                       | None => []
                       end) (metrics self).

Section Monitor.

Context {X : Type} {time : Time X} {floats : PyFloats}.

(** [PerformanceMetrics.complete], given the time read *)
Definition complete (t : Q) (success : bool) (error : option string)
    (self : PerformanceMetrics) : PerformanceMetrics :=
  mkMetrics (operation self) (start_time self) (Some t)
            (Some (float_sub t (start_time self))) success error
            (metadata self).

(** [start_operation]; it returns the address of the new record. *)
Definition start_operation (operation : string)
    (metadata : option (list (string * PyVal)))
  : M (X * PerformanceMonitor) nat :=
  fun s =>
    let '(x, self) := s in
    let '(t, x1) := time_time x in
    let m := mkMetrics operation t None None true None
                       (match metadata with Some d => d | None => [] end) in
    let ref := length (heap self) in
    (Ok ref, (x1, mkMonitor (heap self ++ [m]) (metrics self ++ [ref]))).

(** [complete_operation] *)
Definition complete_operation (ref : nat) (success : bool)
    (error : option string) : M (X * PerformanceMonitor) unit :=
  fun s =>
    let '(x, self) := s in
    let '(t, x1) := time_time x in
    (Ok tt, (x1, mkMonitor (update_at ref (complete t success error)
                                      (heap self))
                           (metrics self))).

(** [clear_metrics] *)
Definition clear_metrics (self : PerformanceMonitor) : PerformanceMonitor :=
  mkMonitor (heap self) [].

(** [[m.duration for m in l if m.duration is not None]] *)
Definition durations_of (l : list PerformanceMetrics) : list Q :=
  flat_map (fun m => match duration m with Some d => [d] | None => [] end) l.

(** [sum(durations) / len(durations) if durations else 0] *)
Definition average (durations : list Q) : PyVal :=
  match durations with
  | [] => VInt 0
  | _ => VFloat (true_div (float_sum durations)
                          (inject_Z (Z.of_nat (length durations))))
  end.

(** One round of the loop that groups the records by operation. *)
Definition count_in (by_type : list (string * TypeStats))
    (m : PerformanceMetrics) : list (string * TypeStats) :=
  let op_type := operation m in
  let by_type :=
    if negb (dict_has op_type by_type)
    then dict_set op_type (mkTypeStats 0 0 0 (VInt 0)) by_type
    else by_type in
  let by_type :=
    adjust op_type
           (fun st => mkTypeStats (ts_count st + 1) (ts_successful st)
                                  (ts_failed st) (ts_avg_duration st))
           by_type in
  if success m then
    adjust op_type
           (fun st => mkTypeStats (ts_count st) (ts_successful st + 1)
                                  (ts_failed st) (ts_avg_duration st))
           by_type
  else
    adjust op_type
           (fun st => mkTypeStats (ts_count st) (ts_successful st)
                                  (ts_failed st + 1) (ts_avg_duration st))
           by_type.

(** One round of the loop that fills in the averages. *)
Definition with_average (completed : list PerformanceMetrics)
    (item : string * TypeStats) : string * TypeStats :=
  let op_type := fst item in
  let op_durations :=
    durations_of
      (filter (fun m => (operation m =? op_type)%string) completed) in
  match op_durations with
  | [] => item
  | _ => (op_type,
          mkTypeStats (ts_count (snd item)) (ts_successful (snd item))
                      (ts_failed (snd item)) (average op_durations))
  end.

(** [get_metrics_summary] *)
Definition get_metrics_summary (self : PerformanceMonitor) : MetricsSummary :=
  let all := records self in
  match metrics self with
  | [] => NoOperations
  | _ =>
      let successful := filter success all in
      let failed := filter (fun m => negb (success m)) all in
      let completed :=
        filter (fun m => match duration m with Some _ => true | None => false end)
               all in
      let durations := durations_of completed in
      let by_type := fold_left count_in all [] in
      Operations
        (mkSummary
           (length (metrics self)) (length successful) (length failed)
           (true_div (inject_Z (Z.of_nat (length successful)))
                     (inject_Z (Z.of_nat (length (metrics self)))))
           (average durations)
           (match durations with
            | [] => VInt 0 | d :: ds => VFloat (py_min d ds) end)
           (match durations with
            | [] => VInt 0 | d :: ds => VFloat (py_max d ds) end)
           (map (with_average completed) by_type))
  end.

(** [operation_name or f"{func.__module__}.{func.__name__}"] *)
Definition operation_of (operation_name : option string)
    (func_module func_name : string) : string :=
  match operation_name with
  | Some n => if hint_given operation_name then n
              else (func_module ++ "." ++ func_name)%string
  | None => (func_module ++ "." ++ func_name)%string
  end.

(** The wrapper that [monitor_performance(operation_name, include_args)]
    puts around [func]; [args_count] and [kwargs_keys] describe the
    arguments of the call, which [func] has already been given. *)
Definition sync_wrapper {A} (operation_name : option string)
    (include_args : bool) (func_module func_name : string)
    (args_count : nat) (kwargs_keys : list string)
    (func : M (X * PerformanceMonitor) A) : M (X * PerformanceMonitor) A :=
  let operation := operation_of operation_name func_module func_name in
  let metadata :=
    if include_args
    then [("args_count", VInt (Z.of_nat args_count));
          ("kwargs_keys", VList (map VStr kwargs_keys))]
    else [] in
  ref <- start_operation operation (Some metadata) ;;
  try_except
    (result <- func ;;
     complete_operation ref true None ;;;
     ret result)
    (fun e =>
       complete_operation ref false (Some (exn_text e)) ;;;
       raise e).

End Monitor.

End Performance.

(* ================================================================== *)
(** * AgenticSystemService *)
(* ================================================================== *)

Module Service.

(** [self], after [__init__]; [initialize] sets the flag and builds the
    agent and the engine, which nothing reads before the flag is set.
    The thread-pool offload of the two calls is a detail of the host:
    the calls run one after the other. *)
Record AgenticSystemService : Type := mkService {
  agent : Agent.BusinessRuleAgent;
  execution_engine : Engine.BusinessRuleExecutionEngine;
  initialized : bool
}.

(** The dictionary that [analyze_and_execute] returns; the analysis has
    the fields of the decision. *)
Record FullProcess : Type := mkFullProcess {
  fp_scenario : string;
  fp_analysis : Agent.AgentDecision;
  fp_execution : ExecutionSummary
}.

(** The execution summary that stands for "nothing ran". *)
Definition no_execution (scenario : string) : ExecutionSummary :=
  mkExecutionSummary "no_execution" scenario "skipped" 0 0 0 (VInt 0) []
                     (Some "No applicable rules found").

Section Service.

Context {X : Type} {clock : Clock X} {runtime : PyRuntime} {executor : ActionExecutor X}
        {rag : RagService X} {llm : LLMService X}.

(** [analyze_scenario] *)
Definition analyze_scenario (self : AgenticSystemService)
    (scenario : string) (context : option PyVal)
    (domain_hint category_hint : option string)
  : M X (Agent.AgentDecision * AgenticSystemService) :=
  if negb (initialized self) then
    raise (RuntimeError "System not initialized")
  else
    out <- Agent.analyze_scenario (agent self) scenario context
                                  domain_hint category_hint ;;
    ret (fst out,
         mkService (snd out) (execution_engine self) (initialized self)).

(** [execute_rules] *)
Definition execute_rules (self : AgenticSystemService)
    (scenario : string) (rules : list RuleDict) (context : PyVal)
  : M X (ExecutionSummary * AgenticSystemService) :=
  if negb (initialized self) then
    raise (RuntimeError "System not initialized")
  else
    plan <- Engine.create_execution_plan (execution_engine self)
                                         scenario rules context ;;
    out <- Engine.execute_plan (execution_engine self) plan ;;
    ret (Engine.get_execution_summary (fst out),
         mkService (agent self) (snd out) (initialized self)).

(** [analyze_and_execute] *)
Definition analyze_and_execute (self : AgenticSystemService)
    (scenario : string) (context : option PyVal)
    (domain_hint category_hint : option string)
  : M X (FullProcess * AgenticSystemService) :=
  analyzed <- analyze_scenario self scenario context
                               domain_hint category_hint ;;
  let '(analysis, self) := analyzed in
  executed <-
    (if nonempty (Agent.applicable_rules analysis) then
       execute_rules self scenario (Agent.applicable_rules analysis)
                     (context_or_empty context)
     else ret (no_execution scenario, self)) ;;
  let '(execution, self) := executed in
  ret (mkFullProcess scenario analysis execution, self).

End Service.


(** What [get_rules] returns. *)
Record RulesPage : Type := mkRulesPage {
  rp_rules : list PyVal;
  rp_total_count : nat;
  rp_domains : list string;
  rp_categories : list string
}.

(** What [chat_with_agent] returns. *)
Record ChatReply : Type := mkChatReply {
  cr_message : string;
  cr_context : option PyVal;
  cr_suggested_actions : list string
}.

Definition system_prompt : string :=
  "You are a business rules expert assistant. You help users understand and work with business rules across different domains like finance, inventory, compliance, and customer service.

You have access to a comprehensive database of business rules and can:
1. Explain how specific rules work
2. Help identify which rules apply to business scenarios
3. Provide guidance on rule implementation
4. Answer questions about rule priorities and conflicts

Be helpful, accurate, and provide specific examples when possible.".

(** [any(word in message_lower for word in words)] *)
Definition mentions_any (words : list string) (message_lower : string) : bool :=
  existsb (fun word => contains word message_lower) words.

(** "Suggest actions based on message content" *)
Definition suggest_actions {runtime : PyRuntime} (message : string)
  : list string :=
  let message_lower := lower message in
  Agent.part_if (mentions_any ["scenario"; "analyze"; "check"] message_lower)
                "Analyze a business scenario"
  ++ Agent.part_if (mentions_any ["rules"; "list"; "show"] message_lower)
                   "View available business rules"
  ++ Agent.part_if (mentions_any ["execute"; "run"; "apply"] message_lower)
                   "Execute business rules".

(** [if filter: rules = [r for r in rules if r.field == filter]] *)
Definition keep_matching (filter : option string)
    (field : BusinessRule -> string) (rules : list BusinessRule)
  : list BusinessRule :=
  match filter with
  | Some f =>
      if hint_given filter
      then List.filter (fun r => (field r =? f)%string) rules
      else rules
  | None => rules
  end.

Section Operations.

Context {X : Type} {clock : Clock X} {runtime : PyRuntime} {sets : PySets}
        {executor : ActionExecutor X}
        {rag : RagService X} {llm : LLMService X}
        {facade : RagFacade X} {chat_model : ChatModel X}.

(** [get_rules] *)
Definition get_rules (self : AgenticSystemService)
    (domain category : option string) (limit offset : Z) : M X RulesPage :=
  if negb (initialized self) then
    raise (RuntimeError "System not initialized")
  else
    manager <- gets rules_manager ;;
    let all_rules := Manager.get_all_rules manager in
    let filtered_rules := keep_matching domain br_domain all_rules in
    let filtered_rules := keep_matching category br_category filtered_rules in
    let total_count := length filtered_rules in
    let paginated_rules := py_slice filtered_rules offset (offset + limit) in
    ret (mkRulesPage (map Manager.to_dict paginated_rules) total_count
                     (Manager.get_domains manager)
                     (Manager.get_categories manager)).

(** [get_rule_by_id] *)
Definition get_rule_by_id (self : AgenticSystemService) (rule_id : string)
  : M X (option PyVal) :=
  if negb (initialized self) then
    raise (RuntimeError "System not initialized")
  else
    rule <- get_rule_by_id rule_id ;;
    ret (option_map Manager.to_dict rule).

(** [get_execution_history] *)
Definition get_execution_history (self : AgenticSystemService)
    (limit offset : Z) : M X (list ExecutionSummary) :=
  if negb (initialized self) then
    raise (RuntimeError "System not initialized")
  else
    let history := Engine.get_execution_history (execution_engine self) in
    ret (py_slice history offset (offset + limit)).

(** [chat_with_agent]; a message is its role and its content, and an
    empty or missing history starts a new list. *)
Definition chat_with_agent (self : AgenticSystemService) (message : string)
    (context : option PyVal)
    (conversation_history : option (list (string * string)))
  : M X ChatReply :=
  if negb (initialized self) then
    raise (RuntimeError "System not initialized")
  else
    let messages :=
      match conversation_history with Some l => l | None => [] end
      ++ [("user", message)] in
    response <- chat_with_context messages (Some system_prompt) ;;
    ret (mkChatReply response context (suggest_actions message)).

(** [get_system_info] *)
Definition get_system_info (self : AgenticSystemService) : M X PyVal :=
  if negb (initialized self) then
    ret (VDict [("initialized", VBool false);
                ("error", VStr "System not initialized")])
  else rag_get_system_info.

(** [cleanup] *)
Definition cleanup (self : AgenticSystemService) : AgenticSystemService :=
  mkService (agent self) (execution_engine self) false.

End Operations.

End Service.

(* ================================================================== *)
(** * A small concrete world *)
(* ================================================================== *)

(** Instances on which the definitions above run: a clock that ticks by
    one second per reading, a runtime that knows integers, an executor
    that crashes on one action, a two-rule catalog and a reasoning
    provider with fixed answers. *)
Module Demo.

Definition World : Type := nat.

Definition at_second (n : nat) : datetime :=
  mkDatetime 2024 1 1 (n / 3600 mod 24) (n / 60 mod 60) (n mod 60) 0.

#[export] Instance ticking_clock : Clock World := {
  datetime_now := fun n => (at_second n, S n)
}.

(** A clock stopped within one second: readings differ in microseconds. *)
Definition frozen_clock : Clock World := {|
  datetime_now := fun n => (mkDatetime 2024 1 1 12 0 0 n, S n)
|}.

Definition TypeError (msg : string) : Exn := mkExn "TypeError" msg.

(** A runtime for integers and ASCII text, whose float product is
    exact. *)
#[export] Instance int_runtime : PyRuntime := {
  py_mul := fun a b =>
    match a, b with
    | VInt x, VInt y => Ok (VInt (x * y))
    | _, _ => Raise (TypeError "unsupported operand type(s) for *")
    end;
  py_int := fun a =>
    match a with
    | VInt x => Ok (VInt x)
    | _ => Raise (TypeError "int() argument must be a number")
    end;
  py_gt := fun a b =>
    match a, b with
    | VInt x, VInt y => Ok (x >? y)%Z
    | _, _ => Raise (TypeError "'>' not supported")
    end;
  py_str := fun v => match v with VStr s => s | _ => type_name v end;
  format_exc := fun e =>
    ("Traceback (most recent call last): " ++ exn_text e)%string;
  total_seconds := fun e s => 0;
  float_mul := Qmult;
  unicode_lower := lower_ascii_text
}.

(** The Kelvin sign, U+212A, in UTF-8. *)
Definition kelvin_sign : string :=
  String "226" (String "132" (String "170" EmptyString)).

(** A case mapping that knows the Kelvin sign besides the letters A to
    Z: [str.lower] turns it into [k]. *)
Fixpoint kelvin_lower (s : string) : string :=
  match s with
  | EmptyString => EmptyString
  | String "226" (String "132" (String "170" rest)) =>
      String "k" (kelvin_lower rest)
  | String c rest => String (lower_ascii c) (kelvin_lower rest)
  end.

Definition kelvin_runtime : PyRuntime := {|
  py_mul := py_mul (PyRuntime := int_runtime);
  py_int := py_int (PyRuntime := int_runtime);
  py_gt := py_gt (PyRuntime := int_runtime);
  py_str := py_str (PyRuntime := int_runtime);
  format_exc := format_exc (PyRuntime := int_runtime);
  total_seconds := total_seconds (PyRuntime := int_runtime);
  float_mul := Qmult;
  unicode_lower := kelvin_lower
|}.

(** A runtime whose floats have one decimal digit, products being
    rounded down: its 0.7 * 0.8 is 0.5, as the machine's is below
    0.56. *)
Definition coarse_runtime : PyRuntime := {|
  py_mul := py_mul (PyRuntime := int_runtime);
  py_int := py_int (PyRuntime := int_runtime);
  py_gt := py_gt (PyRuntime := int_runtime);
  py_str := py_str (PyRuntime := int_runtime);
  format_exc := format_exc (PyRuntime := int_runtime);
  total_seconds := total_seconds (PyRuntime := int_runtime);
  float_mul := fun a b =>
    let p := Qmult a b in ((Qnum p * 10) / Z.pos (Qden p)) # 10;
  unicode_lower := lower_ascii_text
|}.

(** An executor whose action ["explode"] raises and whose other actions
    go to the default registry. *)
Definition crashing_executor : ActionExecutor World := {|
  execute := fun action parameters context =>
    if (action =? "explode")%string
    then raise (mkExn "RuntimeError" "boom")
    else DefaultActionExecutor.execute action parameters context;
  validate_parameters := DefaultActionExecutor.validate_parameters
|}.

Definition rule (id name action : string) (priority : Z) : RuleDict :=
  mkRuleDict (Some id) (Some name) None None (Some action)
             (Some (VInt priority)) (Some (VDict [])) None None None None.

Definition plan_of (rules : list RuleDict) : ExecutionPlan :=
  mkExecutionPlan "plan_x" "demo" rules (VDict []) [] PENDING None None.

Definition rule_A : BusinessRule :=
  mkBusinessRule "A" "Rule A" "first" "finance" "loan" "c" "instant_approve"
                 1 (VDict []) (VDict []).

Definition rule_B : BusinessRule :=
  mkBusinessRule "B" "Rule B" "second" "finance" "loan" "c"
                 "require_collateral" 3 (VDict []) (VDict []).

Definition hit (id : string) : SearchResult :=
  mkSearchResult id (9 # 10) ""
    [("name", VStr id); ("description", VStr ""); ("domain", VStr "finance");
     ("category", VStr "loan"); ("condition", VStr "c");
     ("action", VStr "a"); ("priority", VInt 1); ("parameters", VDict [])].

#[export] Instance catalog : RagService World := {
  query_rules := fun query top_k domain category threshold =>
    ret [hit "A"; hit "B"];
  get_rule_by_id := fun id =>
    ret (if (id =? "A")%string then Some rule_A
         else if (id =? "B")%string then Some rule_B else None)
}.

(** A vector store that is down. *)
Definition broken_catalog : RagService World := {|
  query_rules := fun query top_k domain category threshold =>
    raise (mkExn "ConnectionError" "vector store unreachable");
  get_rule_by_id := fun id => ret None
|}.

(** A provider that reports the confidence [c] for rule A alone and
    approves every rule it is asked to order. *)
Definition provider (c : Q) : LLMService World := {|
  llm_analyze_scenario := fun scenario rules_data context =>
    ret (mkAnalysis None (Some [mkRuleRef (Some "A") (Some c) (Some "fits")])
                    (Some "ok") (Some []));
  reason_about_rules := fun rules context =>
    ret (mkReasoning
           (Some (map (fun r => mkExecRule (r_id r) (Some 1%Z) (Some true)
                                           (Some "done")) rules)));
  generate_explanation := fun rules outcome context => ret "because"
|}.

(** A provider that finds both rules applicable and, asked to order
    them, lists them in reverse with the same execution order. *)
Definition reversing_provider : LLMService World := {|
  llm_analyze_scenario := fun scenario rules_data context =>
    ret (mkAnalysis None
           (Some [mkRuleRef (Some "A") (Some (9 # 10)) (Some "fits");
                  mkRuleRef (Some "B") (Some (9 # 10)) (Some "fits")])
           (Some "ok") (Some []));
  reason_about_rules := fun rules context =>
    ret (mkReasoning
           (Some (map (fun r => mkExecRule (r_id r) (Some 1%Z) (Some true)
                                           (Some "done")) (List.rev rules))));
  generate_explanation := fun rules outcome context => ret "because"
|}.

(** A provider whose analysis call raises. *)
Definition crashing_provider : LLMService World := {|
  llm_analyze_scenario := fun scenario rules_data context =>
    raise (mkExn "TimeoutError" "model timed out");
  reason_about_rules := fun rules context => ret (mkReasoning None);
  generate_explanation := fun rules outcome context => ret ""
|}.

(** A rule as [_determine_executable_rules] holds it before the merge,
    and one entry of the provider's ordering. *)
Definition candidate (id : string) : RuleDict :=
  mkRuleDict (Some id) (Some id) (Some "") (Some "c") (Some "notify")
             (Some (VInt 1)) (Some (VDict [])) (Some (9 # 10)) (Some "fits")
             None None.

Definition ordered (id : string) (order : Z) (met : bool) : ExecRule :=
  mkExecRule (Some id) (Some order) (Some met) (Some "done").

Definition default_executor : ActionExecutor World :=
  DefaultActionExecutor.default_action_executor.

(** A plan whose second, critical rule crashes. *)
Definition two_rules : list RuleDict :=
  [rule "a" "A" "instant_approve" 1; rule "b" "B" "explode" 3].

Definition service : Service.AgenticSystemService :=
  Service.mkService (Agent.init (7 # 10) 10) Engine.init true.

(** What [execute_plan] returns for a fresh plan of [rules], run by a
    fresh engine with the executor [ex] when the clock shows second 0. *)
Definition run_plan (ex : ActionExecutor World) (rules : list RuleDict)
  : Res (ExecutionPlan * Engine.BusinessRuleExecutionEngine) :=
  fst (Engine.execute_plan (executor := ex) Engine.init (plan_of rules)
                           (0%nat : World)).

(** What [analyze_scenario] returns with the vector store [store] and the
    provider [model]. *)
Definition run_analysis (store : RagService World) (model : LLMService World)
  : Res (Agent.AgentDecision * Agent.BusinessRuleAgent) :=
  fst (Agent.analyze_scenario (rag := store) (llm := model)
         (Agent.init (7 # 10) 10) "loan request" None None None
         (0%nat : World)).


(** ** The collaborators of the further operations *)

(** An executor that turns every parameter set down. *)
Definition strict_executor : ActionExecutor World := {|
  execute := DefaultActionExecutor.execute;
  validate_parameters := fun action parameters => ret false
|}.

(** A rule dictionary without a priority. *)
Definition unprioritized (id name action : string) : RuleDict :=
  mkRuleDict (Some id) (Some name) None None (Some action) None
             (Some (VDict [])) None None None None.

(** A rule dictionary whose priority is the value [priority]: [None] as
    a request with a null priority has it, or a word as a rule file may
    have it. *)
Definition rule_with (id name action : string) (priority : PyVal)
  : RuleDict :=
  mkRuleDict (Some id) (Some name) None None (Some action) (Some priority)
             (Some (VDict [])) None None None None.

(** Two rules without a priority, of which the first asks for an action
    that is not registered. *)
Definition keyless_rules : list RuleDict :=
  [unprioritized "a" "A" "fly_to_the_moon";
   unprioritized "b" "B" "instant_approve"].

(** A rule whose priority is [None] and whose action crashes, followed
    by a rule that is in order. *)
Definition null_priority_rules : list RuleDict :=
  [rule_with "a" "A" "explode" VNone; rule "b" "B" "instant_approve" 1].

(** A plan as the engine keeps it in its history. *)
Definition executed (id : string) : ExecutionPlan :=
  mkExecutionPlan id "demo" [] (VDict []) [] COMPLETED
                  (Some (at_second 0)) (Some (at_second 1)).

(** A service whose engine has executed five plans. *)
Definition busy_service : Service.AgenticSystemService :=
  Service.mkService (Agent.init (7 # 10) 10)
    (Engine.mkEngine (map executed ["p0"; "p1"; "p2"; "p3"; "p4"])) true.

(** A provider whose analysis reports an error. *)
Definition failing_provider : LLMService World := {|
  llm_analyze_scenario := fun scenario rules_data context =>
    ret (mkAnalysis (Some "LLM service not initialized") None None None);
  reason_about_rules := fun rules context => ret (mkReasoning None);
  generate_explanation := fun rules outcome context => ret ""
|}.

(** Sets that list their elements in the order in which [nodup] leaves
    them. *)
#[export] Instance listed_sets : PySets := {
  list_of_set := nodup string_dec;
  list_of_set_distinct := fun l => Permutation_refl (nodup string_dec l)
}.

(** A manager that holds the two rules of the catalog. *)
Definition manager : Manager.BusinessRulesManager :=
  Manager._build_indices (Manager.mkManager "rules" [rule_A; rule_B] [] []).

(** A rule whose name is spelt with the Kelvin sign, and a manager that
    holds it besides rule A. *)
Definition rule_K : BusinessRule :=
  mkBusinessRule "K" ("Stoc" ++ kelvin_sign) "third" "inventory" "levels"
                 "c" "emergency_reorder" 2 (VDict []) (VDict []).

Definition kelvin_manager : Manager.BusinessRulesManager :=
  Manager._build_indices (Manager.mkManager "rules" [rule_A; rule_K] [] []).

#[export] Instance rag_facade : RagFacade World := {
  rules_manager := fun _ => manager;
  rag_get_system_info := ret (VDict [("initialized", VBool true)])
}.

(** A vector store that answers every search with rule A at the score
    0.9 and rule B at 0.5, and counts the points it is sent. *)
Definition stored (id : string) (score : Q) : Qdrant.ScoredPoint :=
  Qdrant.mkScoredPoint score
    (Qdrant.mkPayload (Some id) (Some "")
       [("name", VStr id); ("description", VStr "");
        ("domain", VStr "finance"); ("category", VStr "loan");
        ("condition", VStr "c"); ("action", VStr "a");
        ("priority", VInt 1); ("parameters", VDict []);
        ("metadata", VDict [])]).

#[export] Instance memory_store : Qdrant.QdrantClient World := {
  Qdrant.new_client := fun host port => ret tt;
  Qdrant.get_collections := ret ["business_rules"];
  Qdrant.delete_collection := fun name => ret tt;
  Qdrant.create_cosine_collection := fun name size => ret tt;
  Qdrant.upsert := fun name points => modify (fun n => n + length points)%nat;
  Qdrant.search := fun name query_vector query_filter limit =>
    ret [stored "A" (9 # 10); stored "B" (5 # 10)];
  Qdrant.scroll := fun name scroll_filter limit => ret [stored "A" 1];
  Qdrant.get_collection := fun name =>
    ret (Qdrant.mkCollectionInfo 2 384 "Cosine");
  Qdrant.uuid4 := fun n => (Ok (str_nat n), S n)
}.

#[export] Instance unit_embeddings : EmbeddingsService World := {
  generate_embeddings := fun texts => ret (Some (map (fun _ => [1]) texts));
  generate_single_embedding := fun text => ret (Some [1]);
  embedding_model_name := fun _ => "nomic-embed-text"
}.

(** The RAG service over the manager and the store, initialized. *)
Definition rag_store : Rag.BusinessRulesRAG :=
  Rag.mkRag manager 384 (Qdrant.mkQdrantRAG "localhost" 6333
                                            "business_rules" 384 true) true.

(** A model that is down. *)
#[export] Instance silent_model : LocalLLM.Ollama World := {
  LocalLLM.new_ollama := fun model base_url temperature top_p top_k
                             request_timeout => ret tt;
  LocalLLM.complete := fun prompt =>
    raise (mkExn "ConnectionError" "connection refused");
  LocalLLM.chat := fun messages =>
    raise (mkExn "ConnectionError" "connection refused")
}.

Definition local_llm : LocalLLM.LocalLLMService :=
  LocalLLM.with_llm
    (LocalLLM.init "llama3.2:1b" "http://localhost:11434" (3 # 10) (9 # 10)
                   40 60).

(** A parser that knows the empty object. *)
#[export] Instance small_json : Json := {
  json_loads := fun s =>
    if (s =? "{}")%string then Ok (VDict [])
    else Raise (mkExn "JSONDecodeError" "Expecting value")
}.

(** A timer that ticks by one second per reading, and exact arithmetic. *)
#[export] Instance ticking_timer : Time World := {
  time_time := fun n => (inject_Z (Z.of_nat n), S n)
}.

#[export] Instance exact_floats : PyFloats := {
  float_sub := Qminus;
  float_sum := sum_q;
  true_div := Qdiv
}.

End Demo.

(* ================================================================== *)
(** * Vocabulary of the properties *)
(* ================================================================== *)

Section EngineVocabulary.

Context {X : Type} {clock : Clock X} {runtime : PyRuntime} {executor : ActionExecutor X}.

(** The plan after [rs] has been appended to its results. *)
Definition with_results (rs : list ExecutionResult) (p : ExecutionPlan) :=
  mkExecutionPlan (plan_id p) (scenario p) (rules p) (context p)
                  (execution_results p ++ rs) (overall_status p)
                  (plan_start_time p) (plan_end_time p).

(** A handler that, when it returns, returns a mapping. *)
Definition returns_mapping
    (h : PyVal -> PyVal -> M X PyVal) : Prop :=
  forall parameters context x out x',
    h parameters context x = (Ok out, x') -> exists d, out = VDict d.

(** A rule that carries the two keys that [_execute_single_rule] reads
    before it enters its [try]. *)
Definition identified (rule : RuleDict) : Prop :=
  r_id rule <> None /\ r_name rule <> None.

(** The priority of a rule that carries an integer one. *)
Definition int_priority (rule : RuleDict) : option Z :=
  match r_priority rule with
  | Some (VInt p) => Some p
  | _ => None
  end.

(** A rule that carries an integer priority as well. *)
Definition prioritized (rule : RuleDict) : Prop :=
  identified rule /\ int_priority rule <> None.

(** A rule whose priority, where it has one, is a number: the
    comparison [rule.get("priority", 1) >= 3] of the loop returns. *)
Definition orderable (rule : RuleDict) : Prop :=
  exists critical, py_ge_int (Engine.priority_or_1 rule) 3 = Ok critical.

(** A rule that the loop gets past, whatever its action does. *)
Definition runnable (rule : RuleDict) : Prop :=
  identified rule /\ orderable rule.

(** The dispatch of [rule], started in the world [x], raises [e]: the
    body of the [try] of [_execute_single_rule], run on the fresh result
    and the world that the clock reading leaves, ends in [raise e]. *)
Definition dispatch_raises (rule : RuleDict) (context : PyVal) (x : X)
    (e : Exn) : Prop :=
  exists id name,
    r_id rule = Some id /\ r_name rule = Some name /\
    fst (Engine.dispatch rule context
           (snd (datetime_now x),
            Engine.fresh_result id name (fst (datetime_now x)))) = Raise e.

(** [runs_all context rules x results x']: starting in the world [x],
    every rule of [rules] was run, in order, each in the world its
    predecessor left; rule number [i] produced result number [i]; and a
    rule whose dispatch raised produced a FAILED result that carries the
    text of the exception. *)
Inductive runs_all (context : PyVal)
  : list RuleDict -> X -> list ExecutionResult -> X -> Prop :=
| runs_done : forall x, runs_all context [] x [] x
| runs_next : forall rule rest x result x1 results x2,
    Engine._execute_single_rule rule context x = (Ok result, x1) ->
    r_id rule = Some (rule_id result) ->
    (forall e, dispatch_raises rule context x e ->
               status result = FAILED /\
               error_message result = Some (VStr (exn_text e))) ->
    runs_all context rest x1 results x2 ->
    runs_all context (rule :: rest) x (result :: results) x2.

(** A sequence of [execute_plan] calls on one engine. *)
Fixpoint execute_sequence (self : Engine.BusinessRuleExecutionEngine)
    (plans : list ExecutionPlan)
  : M X Engine.BusinessRuleExecutionEngine :=
  match plans with
  | [] => ret self
  | plan :: rest =>
      out <- Engine.execute_plan self plan ;;
      execute_sequence (snd out) rest
  end.

(** A FAILED result of the plan carries the id of a rule of the plan
    whose priority is at least 3. *)
Definition critical_failure (p : ExecutionPlan) : Prop :=
  exists result rule priority,
    In result (execution_results p) /\ status result = FAILED /\
    In rule (rules p) /\ r_id rule = Some (rule_id result) /\
    int_priority rule = Some priority /\ (priority >= 3)%Z.

(** Some rule with the id [rule_id] has priority at least 3. *)
Definition critical_id (rules : list RuleDict) (rule_id : string) : bool :=
  existsb (fun rule =>
             match r_id rule, int_priority rule with
             | Some id, Some priority =>
                 (id =? rule_id)%string && (priority >=? 3)%Z
             | _, _ => false
             end) rules.

(** The same, with the result tied to the rule by its position: result
    number [i] is FAILED and rule number [i] has priority at least 3. *)
Definition critical_failure_at (p : ExecutionPlan) : Prop :=
  exists i result rule priority,
    nth_error (execution_results p) i = Some result /\
    status result = FAILED /\
    nth_error (rules p) i = Some rule /\
    int_priority rule = Some priority /\ (priority >= 3)%Z.

(** The plan as [execute_plan] leaves it before the loop. *)
Definition started (t : datetime) (plan : ExecutionPlan) : ExecutionPlan :=
  set_overall_status RUNNING (set_plan_start_time (Some t) plan).

(** The status that the aggregation computes when no subscript fails. *)
Definition final_status (p : ExecutionPlan) : ExecutionStatus :=
  if existsb (fun r => is_failed r && critical_id (rules p) (rule_id r))
             (execution_results p)
  then FAILED else COMPLETED.

End EngineVocabulary.

Section AgentVocabulary.

Context {X : Type} {runtime : PyRuntime} {rag : RagService X}
        {llm : LLMService X}.

(** The position of the first rule of [full_rules] with the id
    [rule_id]. *)
Fixpoint index_of_id (rule_id : string) (full_rules : list RuleDict)
  : option nat :=
  match full_rules with
  | [] => None
  | r :: rest =>
      match r_id r with
      | Some id =>
          if (id =? rule_id)%string then Some 0%nat
          else option_map S (index_of_id rule_id rest)
      | None => option_map S (index_of_id rule_id rest)
      end
  end.

(** The reference that one entry of the provider's answer contributes:
    the rule it names, when the entry says that the condition is met and
    the rule is among [full_rules]. *)
Definition approved_ref (full_rules : list RuleDict) (e : ExecRule)
  : list nat :=
  if Agent.condition_met e then
    match er_rule_id e with
    | Some rule_id =>
        match index_of_id rule_id full_rules with
        | Some i => [i]
        | None => []
        end
    | None => []
    end
  else [].

(** The approved rules, in the order in which the provider lists them. *)
Definition kept_refs (full_rules : list RuleDict)
    (executable_rules : list ExecRule) : list nat :=
  flat_map (approved_ref full_rules) executable_rules.

(** The first verdict that the provider returned for a rule. *)
Definition verdict (executable_rules : list ExecRule) (r : RuleDict)
  : option ExecRule :=
  find (fun e => match er_rule_id e, r_id r with
                 | Some a, Some b => (a =? b)%string
                 | _, _ => false
                 end) executable_rules.

(** The merge as the specification words it: go through the rules in
    retrieval order (the order of [full_rules]), drop each rule whose
    verdict is not true, and sort the rest by the returned
    [execution_order] with a stable sort, so that ties stay in retrieval
    order. *)
Definition merge_in_retrieval_order (full_rules : list RuleDict)
    (executable_rules : list ExecRule) : list RuleDict :=
  sort_by Agent.order_or_0
    (flat_map
       (fun r =>
          match verdict executable_rules r with
          | Some e =>
              if Agent.condition_met e
              then [Agent.update_order (Agent.execution_order_or_0 e)
                                       (Agent.expected_outcome_or_empty e) r]
              else []
          | None => []
          end)
       full_rules).

Definition in_unit_interval (q : Q) : Prop := 0 <= q /\ q <= 1.

Definition rule_in_bounds (r : RuleDict) : Prop :=
  in_unit_interval (Agent.confidence_or_0 r).

Definition ref_in_bounds (rule_ref : RuleRef) : Prop :=
  in_unit_interval (Agent.ref_confidence_or_0 rule_ref).

(** Every rule of the list has an id. *)
Definition named (full_rules : list RuleDict) : Prop :=
  Forall (fun id => id <> None) (map r_id full_rules).

(** An entry of the provider's answer that says that the condition is
    met also says for which rule. *)
Definition names_its_rule (e : ExecRule) : Prop :=
  Agent.condition_met e = true -> er_rule_id e <> None.

(** Ascending order of the sort keys. *)
Definition key_le {A} (key : A -> Z) (a b : A) : Prop :=
  (key a <= key b)%Z.

(** Every confidence that the reasoning provider reports lies in
    [[0,1]]. *)
Definition provider_confidences_in_unit_interval : Prop :=
  forall scenario rules_data context x analysis x',
    llm_analyze_scenario scenario rules_data context x = (Ok analysis, x') ->
    Forall ref_in_bounds (Agent.applicable_or_empty analysis).

(** [self] when [analyze_scenario] enters its [try]. *)
Definition entered (self : Agent.BusinessRuleAgent) (scenario : string)
  : Agent.BusinessRuleAgent :=
  Agent.set_iteration_count 0
    (Agent.set_current_scenario (Some scenario)
       (Agent.set_state Agent.ANALYZING self)).

End AgentVocabulary.


(* ================================================================== *)
(** * Vocabulary of the further properties *)
(* ================================================================== *)

Section ExecutorVocabulary.

(** [d.get(k, default)] on the entries of a mapping *)
Definition get_or {A} (k : string) (default : A) (d : list (string * A)) : A :=
  match assoc k d with Some a => a | None => default end.

(** An output that reports a success: a mapping whose ["success"] is
    [True] and whose ["action_taken"] is a string. *)
Definition reports_success (out : PyVal) : Prop :=
  exists d taken,
    out = VDict d /\ assoc "success" d = Some (VBool true) /\
    assoc "action_taken" d = Some (VStr taken).

(** An output that reports a failure: a mapping whose ["success"] is
    [False] and whose ["error"] is a string. *)
Definition reports_failure (out : PyVal) : Prop :=
  exists d msg,
    out = VDict d /\ assoc "success" d = Some (VBool false) /\
    assoc "error" d = Some (VStr msg).

(** The actions whose handlers compute with a value of the context. *)
Definition arithmetic_actions : list string :=
  ["emergency_reorder"; "increase_reorder_quantity";
   "route_to_billing_specialist"].

(** The actions whose handlers call [context.get]. *)
Definition context_reading_actions : list string :=
  ["instant_approve"; "generate_low_stock_alert"; "emergency_reorder";
   "block_reorder"; "increase_reorder_quantity"; "mark_for_clearance";
   "schedule_data_deletion"; "request_consent_renewal";
   "route_to_senior_agent"; "escalate_to_technical_team";
   "route_to_billing_specialist"].

Definition is_mapping (v : PyVal) : bool :=
  match v with VDict _ => true | _ => false end.

End ExecutorVocabulary.

Section HandlerVocabulary.
Context {X : Type}.

(** A handler that, when it returns, reports a success. *)
Definition returns_success (h : PyVal -> PyVal -> M X PyVal) : Prop :=
  forall parameters context x out x',
    h parameters context x = (Ok out, x') -> reports_success out.

End HandlerVocabulary.

Section PlanVocabulary.

(** A result as [_execute_single_rule] hands it back: it has reached a
    terminal status and its [end_time] is stamped. *)
Definition finished (r : ExecutionResult) : Prop :=
  (status r = FAILED \/ status r = COMPLETED) /\ end_time r <> None.

(** A value that is a float, as opposed to [None]. *)
Definition is_float (v : PyVal) : Prop := exists q, v = VFloat q.

End PlanVocabulary.

Section AgentCoverageVocabulary.
Import Agent.

(** A rule that carries the keys that the assembly of the decision
    subscripts. *)
Definition ready (r : RuleDict) : Prop :=
  r_id r <> None /\ r_name r <> None /\ r_action r <> None /\
  r_parameters r <> None.

(** A rule as [_determine_executable_rules] returns it: every key of the
    catalog entry, the provider's confidence and reasoning, and the
    execution order and expected outcome of the merge. *)
Definition complete (r : RuleDict) : Prop :=
  ready r /\ r_description r <> None /\ r_condition r <> None /\
  r_priority r <> None /\ r_confidence r <> None /\ r_reasoning r <> None /\
  r_execution_order r <> None /\ r_expected_outcome r <> None.

(** The confidence of the rule reaches the threshold of the agent. *)
Definition above_threshold (self : BusinessRuleAgent) (r : RuleDict) : Prop :=
  Qle_bool (confidence_threshold self) (confidence_or_0 r) = true.

End AgentCoverageVocabulary.

Section MergeVocabulary.

(** A rule as the lookup loop builds it: everything but the two keys of
    the merge. *)
Definition resolved (r : RuleDict) : Prop :=
  ready r /\ r_description r <> None /\ r_condition r <> None /\
  r_priority r <> None /\ r_confidence r <> None /\ r_reasoning r <> None.

(** A rule that the merge has updated. *)
Definition ordered_rule (r : RuleDict) : Prop :=
  r_execution_order r <> None /\ r_expected_outcome r <> None.

End MergeVocabulary.

Section ManagerVocabulary.
Context {runtime : PyRuntime}.

(** The last rule of the list that carries the id. *)
Definition last_with_id (rule_id : string) (rules : list BusinessRule)
  : option BusinessRule :=
  find (fun r => (br_id r =? rule_id)%string) (List.rev rules).

Definition in_domain (domain : string) (r : BusinessRule) : bool :=
  (br_domain r =? domain)%string.

(** The text of a rule whose [to_text] returns. *)
Definition text_of (r : BusinessRule) : string :=
  match Manager.to_text r with Ok s => s | Raise _ => "" end.

(** What [search_rules] asks of a rule. *)
Definition search_hit (query : string) (domain category : option string)
    (r : BusinessRule) : bool :=
  negb (Manager.filtered_out domain (br_domain r)) &&
  negb (Manager.filtered_out category (br_category r)) &&
  contains (lower query) (lower (text_of r)).

Definition priority_ge (a b : BusinessRule) : Prop :=
  (br_priority a >= br_priority b)%Z.

Definition has_mapping_parameters (r : BusinessRule) : Prop :=
  is_mapping (br_parameters r) = true.

End ManagerVocabulary.

Section IndexVocabulary.

(** The rules that the domain index lists under a domain. *)
Definition bucket (domain : string) (d : list (string * list BusinessRule))
  : list BusinessRule :=
  match assoc domain d with Some l => l | None => [] end.

End IndexVocabulary.

Section ServiceVocabulary.

(** The rules that [get_rules] counts: those that pass the two filters,
    where a filter that is missing or empty lets every rule pass. *)
Definition visible (domain category : option string) (r : BusinessRule)
  : bool :=
  match domain with
  | Some d => if hint_given domain then (br_domain r =? d)%string else true
  | None => true
  end &&
  match category with
  | Some c => if hint_given category then (br_category r =? c)%string else true
  | None => true
  end.

(** The page of [limit] entries that starts at [offset]. *)
Definition page_of {A} (l : list A) (limit offset : Z) : list A :=
  firstn (Z.to_nat limit) (skipn (Z.to_nat offset) l).

(** An operation that is refused: it raises the [RuntimeError] of an
    uninitialized service and leaves the world alone. *)
Definition refused {X A} (m : M X A) (x : X) : Prop :=
  m x = (Raise (RuntimeError "System not initialized"), x).

End ServiceVocabulary.

Section RetrievalVocabulary.

(** The score reaches the threshold. *)
Definition scores_at_least (threshold : Q) (r : SearchResult) : Prop :=
  Qle_bool threshold (sr_score r) = true.

(** A computation that returns, whatever it is given. *)
Definition returns {X A} (m : M X A) (x : X) : Prop :=
  exists a x', m x = (Ok a, x').

End RetrievalVocabulary.

Section TextVocabulary.

(** The character does not occur in the text. *)
Definition absent (c : ascii) (s : string) : Prop :=
  ~ In c (list_ascii_of_string s).

End TextVocabulary.

Section MonitorVocabulary.
Import Performance.

(** Every address in the monitor's list is that of a record. *)
Definition well_formed (self : PerformanceMonitor) : Prop :=
  Forall (fun ref => ref < length (heap self))%nat (metrics self).

(** The records of one operation type. *)
Definition of_type (op_type : string) (l : list PerformanceMetrics)
  : list PerformanceMetrics :=
  filter (fun m => (operation m =? op_type)%string) l.

(** [sum(st["count"] for st in by_type.values())] *)
Definition total_count (by_type : list (string * TypeStats)) : nat :=
  fold_right (fun item n => (ts_count (snd item) + n)%nat) 0%nat by_type.

End MonitorVocabulary.

Section GroupingVocabulary.
Import Performance.

(** What one record adds to the entry of its operation type. *)
Definition bump (m : PerformanceMetrics) (st : TypeStats) : TypeStats :=
  mkTypeStats (ts_count st + 1)
              (if success m then ts_successful st + 1 else ts_successful st)
              (if success m then ts_failed st else ts_failed st + 1)
              (ts_avg_duration st).

(** What the grouping loop keeps true of the entries [d] built from the
    records [p] seen so far. *)
Definition grouped (d : list (string * TypeStats))
    (p : list PerformanceMetrics) : Prop :=
  NoDup (keys d) /\
  (forall op, In op (keys d) <-> In op (map operation p)) /\
  (forall op st, In (op, st) d ->
     ts_count st = length (of_type op p) /\
     ts_successful st = length (filter success (of_type op p)) /\
     ts_failed st = length (filter (fun m => negb (success m)) (of_type op p))) /\
  total_count d = length p.

End GroupingVocabulary.

(* ================================================================== *)
(** * Reasoning about computations *)
(* ================================================================== *)

(** Unfolds the monad so that a computation shows the case analysis it
    performs. *)
Ltac unfold_monad :=
  unfold get_local, set_local, subscript, py_get, now, lift_res in *;
  unfold bind, ret, raise, gets, modify, try_except, try_finally,
    lift_world, with_local in *.

(** Splits on the scrutinee of the innermost [match] of the goal. *)
Ltac case_step :=
  match goal with
  | |- context [match ?e with _ => _ end] =>
      lazymatch e with
      | context [match _ with _ => _ end] => fail
      | _ => destruct e eqn:?
      end
  | |- context [if ?e then _ else _] =>
      lazymatch e with
      | context [match _ with _ => _ end] => fail
      | _ => destruct e eqn:?
      end
  end.

Create HintDb handlers.

#[global] Hint Unfold DefaultActionExecutor._approve_basic_review
  DefaultActionExecutor._require_manual_review
  DefaultActionExecutor._instant_approve
  DefaultActionExecutor._require_collateral
  DefaultActionExecutor._deny_access
  DefaultActionExecutor._generate_low_stock_alert
  DefaultActionExecutor._emergency_reorder
  DefaultActionExecutor._block_reorder
  DefaultActionExecutor._increase_reorder_quantity
  DefaultActionExecutor._mark_for_clearance
  DefaultActionExecutor._schedule_data_deletion
  DefaultActionExecutor._request_consent_renewal
  DefaultActionExecutor._execute_data_deletion
  DefaultActionExecutor._enforce_encryption
  DefaultActionExecutor._route_to_senior_agent
  DefaultActionExecutor._escalate_to_technical_team
  DefaultActionExecutor._route_to_global_team
  DefaultActionExecutor._route_to_billing_specialist
  DefaultActionExecutor.timestamp : handlers.

(** Runs a handler of the registry through all its cases. *)
Ltac handler_returns_mapping :=
  intros parameters context x out x';
  autounfold with handlers; unfold_monad; cbn beta iota delta [fst snd];
  repeat (case_step; cbn beta iota delta [fst snd]; try discriminate);
  intros E; inversion E; eexists; reflexivity.

(** Runs a handler of the registry through all its cases, to the report
    of a success. *)
Ltac handler_reports_success :=
  intros parameters context x out x';
  autounfold with handlers; unfold_monad; cbn beta iota delta [fst snd];
  repeat (case_step; cbn beta iota delta [fst snd]; try discriminate);
  (intros E; inversion E; subst; eexists; eexists;
   repeat split; reflexivity).

(** Splits the membership [H] in a literal list into its cases. *)
Ltac each_action H :=
  cbn in H;
  repeat (destruct H as [H | H]; [subst |]); [.. | destruct H].

(* ================================================================== *)
(** * Plan identifiers *)
(* ================================================================== *)

Section Formatting.

Lemma str_nat_inj (n m : nat) : str_nat n = str_nat m -> n = m.
Proof.
  unfold str_nat. intros Heq.
  apply Unsigned.to_uint_inj.
  assert (Some (Nat.to_uint n) = Some (Nat.to_uint m)) as Hsome
    by (rewrite <- !NilEmpty.usu; now rewrite Heq).
  now inversion Hsome.
Qed.

Lemma digits_have_no_underscore (d : uint) (a b : string) :
  NilEmpty.string_of_uint d <> (a ++ String "_" b)%string.
Proof.
  revert a. induction d; intros [| c a]; cbn; try discriminate;
    intros Heq; inversion Heq; subst; eapply IHd; eauto.
Qed.

Lemma str_nat_has_no_underscore (n : nat) (a b : string) :
  str_nat n <> (a ++ String "_" b)%string.
Proof. apply digits_have_no_underscore. Qed.

Lemma last_underscore_splits (a b d1 d2 : string) :
  (forall u v, d1 <> (u ++ String "_" v)%string) ->
  (forall u v, d2 <> (u ++ String "_" v)%string) ->
  (a ++ String "_" d1 = b ++ String "_" d2)%string ->
  a = b /\ d1 = d2.
Proof.
  intros H1 H2. revert b.
  induction a as [| c a IH]; intros [| c' b]; cbn; intros Heq;
    inversion Heq; subst.
  - auto.
  - exfalso. eapply H1; eauto.
  - exfalso. eapply H2; eauto.
  - destruct (IH b) as [-> ->]; auto.
Qed.

Lemma plan_id_eq_iff (ts1 ts2 : string) (n1 n2 : nat) :
  ("plan_" ++ ts1 ++ "_" ++ str_nat n1 = "plan_" ++ ts2 ++ "_" ++ str_nat n2)%string
  <-> ts1 = ts2 /\ n1 = n2.
Proof.
  split.
  - cbn. intros Heq. inversion Heq as [Heq'].
    apply last_underscore_splits in Heq';
      try apply str_nat_has_no_underscore.
    destruct Heq' as [-> Hn]. split; [reflexivity | now apply str_nat_inj].
  - now intros [-> ->].
Qed.

End Formatting.

(* ================================================================== *)
(** * The execution engine *)
(* ================================================================== *)

Section EngineFacts.
Context {X : Type} {clock : Clock X} {runtime : PyRuntime} {executor : ActionExecutor X}.
Import Engine.

Lemma dispatch_keeps_identity (rule : RuleDict) (ctx : PyVal) (x : X) (r : ExecutionResult) :
  rule_id (snd (snd (dispatch rule ctx (x, r)))) = rule_id r /\
  rule_name (snd (snd (dispatch rule ctx (x, r)))) = rule_name r.
Proof.
  unfold dispatch, set_result. unfold_monad. cbn.
  repeat (case_step; cbn; try (split; reflexivity)).
Qed.

Lemma dispatch_terminal_status (rule : RuleDict) (ctx : PyVal) (x : X) (r : ExecutionResult) u s :
  dispatch rule ctx (x, r) = (Ok u, s) ->
  status (snd s) = FAILED \/ status (snd s) = COMPLETED.
Proof.
  unfold dispatch, set_result. unfold_monad. cbn.
  repeat (case_step; cbn; try discriminate);
    intros E; inversion E; subst; cbn; auto.
Qed.

Lemma execute_single_rule_ok (rule : RuleDict) (ctx : PyVal) (x : X) id name :
  r_id rule = Some id -> r_name rule = Some name ->
  exists result x',
    _execute_single_rule rule ctx x = (Ok result, x') /\
    rule_id result = id /\ rule_name result = name /\
    (status result = FAILED \/ status result = COMPLETED) /\
    (forall e, dispatch_raises rule ctx x e ->
       status result = FAILED /\
       error_message result = Some (VStr (exn_text e))).
Proof.
  intros Hid Hname.
  unfold _execute_single_rule, dispatch_raises. rewrite Hid, Hname.
  unfold subscript, now, bind at 1 2 3. unfold ret at 1 2.
  destruct (datetime_now x) as [t x1] eqn:Hnow. cbn [fst snd].
  pose proof (dispatch_keeps_identity rule ctx x1 (fresh_result id name t))
    as Hkeep.
  pose proof (dispatch_terminal_status rule ctx x1 (fresh_result id name t))
    as Hterm.
  unfold bind, with_local, try_finally, try_except.
  destruct (dispatch rule ctx (x1, fresh_result id name t))
    as [[u | e] [x2 r2]] eqn:Hd; cbn [fst snd] in Hkeep.
  - unfold lift_world, now, set_result, set_local, modify, ret.
    cbn [fst snd].
    destruct (datetime_now x2) as [t2 x3]. cbn.
    eexists; eexists; split; [reflexivity |]. cbn.
    destruct Hkeep as [-> ->].
    split; [reflexivity |]. split; [reflexivity |].
    split; [exact (Hterm _ _ eq_refl) |].
    intros e (id' & name' & Hi & Hn & Hr).
    inversion Hi; inversion Hn; subst.
    rewrite Hd in Hr. discriminate.
  - unfold on_dispatch_error, lift_world, now, set_result, set_local,
      modify, ret, bind.
    cbn [fst snd].
    destruct (datetime_now x2) as [t2 x3]. cbn.
    eexists; eexists; split; [reflexivity |]. cbn.
    destruct Hkeep as [-> ->].
    split; [reflexivity |]. split; [reflexivity |].
    split; [now left |].
    intros e' (id' & name' & Hi & Hn & Hr).
    inversion Hi; inversion Hn; subst.
    rewrite Hd in Hr. cbn in Hr. inversion Hr. auto.
Qed.

Lemma with_results_nil (p : ExecutionPlan) : with_results [] p = p.
Proof. destruct p; unfold with_results; cbn. now rewrite app_nil_r. Qed.

Lemma with_results_app (rs1 rs2 : list ExecutionResult) (p : ExecutionPlan) :
  with_results rs2 (with_results rs1 p) = with_results (rs1 ++ rs2) p.
Proof. unfold with_results; cbn. now rewrite app_assoc. Qed.

Lemma run_rule_frame (rule : RuleDict) x p e r s :
  run_rule rule (x, (p, e)) = (r, s) ->
  exists results, snd s = (with_results results p, e).
Proof.
  unfold run_rule, get_plan, set_plan. unfold_monad. cbn beta iota delta [fst snd].
  destruct (_execute_single_rule rule (context p) x) as [[result | ex] x1].
  - cbn beta iota delta [fst snd]. repeat case_step; intros E; inversion E; subst; cbn;
      exists [result]; reflexivity.
  - intros E; inversion E; subst; cbn. exists []. now rewrite with_results_nil.
Qed.

Lemma for_each_run_rule_frame (rules : list RuleDict) : forall x p e r s,
  for_each rules run_rule (x, (p, e)) = (r, s) ->
  exists results, snd s = (with_results results p, e).
Proof.
  induction rules as [| rule rest IH]; intros x p e r s.
  - cbn. unfold ret. intros E; inversion E; subst. exists [].
    cbn. now rewrite with_results_nil.
  - cbn [for_each]. unfold bind.
    destruct (run_rule rule (x, (p, e))) as [[u | ex] [x1 [p1 e1]]] eqn:Hr;
      apply run_rule_frame in Hr; destruct Hr as [rs1 Hs1]; cbn in Hs1;
      inversion Hs1; subst.
    + intros E. apply IH in E. destruct E as [rs2 Hs2].
      exists (rs1 ++ rs2). now rewrite <- with_results_app.
    + intros E; inversion E; subst. exists rs1. reflexivity.
Qed.

Lemma run_rule_ok (rule : RuleDict) x p e :
  runnable rule ->
  exists result x',
    _execute_single_rule rule (context p) x = (Ok result, x') /\
    r_id rule = Some (rule_id result) /\
    (status result = FAILED \/ status result = COMPLETED) /\
    (forall ex, dispatch_raises rule (context p) x ex ->
       status result = FAILED /\
       error_message result = Some (VStr (exn_text ex))) /\
    run_rule rule (x, (p, e)) = (Ok tt, (x', (with_results [result] p, e))).
Proof.
  intros [[Hid Hname] [critical Hcmp]].
  destruct (r_id rule) as [id |] eqn:Eid; [| congruence].
  destruct (r_name rule) as [name |] eqn:Ename; [| congruence].
  destruct (@execute_single_rule_ok rule (context p) x _ _ Eid Ename)
    as (result & x' & Hrun & Hrid & _ & Hst & Hex).
  exists result, x'.
  split; [exact Hrun |]. split; [now rewrite Hrid |].
  split; [exact Hst |]. split; [exact Hex |].
  unfold run_rule, get_plan, set_plan. unfold_monad.
  cbn beta iota delta [fst snd].
  rewrite Hrun. cbn beta iota delta [fst snd]. rewrite Eid, Hcmp.
  destruct (is_failed result); [destruct critical |]; reflexivity.
Qed.

Lemma for_each_run_rule_ok (rules : list RuleDict) :
  Forall runnable rules -> forall x p e,
  exists results x',
    for_each rules run_rule (x, (p, e))
    = (Ok tt, (x', (with_results results p, e))) /\
    runs_all (context p) rules x results x' /\
    Forall (fun r => status r = FAILED \/ status r = COMPLETED) results.
Proof.
  induction 1 as [| rule rest Hrule _ IH]; intros x p e.
  - exists [], x. rewrite with_results_nil. repeat split; constructor.
  - destruct (@run_rule_ok rule x p e Hrule)
      as (result & x1 & Hsingle & Hid & Hst & Hex & Hrun).
    destruct (IH x1 (with_results [result] p) e)
      as (results & x2 & Hloop & Hall & Hsts).
    exists (result :: results), x2. repeat split.
    + cbn [for_each]. unfold bind. rewrite Hrun. rewrite Hloop.
      now rewrite with_results_app.
    + econstructor; eauto.
    + constructor; auto.
Qed.


Lemma any_critical_state {S} (rules : list RuleDict) (rid : string) (s : S) :
  snd (any_critical rules rid s) = s.
Proof.
  induction rules as [| rule rest IH]; cbn; [reflexivity |].
  unfold subscript, bind, ret, raise.
  destruct (r_id rule); cbn; [| reflexivity].
  destruct (_ =? _)%string; [| exact IH].
  destruct (r_priority rule) as [priority |]; cbn; [| reflexivity].
  unfold lift_res.
  destruct (py_ge_int priority 3) as [[|] | ex]; cbn;
    [reflexivity | exact IH | reflexivity].
Qed.

Lemma any_critical_ok {S} (rules : list RuleDict) (rid : string) (s : S) :
  Forall prioritized rules ->
  any_critical rules rid s = (Ok (critical_id rules rid), s).
Proof.
  induction 1 as [| rule rest [[Hid _] Hprio] _ IH]; cbn; [reflexivity |].
  unfold subscript, bind, ret, lift_res. unfold int_priority in *.
  destruct (r_id rule) as [id |]; [| congruence].
  destruct (r_priority rule) as [[| b | priority | q | t | l | d] |];
    try congruence.
  destruct (id =? rid)%string; cbn; [| exact IH].
  destruct (priority >=? 3)%Z; [reflexivity | exact IH].
Qed.

Lemma filter_m_state {S A} (p : A -> M S bool) (xs : list A) :
  (forall a s, snd (p a s) = s) -> forall s, snd (filter_m p xs s) = s.
Proof.
  intros Hp. induction xs as [| a rest IH]; intros s; cbn; [reflexivity |].
  unfold bind, ret. specialize (Hp a s).
  destruct (p a s) as [[b | e] s1]; cbn in Hp; subst; [| reflexivity].
  specialize (IH s).
  destruct (filter_m p rest s) as [[kept | e] s2]; cbn in IH; subst;
    reflexivity.
Qed.

Lemma filter_m_ok {S A} (p : A -> M S bool) (f : A -> bool) (xs : list A)
    (s : S) :
  (forall a, p a s = (Ok (f a), s)) ->
  filter_m p xs s = (Ok (filter f xs), s).
Proof.
  intros Hp. induction xs as [| a rest IH]; cbn; [reflexivity |].
  unfold bind, ret. rewrite Hp, IH. now destruct (f a).
Qed.

Lemma nonempty_filter {A} (f : A -> bool) (l : list A) :
  nonempty (filter f l) = existsb f l.
Proof.
  induction l as [| a rest IH]; cbn; [reflexivity |].
  destruct (f a); cbn; auto.
Qed.

Lemma filter_filter {A} (f g : A -> bool) (l : list A) :
  filter g (filter f l) = filter (fun a => f a && g a) l.
Proof.
  induction l as [| a rest IH]; cbn; [reflexivity |].
  destruct (f a); cbn; [destruct (g a) |]; now rewrite IH.
Qed.

Lemma determine_overall_status_ok (x : X) (p : ExecutionPlan) e :
  Forall prioritized (rules p) ->
  determine_overall_status (x, (p, e))
  = (Ok tt, (x, (set_overall_status (final_status p) p, e))).
Proof.
  intros Hrules.
  unfold determine_overall_status, get_plan, set_plan, final_status.
  unfold_monad. cbn beta iota delta [fst snd].
  rewrite <- nonempty_filter, <- filter_filter.
  destruct (filter is_failed (execution_results p)) as [| r0 failed] eqn:Hf;
    [reflexivity |].
  cbn beta iota delta [nonempty fst snd].
  rewrite (filter_m_ok _ (fun r => critical_id (rules p) (rule_id r))).
  2:{ intros a. now apply any_critical_ok. }
  destruct (nonempty _); reflexivity.
Qed.

Lemma determine_overall_status_frame (x : X) (p : ExecutionPlan) e r s :
  determine_overall_status (x, (p, e)) = (r, s) ->
  fst s = x /\ snd (snd s) = e /\
  match r with
  | Ok _ => exists st, (st = FAILED \/ st = COMPLETED) /\
                       fst (snd s) = set_overall_status st p
  | Raise _ => fst (snd s) = p
  end.
Proof.
  unfold determine_overall_status, get_plan, set_plan.
  unfold_monad. cbn beta iota delta [fst snd].
  destruct (nonempty (filter is_failed (execution_results p)));
    cbn beta iota delta [fst snd].
  - pose proof (@filter_m_state _ _
                  (fun r0 => any_critical (S:=X * Frame) (rules p) (rule_id r0))
                  (filter is_failed (execution_results p))
                  (fun a s0 => any_critical_state (rules p) (rule_id a) s0)
                  (x, (p, e))) as Hst.
    destruct (filter_m _ _ _) as [[kept | ex] s1]; cbn in Hst; subst s1.
    + destruct (nonempty kept); intros E; inversion E; subst; cbn;
        repeat split; eauto.
    + intros E; inversion E; subst; cbn. auto.
  - intros E; inversion E; subst; cbn. repeat split; eauto.
Qed.


Lemma execute_plan_total (self : BusinessRuleExecutionEngine)
    (plan : ExecutionPlan) (x : X) :
  exists plan' x',
    execute_plan self plan x
    = (Ok (plan', mkEngine (execution_history self ++ [plan'])), x') /\
    (overall_status plan' = FAILED \/ overall_status plan' = COMPLETED) /\
    rules plan' = rules plan.
Proof.
  unfold execute_plan, get_plan, set_plan, append_history.
  unfold_monad. cbn beta iota delta [fst snd].
  destruct (datetime_now x) as [t x1]. cbn beta iota delta [fst snd].
  fold (started t plan).
  destruct (for_each (rules (started t plan)) run_rule
                     (x1, (started t plan, self)))
    as [[u | ex] [x2 [p2 e2]]] eqn:Hloop;
    apply for_each_run_rule_frame in Hloop; destruct Hloop as [rs Hloop];
    cbn in Hloop; inversion Hloop; subst p2 e2; clear Hloop;
    cbn beta iota delta [fst snd].
  - destruct (determine_overall_status _)
      as [[u' | ex] [x3 [p3 e3]]] eqn:Hdet;
      apply determine_overall_status_frame in Hdet;
      cbn in Hdet; destruct Hdet as (-> & -> & Hp3);
      cbn beta iota delta [fst snd].
    + destruct Hp3 as (st & Hst & ->).
      destruct (datetime_now x2) as [t' x4]. cbn beta iota delta [fst snd].
      eexists; eexists; split; [reflexivity |]. cbn. auto.
    + subst p3. destruct (datetime_now x2) as [t' x4].
      cbn beta iota delta [fst snd].
      eexists; eexists; split; [reflexivity |]. cbn. auto.
  - destruct (datetime_now x2) as [t' x4]. cbn beta iota delta [fst snd].
    eexists; eexists; split; [reflexivity |]. cbn. auto.
Qed.


Lemma execute_plan_runs_all (self : BusinessRuleExecutionEngine)
    (plan : ExecutionPlan) (x : X) :
  Forall runnable (rules plan) ->
  exists plan' x' results x2,
    execute_plan self plan x
    = (Ok (plan', mkEngine (execution_history self ++ [plan'])), x') /\
    runs_all (context plan) (rules plan) (snd (datetime_now x)) results x2 /\
    execution_results plan' = execution_results plan ++ results /\
    rules plan' = rules plan /\
    (Forall prioritized (rules plan) ->
     overall_status plan' = final_status (with_results results plan)).
Proof.
  intros Hrules.
  unfold execute_plan, get_plan, set_plan, append_history.
  unfold_monad. cbn beta iota delta [fst snd].
  destruct (datetime_now x) as [t x1]. cbn beta iota delta [fst snd].
  fold (started t plan).
  destruct (@for_each_run_rule_ok (rules (started t plan)) Hrules
              x1 (started t plan) self)
    as (results & x2 & Hloop & Hall & _).
  rewrite Hloop. cbn beta iota delta [fst snd].
  destruct (determine_overall_status _)
    as [[u' | ex] [x3 [p3 e3]]] eqn:Hdet.
  - pose proof Hdet as Hframe.
    apply determine_overall_status_frame in Hframe.
    cbn in Hframe. destruct Hframe as (-> & -> & st & Hst & ->).
    cbn beta iota delta [fst snd].
    destruct (datetime_now x2) as [t' x4]. cbn beta iota delta [fst snd].
    eexists; eexists; exists results, x2.
    split; [reflexivity |]. cbn. repeat split; auto.
    intros Hprio.
    rewrite determine_overall_status_ok in Hdet by exact Hprio.
    inversion Hdet as [Heq]. unfold set_overall_status in Heq.
    now inversion Heq.
  - pose proof Hdet as Hframe.
    apply determine_overall_status_frame in Hframe.
    cbn in Hframe. destruct Hframe as (-> & -> & ->).
    cbn beta iota delta [fst snd].
    destruct (datetime_now x2) as [t' x4]. cbn beta iota delta [fst snd].
    eexists; eexists; exists results, x2.
    split; [reflexivity |]. cbn. repeat split; auto.
    intros Hprio.
    rewrite determine_overall_status_ok in Hdet by exact Hprio.
    discriminate.
Qed.

Lemma is_failed_iff (r : ExecutionResult) :
  is_failed r = true <-> status r = FAILED.
Proof. unfold is_failed. destruct (status r); cbn; split; congruence. Qed.

Lemma critical_id_iff (rules : list RuleDict) (rid : string) :
  critical_id rules rid = true <->
  exists rule priority,
    In rule rules /\ r_id rule = Some rid /\
    int_priority rule = Some priority /\ (priority >= 3)%Z.
Proof.
  unfold critical_id. rewrite existsb_exists. split.
  - intros (rule & Hin & Hrule).
    destruct (r_id rule) as [id |] eqn:Hid; [| discriminate].
    destruct (int_priority rule) as [priority |] eqn:Hp; [| discriminate].
    apply andb_true_iff in Hrule. destruct Hrule as [Heq Hge].
    apply String.eqb_eq in Heq. subst id.
    exists rule, priority. repeat split; auto. lia.
  - intros (rule & priority & Hin & Hid & Hp & Hge).
    exists rule. split; [exact Hin |]. rewrite Hid, Hp.
    rewrite String.eqb_refl. cbn. lia.
Qed.

Lemma final_status_failed_iff (p : ExecutionPlan) :
  final_status p = FAILED <-> critical_failure p.
Proof.
  unfold final_status, critical_failure.
  destruct (existsb _ _) eqn:Hex.
  - split; [intros _ | reflexivity].
    apply existsb_exists in Hex. destruct Hex as (result & Hin & Hr).
    apply andb_true_iff in Hr. destruct Hr as [Hf Hc].
    apply is_failed_iff in Hf. apply critical_id_iff in Hc.
    destruct Hc as (rule & priority & Hc).
    exists result, rule, priority. tauto.
  - split; [discriminate |].
    intros (result & rule & priority & Hin & Hst & Hrule & Hid & Hp & Hge).
    assert (existsb (fun r => is_failed r && critical_id (rules p) (rule_id r))
                    (execution_results p) = true) as Htrue.
    { apply existsb_exists. exists result. split; [exact Hin |].
      apply andb_true_iff. split; [now apply is_failed_iff |].
      apply critical_id_iff. eauto 6. }
    congruence.
Qed.

Lemma final_status_terminal (p : ExecutionPlan) :
  final_status p = FAILED \/ final_status p = COMPLETED.
Proof. unfold final_status. destruct (existsb _ _); auto. Qed.

Lemma runs_all_ids (ctx : PyVal) rules x results x' :
  runs_all ctx rules x results x' ->
  Forall2 (fun rule result => r_id rule = Some (rule_id result)) rules results.
Proof. induction 1; constructor; auto. Qed.

Lemma nodup_ids_position (rules : list RuleDict) i j rule rule' :
  NoDup (map r_id rules) ->
  nth_error rules i = Some rule -> nth_error rules j = Some rule' ->
  r_id rule = r_id rule' -> i = j.
Proof.
  intros Hnd Hi Hj Heq.
  apply (proj1 (NoDup_nth_error (map r_id rules)) Hnd).
  - rewrite length_map. apply nth_error_Some. congruence.
  - rewrite !nth_error_map, Hi, Hj. cbn. congruence.
Qed.

Lemma critical_failure_positional (p : ExecutionPlan) :
  NoDup (map r_id (rules p)) ->
  Forall2 (fun rule result => r_id rule = Some (rule_id result))
          (rules p) (execution_results p) ->
  critical_failure p <-> critical_failure_at p.
Proof.
  intros Hnd Hall. unfold critical_failure, critical_failure_at. split.
  - intros (result & rule & priority & Hin & Hst & Hrule & Hid & Hp & Hge).
    apply In_nth_error in Hin. destruct Hin as [i Hi].
    apply In_nth_error in Hrule. destruct Hrule as [j Hj].
    destruct (nth_error (rules p) i) as [rule_i |] eqn:Hri.
    + assert (r_id rule_i = Some (rule_id result)) as Hidi.
      { clear -Hall Hri Hi. revert i Hri Hi.
        induction Hall; intros [| i]; cbn; intros; try discriminate.
        - congruence.
        - eauto. }
      assert (i = j) by (eapply nodup_ids_position; eauto; congruence).
      subst j. exists i, result, rule, priority. repeat split; auto.
    + apply nth_error_None in Hri.
      assert (i < length (execution_results p))%nat
        by (apply nth_error_Some; congruence).
      apply Forall2_length in Hall. lia.
  - intros (i & result & rule & priority & Hi & Hst & Hri & Hp & Hge).
    exists result, rule, priority. repeat split; auto.
    + eapply nth_error_In; eauto.
    + eapply nth_error_In; eauto.
    + clear -Hall Hri Hi. revert i Hri Hi.
      induction Hall; intros [| i]; cbn; intros; try discriminate.
      * congruence.
      * eauto.
Qed.

End EngineFacts.

(* ================================================================== *)
(** * The stable sort *)
(* ================================================================== *)

Section Sorting.

Variable A : Type.
Variable key : A -> Z.

Lemma insert_by_perm (x : A) (l : list A) :
  Permutation (insert_by key x l) (x :: l).
Proof.
  induction l as [| y rest IH]; cbn; [reflexivity |].
  destruct (key x <=? key y)%Z; [reflexivity |].
  rewrite IH. apply perm_swap.
Qed.

Lemma sort_by_perm (l : list A) : Permutation (sort_by key l) l.
Proof.
  induction l as [| x rest IH]; cbn; [reflexivity |].
  rewrite insert_by_perm. now constructor.
Qed.

Lemma insert_by_sorted (x : A) (l : list A) :
  StronglySorted (key_le key) l -> StronglySorted (key_le key) (insert_by key x l).
Proof.
  induction 1 as [| y rest Hsorted IH Hall]; cbn.
  - repeat constructor.
  - destruct (key x <=? key y)%Z eqn:Hle.
    + apply Z.leb_le in Hle. constructor.
      * now constructor.
      * constructor; [exact Hle |].
        eapply Forall_impl; [| exact Hall].
        intros a Ha. unfold key_le in *. lia.
    + apply Z.leb_gt in Hle. constructor; [exact IH |].
      eapply Permutation_Forall.
      * symmetry. apply insert_by_perm.
      * constructor; [unfold key_le; lia | exact Hall].
Qed.

Lemma sort_by_sorted (l : list A) : StronglySorted (key_le key) (sort_by key l).
Proof.
  induction l as [| x rest IH]; cbn; [constructor |].
  now apply insert_by_sorted.
Qed.

Lemma insert_by_stable (k : Z) (x : A) (l : list A) :
  filter (fun a => key a =? k)%Z (insert_by key x l)
  = filter (fun a => key a =? k)%Z (x :: l).
Proof.
  induction l as [| y rest IH]; [reflexivity |].
  cbn [insert_by]. destruct (key x <=? key y)%Z eqn:Hle; [reflexivity |].
  apply Z.leb_gt in Hle. cbn [filter] in *. rewrite IH.
  destruct (key x =? k)%Z eqn:Hx, (key y =? k)%Z eqn:Hy; try reflexivity.
  apply Z.eqb_eq in Hx, Hy. lia.
Qed.

Lemma sort_by_stable (k : Z) (l : list A) :
  filter (fun a => key a =? k)%Z (sort_by key l)
  = filter (fun a => key a =? k)%Z l.
Proof.
  induction l as [| x rest IH]; [reflexivity |].
  cbn [sort_by fold_right]. fold (sort_by key rest).
  rewrite insert_by_stable. cbn [filter]. now rewrite IH.
Qed.

End Sorting.

(* ================================================================== *)
(** * The merge of the provider's ordering *)
(* ================================================================== *)

Section MergeFacts.
Context {X : Type} {runtime : PyRuntime} {rag : RagService X}
        {llm : LLMService X}.
Import Agent.

Lemma index_of_id_ids (rid : string) (s1 s2 : list RuleDict) :
  map r_id s1 = map r_id s2 -> index_of_id rid s1 = index_of_id rid s2.
Proof.
  revert s2. induction s1 as [| r rest IH]; intros [| r' rest'] Heq;
    cbn in *; try discriminate; [reflexivity |].
  inversion Heq as [[Hid Hrest]]. rewrite Hid, (IH _ Hrest). reflexivity.
Qed.

Lemma approved_ref_ids (s1 s2 : list RuleDict) (e : ExecRule) :
  map r_id s1 = map r_id s2 -> approved_ref s1 e = approved_ref s2 e.
Proof.
  intros Heq. unfold approved_ref.
  destruct (condition_met e); [| reflexivity].
  destruct (er_rule_id e); [| reflexivity].
  now rewrite (index_of_id_ids s s1 s2 Heq).
Qed.

Lemma kept_refs_ids (s1 s2 : list RuleDict) (execs : list ExecRule) :
  map r_id s1 = map r_id s2 -> kept_refs s1 execs = kept_refs s2 execs.
Proof.
  intros Heq. unfold kept_refs.
  induction execs as [| e rest IH]; cbn; [reflexivity |].
  now rewrite IH, (approved_ref_ids s1 s2 e Heq).
Qed.

Lemma update_at_ids (i : nat) (o : Z) (s : string) (store : list RuleDict) :
  map r_id (update_at i (update_order o s) store) = map r_id store.
Proof.
  revert i. induction store as [| r rest IH]; intros [| i]; cbn;
    try reflexivity. now rewrite IH.
Qed.

Lemma deref_update_at_same (i : nat) (f : RuleDict -> RuleDict)
    (store : list RuleDict) :
  (i < length store)%nat ->
  deref (update_at i f store) i = f (deref store i).
Proof.
  unfold deref. revert i. induction store as [| r rest IH]; intros [| i];
    cbn; intros Hlt; try lia; [reflexivity |]. apply IH. lia.
Qed.

Lemma deref_update_at_other (i j : nat) (f : RuleDict -> RuleDict)
    (store : list RuleDict) :
  i <> j -> deref (update_at i f store) j = deref store j.
Proof.
  unfold deref. revert i j.
  induction store as [| r rest IH]; intros [| i] [| j] Hne; cbn;
    try reflexivity; try congruence. apply IH. congruence.
Qed.

Lemma index_of_id_in_range (rid : string) (store : list RuleDict) (i : nat) :
  index_of_id rid store = Some i -> (i < length store)%nat.
Proof.
  revert i. induction store as [| r rest IH]; cbn; [discriminate |].
  intros i.
  destruct (r_id r) as [id |]; [destruct (id =? rid)%string |].
  - intros Heq; inversion Heq; lia.
  - destruct (index_of_id rid rest); cbn; [| discriminate].
    intros Heq; inversion Heq. specialize (IH _ eq_refl). lia.
  - destruct (index_of_id rid rest); cbn; [| discriminate].
    intros Heq; inversion Heq. specialize (IH _ eq_refl). lia.
Qed.

Lemma find_full_rule_ok (store : list RuleDict) (e : ExecRule) (rid : string) :
  named store -> er_rule_id e = Some rid ->
  forall (k : nat) (x : X),
    find_full_rule store e k x
    = (Ok (option_map (fun i => (i + k)%nat) (index_of_id rid store)), x).
Proof.
  intros Hnamed He. unfold named in Hnamed.
  induction store as [| r rest IH]; intros k x; cbn; [reflexivity |].
  cbn in Hnamed. inversion Hnamed as [| ? ? Hr Hrest]; subst.
  unfold subscript, bind, ret. rewrite He.
  destruct (r_id r) as [id |]; [| congruence].
  destruct (id =? rid)%string; [reflexivity |].
  rewrite (IH Hrest). destruct (index_of_id rid rest); cbn; [| reflexivity].
  do 3 f_equal. lia.
Qed.

Lemma find_full_rule_empty (e : ExecRule) (k : nat) (x : X) :
  find_full_rule [] e k x = (Ok None, x).
Proof. reflexivity. Qed.

Lemma update_order_twice (o1 o2 : Z) (s1 s2 : string) (r : RuleDict) :
  update_order o2 s2 (update_order o1 s1 r) = update_order o2 s2 r.
Proof. reflexivity. Qed.

Lemma merge_loop_ok (execs : list ExecRule) :
  Forall names_its_rule execs ->
  forall (store : list RuleDict) (refs : list nat) (x : X),
  named store ->
  exists store',
    merge_loop execs store refs x
    = (Ok (store', refs ++ kept_refs store execs), x) /\
    map r_id store' = map r_id store /\
    (forall i, ~ In i (kept_refs store execs) ->
               deref store' i = deref store i) /\
    (forall i, In i (kept_refs store execs) ->
       exists e, In e execs /\ condition_met e = true /\
                 approved_ref store e = [i] /\
                 deref store' i
                 = update_order (execution_order_or_0 e)
                                (expected_outcome_or_empty e)
                                (deref store i)).
Proof.
  induction 1 as [| e rest He _ IH]; intros store refs x Hnamed.
  - exists store. cbn. rewrite app_nil_r. repeat split; auto.
    intros i [].
  - cbn [merge_loop]. unfold kept_refs. cbn [flat_map].
    fold (kept_refs store rest).
    destruct (condition_met e) eqn:Hmet.
    + unfold names_its_rule in He. specialize (He Hmet).
      destruct (er_rule_id e) as [rid |] eqn:Hrid; [| congruence].
      unfold bind. rewrite (@find_full_rule_ok store e rid Hnamed Hrid).
      destruct (index_of_id rid store) as [i |] eqn:Hidx; cbn [option_map].
      * assert (approved_ref store e = [i]) as Happ
          by (unfold approved_ref; now rewrite Hmet, Hrid, Hidx).
        rewrite Happ, Nat.add_0_r.
        set (store1 := update_at i
                         (update_order (execution_order_or_0 e)
                                       (expected_outcome_or_empty e)) store).
        assert (map r_id store1 = map r_id store) as Hids
          by apply update_at_ids.
        assert (named store1) as Hnamed1
          by (unfold named; now rewrite Hids).
        destruct (IH store1 (refs ++ [i]) x Hnamed1)
          as (store' & Hrun & Hids' & Hrest & Hkept).
        rewrite (kept_refs_ids store1 store rest Hids) in Hrun, Hrest, Hkept.
        exists store'. rewrite Hrun, <- app_assoc. cbn [app].
        split; [reflexivity |]. split; [congruence |]. split.
        -- intros j Hj. cbn in Hj.
           rewrite Hrest by tauto.
           apply deref_update_at_other. tauto.
        -- intros j Hj.
           destruct (in_dec Nat.eq_dec j (kept_refs store rest))
             as [Hin | Hout].
           ++ destruct (Hkept j Hin) as (e' & He' & Hmet' & Href & Hval).
              exists e'. split; [now right |]. split; [exact Hmet' |].
              split;
                [now rewrite <- (approved_ref_ids store1 store e' Hids) |].
              rewrite Hval. destruct (Nat.eq_dec i j) as [-> | Hne].
              ** unfold store1. rewrite deref_update_at_same
                   by (eapply index_of_id_in_range; eauto).
                 apply update_order_twice.
              ** unfold store1. now rewrite deref_update_at_other.
           ++ destruct Hj as [<- | Hj]; [| tauto].
              exists e. split; [now left |]. split; [exact Hmet |].
              split; [exact Happ |].
              rewrite Hrest by exact Hout.
              unfold store1. apply deref_update_at_same.
              eapply index_of_id_in_range; eauto.
      * assert (approved_ref store e = []) as Happ
          by (unfold approved_ref; now rewrite Hmet, Hrid, Hidx).
        rewrite Happ.
        destruct (IH store refs x Hnamed)
          as (store' & Hrun & Hids' & Hrest & Hkept).
        exists store'. cbn [app]. rewrite Hrun.
        repeat split; auto.
        intros j Hj. destruct (Hkept j Hj) as (e' & He' & Hrest').
        exists e'. split; [now right | exact Hrest'].
    + assert (approved_ref store e = []) as Happ
        by (unfold approved_ref; now rewrite Hmet).
      rewrite Happ.
      destruct (IH store refs x Hnamed)
        as (store' & Hrun & Hids' & Hrest & Hkept).
      exists store'. cbn [app]. rewrite Hrun.
      repeat split; auto.
      intros j Hj. destruct (Hkept j Hj) as (e' & He' & Hrest').
      exists e'. split; [now right | exact Hrest'].
Qed.

End MergeFacts.

(* ================================================================== *)
(** * The mean of the confidences *)
(* ================================================================== *)

Section ConfidenceFacts.

Lemma sum_q_bounds (qs : list Q) : forall (acc : Q) (m : nat),
  0 <= acc -> acc <= inject_Z (Z.of_nat m) ->
  Forall in_unit_interval qs ->
  0 <= fold_left Qplus qs acc /\
  fold_left Qplus qs acc <= inject_Z (Z.of_nat (m + length qs)).
Proof.
  induction qs as [| q rest IH]; intros acc m Hlo Hhi Hall; cbn.
  - rewrite Nat.add_0_r. auto.
  - inversion Hall as [| ? ? [Hq0 Hq1] Hrest]; subst.
    replace (m + S (length rest))%nat with (S m + length rest)%nat by lia.
    apply IH; [| | exact Hrest].
    + rewrite <- (Qplus_0_l 0). now apply Qplus_le_compat.
    + rewrite Nat2Z.inj_succ, <- Z.add_1_r, inject_Z_plus.
      now apply Qplus_le_compat.
Qed.

Lemma mean_in_unit_interval (qs : list Q) :
  qs <> [] -> Forall in_unit_interval qs ->
  in_unit_interval (sum_q qs / inject_Z (Z.of_nat (length qs))).
Proof.
  intros Hne Hall. unfold sum_q.
  destruct (@sum_q_bounds qs 0 0%nat) as [Hlo Hhi];
    [apply Qle_refl | apply Qle_refl | exact Hall |].
  cbn [Nat.add] in Hhi.
  assert (0 < inject_Z (Z.of_nat (length qs))) as Hpos.
  { destruct qs; [congruence |]. unfold Qlt. cbn. lia. }
  split.
  - apply Qle_shift_div_l; [exact Hpos |]. now rewrite Qmult_0_l.
  - apply Qle_shift_div_r; [exact Hpos |]. now rewrite Qmult_1_l.
Qed.

Lemma overall_confidence_in_unit_interval (rules : list RuleDict) :
  Forall (fun r => in_unit_interval (Agent.confidence_or_0 r)) rules ->
  in_unit_interval (Agent.overall_confidence rules).
Proof.
  intros Hall. unfold Agent.overall_confidence.
  destruct rules as [| r rest]; cbn [nonempty].
  - split; unfold Qle; cbn; lia.
  - apply mean_in_unit_interval; [discriminate |].
    now apply Forall_map.
Qed.

End ConfidenceFacts.

(* ================================================================== *)
(** * The decision pipeline *)
(* ================================================================== *)

Section PipelineFacts.
Context {X : Type} {runtime : PyRuntime} {rag : RagService X}
        {llm : LLMService X}.
Import Agent.

Lemma resolve_rules_bounds (refs : list RuleRef) :
  Forall ref_in_bounds refs ->
  forall (x : X) rules x',
    resolve_rules refs x = (Ok rules, x') -> Forall rule_in_bounds rules.
Proof.
  induction 1 as [| rule_ref rest Href _ IH]; intros x rules x'; cbn.
  - unfold ret. intros E; inversion E. constructor.
  - unfold subscript, bind, ret, raise.
    destruct (rr_rule_id rule_ref) as [rid |]; [| discriminate].
    destruct (get_rule_by_id rid x) as [[found | e] x1]; [| discriminate].
    destruct (resolve_rules rest x1) as [[more | e] x2] eqn:Hrest;
      [| discriminate].
    specialize (IH _ _ _ Hrest).
    destruct found; intros E; inversion E; subst; [| exact IH].
    constructor; [exact Href | exact IH].
Qed.

Lemma update_at_Forall {A} (P : A -> Prop) (f : A -> A) (i : nat)
    (l : list A) :
  (forall a, P a -> P (f a)) -> Forall P l -> Forall P (update_at i f l).
Proof.
  intros Hf Hall. revert i.
  induction Hall as [| a rest Ha Hrest IH]; intros [| i]; cbn;
    constructor; auto.
Qed.

Lemma merge_loop_bounds (execs : list ExecRule) :
  forall (store : list RuleDict) (refs : list nat) (x : X) store' refs' x',
    merge_loop execs store refs x = (Ok (store', refs'), x') ->
    Forall rule_in_bounds store -> Forall rule_in_bounds store'.
Proof.
  induction execs as [| e rest IH]; intros store refs x store' refs' x'; cbn.
  - unfold ret. intros E; inversion E; subst. auto.
  - destruct (condition_met e); [| apply IH].
    unfold bind.
    destruct (find_full_rule store e 0 x) as [[[i |] | ex] x1];
      [| apply IH | discriminate].
    intros Hrun Hall. eapply IH; [exact Hrun |].
    apply update_at_Forall; [| exact Hall]. intros a Ha. exact Ha.
Qed.

Lemma deref_bounds (store : list RuleDict) (i : nat) :
  Forall rule_in_bounds store -> rule_in_bounds (deref store i).
Proof.
  intros Hall. unfold deref.
  destruct (nth_in_or_default i store
              (mkRuleDict None None None None None None None None None
                          None None)) as [Hin | ->].
  - eapply Forall_forall; eauto.
  - split; unfold Qle; cbn; lia.
Qed.

Lemma merge_and_sort_bounds (full_rules : list RuleDict)
    (executable_rules : list ExecRule) (x : X) final x' :
  merge_and_sort full_rules executable_rules x = (Ok final, x') ->
  Forall rule_in_bounds full_rules -> Forall rule_in_bounds final.
Proof.
  unfold merge_and_sort, bind, ret.
  destruct (merge_loop executable_rules full_rules [] x)
    as [[[store' refs'] | e] x1] eqn:Hloop; [| discriminate].
  intros E Hall; inversion E; subst.
  eapply Permutation_Forall; [symmetry; apply sort_by_perm |].
  apply Forall_map, Forall_forall. intros i _.
  apply deref_bounds. eapply merge_loop_bounds; eauto.
Qed.

Lemma determine_executable_rules_bounds (self : BusinessRuleAgent)
    (analysis_result : Analysis) (context : PyVal) (x : X) rules x' :
  _determine_executable_rules self analysis_result context x = (Ok rules, x') ->
  Forall ref_in_bounds (applicable_or_empty analysis_result) ->
  Forall rule_in_bounds rules.
Proof.
  unfold _determine_executable_rules. intros Hrun Hall.
  set (high := filter _ _) in Hrun.
  assert (Forall ref_in_bounds high) as Hhigh.
  { apply Forall_forall. intros rr Hin. apply filter_In in Hin.
    eapply Forall_forall; [exact Hall | tauto]. }
  destruct (nonempty high); cbn [negb] in Hrun.
  - unfold bind in Hrun.
    destruct (resolve_rules high x) as [[full_rules | e] x1] eqn:Hres;
      [| discriminate].
    destruct (reason_about_rules full_rules context x1)
      as [[reasoning_result | e] x2]; [| discriminate].
    eapply merge_and_sort_bounds; [exact Hrun |].
    eapply resolve_rules_bounds; eauto.
  - unfold ret in Hrun. inversion Hrun. constructor.
Qed.

Lemma analyze_with_llm_bounds (scenario : string) (rules : list SearchResult)
    (context : option PyVal) (x : X) analysis x' :
  provider_confidences_in_unit_interval ->
  _analyze_with_llm scenario rules context x = (Ok analysis, x') ->
  Forall ref_in_bounds (applicable_or_empty analysis).
Proof.
  intros Hprovider. unfold _analyze_with_llm, bind, ret.
  destruct (map_m rule_data rules x) as [[rules_data | e] x1];
    [| discriminate].
  destruct (llm_analyze_scenario scenario rules_data context x1)
    as [[a | e] x2] eqn:Hllm; [| discriminate].
  destruct (an_error a); intros E; inversion E; subst.
  - constructor.
  - eapply Hprovider; eauto.
Qed.

Lemma create_decision_fields (self : BusinessRuleAgent) (scenario : string)
    (executable_rules : list RuleDict) (analysis_result : Analysis)
    (explanation : string) (context : option PyVal) (x : X) d x' :
  _create_decision self scenario executable_rules analysis_result
                   explanation context x = (Ok d, x') ->
  applicable_rules d = executable_rules /\
  confidence d = overall_confidence executable_rules.
Proof.
  unfold _create_decision, bind, ret.
  destruct (plan_steps 0 executable_rules x) as [[steps | e] x1];
    [| discriminate].
  destruct (nonempty executable_rules).
  - destruct (actions_of executable_rules x1) as [[actions | e] x2];
      [| discriminate].
    intros E; inversion E; subst. auto.
  - intros E; inversion E; subst. auto.
Qed.

Lemma pipeline_confidence (scenario_description : string)
    (business_context : option PyVal)
    (domain_hint category_hint : option string)
    (x : X) (self : BusinessRuleAgent) d s :
  pipeline scenario_description business_context domain_hint category_hint
           (x, self) = (Ok d, s) ->
  confidence d = overall_confidence (applicable_rules d) /\
  (provider_confidences_in_unit_interval -> in_unit_interval (confidence d)).
Proof.
  unfold pipeline, get_self, set_self. unfold_monad.
  cbn beta iota delta [fst snd].
  destruct (_query_relevant_rules _ _ _ _ _) as [[relevant | e] x1];
    [| discriminate].
  cbn beta iota delta [fst snd].
  destruct relevant as [| hit hits]; cbn [nonempty negb].
  - intros E; inversion E; subst. cbn. split; [reflexivity |].
    intros _. split; unfold Qle; cbn; lia.
  - cbn beta iota delta [fst snd].
    destruct (_analyze_with_llm _ _ _ _) as [[analysis | e] x2] eqn:Han;
      [| discriminate].
    cbn beta iota delta [fst snd].
    destruct (_determine_executable_rules _ _ _ _)
      as [[executable | e] x3] eqn:Hdet; [| discriminate].
    cbn beta iota delta [fst snd].
    destruct (_generate_explanation _ _ _ _) as [[explanation | e] x4];
      [| discriminate].
    cbn beta iota delta [fst snd].
    destruct (_create_decision _ _ _ _ _ _ _) as [[decision | e] x5] eqn:Hd;
      [| discriminate].
    cbn beta iota delta [fst snd].
    intros E; inversion E; subst.
    apply create_decision_fields in Hd. destruct Hd as [Happ Hconf].
    rewrite Hconf, Happ. split; [reflexivity |].
    intros Hprovider. apply overall_confidence_in_unit_interval.
    eapply determine_executable_rules_bounds; [exact Hdet |].
    eapply analyze_with_llm_bounds; eauto.
Qed.

Lemma analyze_scenario_unfold (self : BusinessRuleAgent)
    (scenario_description : string) (business_context : option PyVal)
    (domain_hint category_hint : option string) (x : X) :
  analyze_scenario self scenario_description business_context
                   domain_hint category_hint x
  = match pipeline scenario_description business_context
                   domain_hint category_hint
                   (x, entered self scenario_description) with
    | (Ok d, (x', self')) => (Ok (d, self'), x')
    | (Raise e, (x', self')) =>
        (Ok (_create_error_decision (set_state ERROR self')
                                    scenario_description (exn_text e),
             set_state ERROR self'), x')
    end.
Proof.
  unfold analyze_scenario, get_self, set_self. unfold_monad.
  cbn beta iota delta [fst snd]. fold (entered self scenario_description).
  destruct (pipeline _ _ _ _ _) as [[d | e] [x' self']]; reflexivity.
Qed.

End PipelineFacts.

(* ================================================================== *)
(** * Properties of the default action executor *)
(* ================================================================== *)

Section ExecutorClaims.
Context {X : Type} {clock : Clock X} {runtime : PyRuntime}.
Import DefaultActionExecutor.

Lemma handlers_return_mappings :
  Forall returns_mapping (map snd (supported_actions (X := X))).
Proof.
  unfold supported_actions. cbn [map snd].
  repeat (constructor; [handler_returns_mapping |]).
  constructor.
Qed.

Lemma assoc_in {A} (k : string) (d : list (string * A)) (v : A) :
  assoc k d = Some v -> In v (map snd d).
Proof.
  induction d as [| [k' v'] rest IH]; cbn; [discriminate |].
  destruct (k' =? k)%string; [intros E; inversion E; auto | auto].
Qed.

(** C7.  For every action name that is not a key of the default
    registry, and for all parameters, context and world,
    [DefaultActionExecutor.execute] returns -- it does not raise, and it
    leaves the world as it was -- the mapping with [success = False], the
    error message ["Unsupported action: <name>"] and the list of the
    supported actions. *)
Theorem execute_unsupported_action (action : string)
    (parameters context : PyVal) (x : X) :
  ~ In action (keys supported_actions) ->
  DefaultActionExecutor.execute action parameters context x
  = (Ok (VDict [("success", VBool false);
                ("error", VStr ("Unsupported action: " ++ action));
                ("supported_actions",
                 VList (map VStr (keys supported_actions)))]),
     x).
Proof.
  intros Hnot. unfold DefaultActionExecutor.execute.
  assert (assoc action supported_actions = None) as ->; [| reflexivity].
  revert Hnot. generalize supported_actions as table.
  induction table as [| [k h] rest IH]; cbn; [reflexivity |].
  intros Hnot. destruct (k =? action)%string eqn:Hk.
  - apply String.eqb_eq in Hk. tauto.
  - apply IH. tauto.
Qed.

(** C10.  [DefaultActionExecutor.execute] is total: for every action
    name, parameters and context it returns a mapping and never raises;
    when the registered handler of the action raises [e], what it returns
    is the mapping with [success = False], the error message
    ["Error executing <action>: <str(e)>"] and the traceback. *)
Theorem execute_never_raises (action : string) (parameters context : PyVal)
    (x : X) :
  exists out x',
    DefaultActionExecutor.execute action parameters context x
    = (Ok (VDict out), x') /\
    forall h e,
      assoc action supported_actions = Some h ->
      fst (h parameters context x) = Raise e ->
      out = [("success", VBool false);
             ("error", VStr ("Error executing " ++ action ++ ": "
                             ++ exn_text e));
             ("traceback", VStr (format_exc e))].
Proof.
  unfold DefaultActionExecutor.execute.
  destruct (assoc action supported_actions) as [h |] eqn:Hassoc.
  - unfold try_except, ret.
    destruct (h parameters context x) as [[out | e] x'] eqn:Hh.
    + assert (returns_mapping h) as Hmap.
      { eapply Forall_forall; [apply handlers_return_mappings |].
        eapply assoc_in; eauto. }
      destruct (Hmap _ _ _ _ _ Hh) as [d ->].
      exists d, x'. split; [reflexivity |].
      intros h' e' Hsome Hraise. inversion Hsome; subst h'.
      rewrite Hh in Hraise. discriminate.
    + eexists; eexists. split; [reflexivity |].
      intros h' e' Hsome Hraise. inversion Hsome; subst h'.
      rewrite Hh in Hraise. cbn in Hraise. inversion Hraise. reflexivity.
  - eexists; eexists. split; [reflexivity |]. discriminate.
Qed.

End ExecutorClaims.

(* ================================================================== *)
(** * Properties of the execution engine *)
(* ================================================================== *)

Section EngineClaims.
Context {X : Type} {clock : Clock X} {runtime : PyRuntime} {executor : ActionExecutor X}.
Import Engine.

Lemma prioritized_runnable (rules : list RuleDict) :
  Forall prioritized rules -> Forall runnable rules.
Proof.
  apply Forall_impl. intros rule [Hid Hp]. split; [exact Hid |].
  unfold orderable, int_priority, priority_or_1 in *.
  destruct (r_priority rule) as [[| b | p | q | t | l | d] |];
    try congruence.
  eexists. reflexivity.
Qed.

(** The status aggregation on the plans on which it does not raise.  Let
    every rule of the plan carry its id and its name and an integer
    priority.  Then [execute_plan] returns, and the plan's
    [overall_status] is FAILED if and only if at least one FAILED result
    belongs to a rule of priority at least 3, where a result belongs to
    the rule whose id it carries ([critical_failure]); otherwise -- no
    FAILED result, or FAILED results of rules below priority 3 only -- it
    is COMPLETED.  For a fresh plan whose rule ids are pairwise distinct,
    the rule to which a result belongs is the rule that produced it
    ([critical_failure_at]).  A rule without the ["priority"] key is not
    covered: there the aggregation raises, as the runs at the end of the
    file show. *)
Lemma execute_plan_overall_status (self : BusinessRuleExecutionEngine)
    (plan : ExecutionPlan) (x : X) :
  Forall prioritized (rules plan) ->
  exists plan' self' x',
    execute_plan self plan x = (Ok (plan', self'), x') /\
    (overall_status plan' = FAILED <-> critical_failure plan') /\
    (~ critical_failure plan' -> overall_status plan' = COMPLETED) /\
    (execution_results plan = [] -> NoDup (map r_id (rules plan)) ->
     (overall_status plan' = FAILED <-> critical_failure_at plan')).
Proof.
  intros Hprio.
  destruct (execute_plan_runs_all self plan x (prioritized_runnable Hprio))
    as (plan' & x' & results & x2 & Hrun & Hall & Hres & Hrules & Hstatus).
  specialize (Hstatus Hprio).
  assert (critical_failure (with_results results plan)
          <-> critical_failure plan') as Hsame.
  { unfold critical_failure. rewrite Hres, Hrules. reflexivity. }
  assert (overall_status plan' = FAILED <-> critical_failure plan') as Hiff.
  { rewrite Hstatus, final_status_failed_iff. exact Hsame. }
  exists plan', (mkEngine (execution_history self ++ [plan'])), x'.
  split; [exact Hrun |]. split; [exact Hiff |]. split.
  - intros Hnot. rewrite Hstatus.
    destruct (final_status_terminal (with_results results plan)) as [Hf | Hc];
      [| exact Hc].
    exfalso. apply Hnot. apply Hsame. now apply final_status_failed_iff.
  - intros Hfresh Hnodup. rewrite Hiff.
    apply critical_failure_positional.
    + now rewrite Hrules.
    + rewrite Hrules, Hres, Hfresh. cbn. eapply runs_all_ids; eauto.
Qed.

(** The loop on the plans on which the comparison of the priority does
    not raise.  Let every rule of the plan carry its id and its name,
    and let its priority, where it has one, be a number.  Then
    [execute_plan] returns, and the loop has run every rule of the plan,
    one after the other ([runs_all]): each produced one result, appended
    in order, and a rule whose dispatch raised produced a FAILED result
    whose [error_message] is the text of the exception, after which the
    next rule was run.  A priority that is [None] or a string is not
    covered: there a failed rule ends the loop, as the runs at the end
    of the file show. *)
Lemma execute_plan_runs_every_rule
    (self : BusinessRuleExecutionEngine) (plan : ExecutionPlan) (x : X) :
  Forall runnable (rules plan) ->
  exists plan' self' x' results x2,
    execute_plan self plan x = (Ok (plan', self'), x') /\
    execution_results plan' = execution_results plan ++ results /\
    length results = length (rules plan) /\
    runs_all (context plan) (rules plan) (snd (datetime_now x)) results x2.
Proof.
  intros Hrules.
  destruct (execute_plan_runs_all self plan x Hrules)
    as (plan' & x' & results & x2 & Hrun & Hall & Hres & _).
  exists plan', (mkEngine (execution_history self ++ [plan'])), x'.
  exists results, x2.
  split; [exact Hrun |]. split; [exact Hres |].
  split; [symmetry; eapply Forall2_length, runs_all_ids; eauto | exact Hall].
Qed.

Lemma execute_sequence_grows (plans : list ExecutionPlan) :
  forall (self : BusinessRuleExecutionEngine) (x : X),
  exists self' x',
    execute_sequence self plans x = (Ok self', x') /\
    length (execution_history self')
    = (length (execution_history self) + length plans)%nat.
Proof.
  induction plans as [| plan rest IH]; intros self x.
  - exists self, x. cbn. split; [reflexivity | lia].
  - destruct (execute_plan_total self plan x) as (plan' & x1 & Hrun & _).
    destruct (IH (mkEngine (execution_history self ++ [plan'])) x1)
      as (self' & x' & Hrest & Hlen).
    exists self', x'. cbn [execute_sequence]. unfold bind. rewrite Hrun.
    cbn [snd]. split; [exact Hrest |].
    rewrite Hlen. cbn. rewrite length_app. cbn. lia.
Qed.

(** C4, as amended.  The history is append-only and has no bound: every
    sequence of [execute_plan] calls on one engine returns, and leaves a
    history that is longer than before by exactly the number of calls. *)
Theorem execution_history_grows_by_one_per_plan
    (self : BusinessRuleExecutionEngine) (plans : list ExecutionPlan) (x : X) :
  exists self' x',
    execute_sequence self plans x = (Ok self', x') /\
    length (execution_history self')
    = (length (execution_history self) + length plans)%nat.
Proof. apply execute_sequence_grows. Qed.

(** C5, as amended.  [create_execution_plan] returns a plan with the
    given scenario, rules and context, no results and status PENDING; it
    leaves the engine alone and does nothing to the world but read the
    clock once.  Two plans created by one engine (in the states [self1]
    and [self2]) have the same [plan_id] exactly when the two clock
    readings agree up to the second and the history has the same length
    at the two creations; so the ids differ whenever a plan was executed
    in between, and may coincide otherwise. *)
Theorem create_execution_plan_id
    (self1 self2 : BusinessRuleExecutionEngine)
    (scenario1 scenario2 : string) (rules1 rules2 : list RuleDict)
    (context1 context2 : PyVal) (x1 x2 : X) :
  exists id1 id2,
    create_execution_plan self1 scenario1 rules1 context1 x1
    = (Ok (mkExecutionPlan id1 scenario1 rules1 context1 [] PENDING
                           None None),
       snd (datetime_now x1)) /\
    create_execution_plan self2 scenario2 rules2 context2 x2
    = (Ok (mkExecutionPlan id2 scenario2 rules2 context2 [] PENDING
                           None None),
       snd (datetime_now x2)) /\
    (id1 = id2 <->
     strftime_plan (fst (datetime_now x1))
     = strftime_plan (fst (datetime_now x2)) /\
     length (execution_history self1) = length (execution_history self2)) /\
    (length (execution_history self1) <> length (execution_history self2) ->
     id1 <> id2).
Proof.
  unfold create_execution_plan, now, bind, ret.
  destruct (datetime_now x1) as [t1 y1], (datetime_now x2) as [t2 y2].
  eexists; eexists. split; [reflexivity |]. split; [reflexivity |].
  cbn [fst]. split; [apply plan_id_eq_iff |].
  intros Hlen Heq. apply plan_id_eq_iff in Heq. tauto.
Qed.

End EngineClaims.

(* ================================================================== *)
(** * Properties of the decision pipeline *)
(* ================================================================== *)

Section AgentClaims.
Context {X : Type} {runtime : PyRuntime} {rag : RagService X}
        {llm : LLMService X}.
Import Agent.

Lemma index_of_id_found (rid : string) (store : list RuleDict) (i : nat) :
  index_of_id rid store = Some i -> r_id (deref store i) = Some rid.
Proof.
  unfold deref. revert i.
  induction store as [| r rest IH]; cbn; [discriminate |]. intros i.
  destruct (r_id r) as [id |] eqn:Hid;
    [destruct (id =? rid)%string eqn:Heq |].
  - intros E; inversion E; subst. apply String.eqb_eq in Heq. congruence.
  - destruct (index_of_id rid rest); cbn; [| discriminate].
    intros E; inversion E; subst. now apply IH.
  - destruct (index_of_id rid rest); cbn; [| discriminate].
    intros E; inversion E; subst. now apply IH.
Qed.

(** C3, as amended.  Let every rule handed to the provider have an id
    and every entry of the provider's answer that reports a met
    condition name its rule.  Then the merge returns, and what it returns
    is the list [kept] of the rules that an entry with a true
    [condition_met] names, taken in the order of the provider's entries
    (every other rule is dropped), each carrying the [execution_order]
    and [expected_outcome] of such an entry, and sorted by
    [execution_order] ascending with a stable sort: rules with equal
    [execution_order] stay in the order in which the provider listed
    them. *)
Theorem merge_and_sort_keeps_provider_order (full_rules : list RuleDict)
    (executable_rules : list ExecRule) (x : X) :
  named full_rules -> Forall names_its_rule executable_rules ->
  exists full_rules' final,
    merge_and_sort full_rules executable_rules x = (Ok final, x) /\
    Permutation final
      (map (deref full_rules') (kept_refs full_rules executable_rules)) /\
    StronglySorted (key_le order_or_0) final /\
    (forall k,
       filter (fun r => order_or_0 r =? k)%Z final
       = filter (fun r => order_or_0 r =? k)%Z
           (map (deref full_rules')
                (kept_refs full_rules executable_rules))) /\
    (forall i, In i (kept_refs full_rules executable_rules) ->
       exists e,
         In e executable_rules /\ condition_met e = true /\
         er_rule_id e = r_id (deref full_rules i) /\
         er_rule_id e <> None /\
         deref full_rules' i
         = update_order (execution_order_or_0 e)
                        (expected_outcome_or_empty e)
                        (deref full_rules i)).
Proof.
  intros Hnamed Hexecs.
  destruct (merge_loop_ok Hexecs [] x Hnamed)
    as (full_rules' & Hloop & _ & _ & Hkept).
  exists full_rules'.
  exists (sort_by order_or_0
            (map (deref full_rules')
                 (kept_refs full_rules executable_rules))).
  split.
  - unfold merge_and_sort, bind, ret. now rewrite Hloop.
  - split; [apply sort_by_perm |].
    split; [apply sort_by_sorted |].
    split; [intros k; apply sort_by_stable |].
    intros i Hi. destruct (Hkept i Hi) as (e & He & Hmet & Href & Hval).
    exists e. split; [exact He |]. split; [exact Hmet |].
    unfold approved_ref in Href. rewrite Hmet in Href.
    destruct (er_rule_id e) as [rid |]; [| discriminate].
    destruct (index_of_id rid full_rules) as [j |] eqn:Hidx; [| discriminate].
    inversion Href; subst j.
    rewrite (index_of_id_found _ _ Hidx).
    repeat split; [discriminate | exact Hval].
Qed.

(** C2, as amended.  For every scenario, context and hints,
    [analyze_scenario] returns a decision and never raises.  A failure
    that escapes a step of the pipeline is returned as the decision whose
    [decision_outcome] is ["Analysis failed: <text>"], with confidence 0
    and no rules; a failure of the retrieval call does not escape
    [_query_relevant_rules], and is returned as the decision "No
    applicable business rules found". *)
Theorem analyze_scenario_never_raises (self : BusinessRuleAgent)
    (scenario_description : string) (business_context : option PyVal)
    (domain_hint category_hint : option string) (x : X) :
  exists d self' x',
    analyze_scenario self scenario_description business_context
                     domain_hint category_hint x = (Ok (d, self'), x') /\
    (forall e,
       fst (pipeline scenario_description business_context
                     domain_hint category_hint
                     (x, entered self scenario_description)) = Raise e ->
       decision_outcome d = ("Analysis failed: " ++ exn_text e)%string /\
       confidence d = 0 /\ applicable_rules d = [] /\ state self' = ERROR) /\
    (forall e,
       fst (query_rules
              (_enhance_query scenario_description domain_hint category_hint)
              10 domain_hint category_hint
              (float_mul (confidence_threshold self) (8 # 10)) x) = Raise e ->
       d = _create_no_rules_decision scenario_description).
Proof.
  rewrite analyze_scenario_unfold.
  destruct (pipeline _ _ _ _ _) as [[d | e] [x' self']] eqn:Hp.
  - exists d, self', x'. split; [reflexivity |]. split.
    + intros e He. discriminate.
    + intros e He. revert Hp.
      unfold pipeline, _query_relevant_rules, get_self, set_self.
      unfold_monad. cbn beta iota delta [fst snd].
      cbn [confidence_threshold entered set_iteration_count
           set_current_scenario set_state].
      destruct (query_rules _ _ _ _ _ x) as [[hits | e'] x1];
        cbn in He; [discriminate |].
      cbn. intros E; inversion E. reflexivity.
  - eexists; eexists; eexists. split; [reflexivity |]. split.
    + intros e' He'. cbn in He'. inversion He'; subst. cbn. auto.
    + intros e' He'. exfalso. revert Hp.
      unfold pipeline, _query_relevant_rules, get_self, set_self.
      unfold_monad. cbn beta iota delta [fst snd].
      cbn [confidence_threshold entered set_iteration_count
           set_current_scenario set_state].
      destruct (query_rules _ _ _ _ _ x) as [[hits | e''] x1];
        cbn in He'; [discriminate |].
      cbn. discriminate.
Qed.

(** C6, as amended.  The confidence of every decision that
    [analyze_scenario] returns is the arithmetic mean of the confidences
    of its applicable rules (0 when there are none); it lies in [[0,1]]
    provided that every confidence that the reasoning provider reports
    does.  Confidences are exact rationals here. *)
Theorem decision_confidence_in_unit_interval (self : BusinessRuleAgent)
    (scenario_description : string) (business_context : option PyVal)
    (domain_hint category_hint : option string) (x : X) :
  provider_confidences_in_unit_interval ->
  exists d self' x',
    analyze_scenario self scenario_description business_context
                     domain_hint category_hint x = (Ok (d, self'), x') /\
    confidence d = overall_confidence (applicable_rules d) /\
    in_unit_interval (confidence d).
Proof.
  intros Hprovider. rewrite analyze_scenario_unfold.
  destruct (pipeline _ _ _ _ _) as [[d | e] [x' self']] eqn:Hp.
  - exists d, self', x'. split; [reflexivity |].
    apply pipeline_confidence in Hp. destruct Hp as [Hmean Hbounds]. auto.
  - eexists; eexists; eexists. split; [reflexivity |]. cbn.
    split; [reflexivity |]. split; unfold Qle; cbn; lia.
Qed.

End AgentClaims.

(* ================================================================== *)
(** * Properties of the service *)
(* ================================================================== *)

Section ServiceClaims.
Context {X : Type} {clock : Clock X} {runtime : PyRuntime} {executor : ActionExecutor X}
        {rag : RagService X} {llm : LLMService X}.
Import Service.

Lemma service_analyze_scenario_ok (self : AgenticSystemService)
    (scenario : string) (context : option PyVal)
    (domain_hint category_hint : option string) (x : X) :
  initialized self = true ->
  exists analysis agent' x',
    Agent.analyze_scenario (agent self) scenario context domain_hint
                           category_hint x = (Ok (analysis, agent'), x') /\
    analyze_scenario self scenario context domain_hint category_hint x
    = (Ok (analysis, mkService agent' (execution_engine self) true), x').
Proof.
  intros Hinit. unfold analyze_scenario. rewrite Hinit. cbn [negb].
  unfold bind, ret. rewrite analyze_scenario_unfold.
  destruct (Agent.pipeline _ _ _ _ _) as [[d | e] [x' agent']];
    eexists; eexists; eexists; split; reflexivity.
Qed.

Lemma service_execute_rules_ok (self : AgenticSystemService)
    (scenario : string) (rules : list RuleDict) (context : PyVal) (x : X) :
  initialized self = true ->
  exists plan plan' x',
    Engine.create_execution_plan (execution_engine self) scenario rules
                                 context x
    = (Ok plan, snd (datetime_now x)) /\
    Engine.execute_plan (execution_engine self) plan (snd (datetime_now x))
    = (Ok (plan',
           Engine.mkEngine
             (Engine.execution_history (execution_engine self) ++ [plan'])),
       x') /\
    execute_rules self scenario rules context x
    = (Ok (Engine.get_execution_summary plan',
           mkService (agent self)
             (Engine.mkEngine
                (Engine.execution_history (execution_engine self)
                 ++ [plan']))
             true),
       x').
Proof.
  intros Hinit. unfold execute_rules. rewrite Hinit. cbn [negb].
  unfold Engine.create_execution_plan, now, bind, ret.
  destruct (datetime_now x) as [t x1]. cbn [snd].
  set (plan := mkExecutionPlan _ scenario rules context [] PENDING None None).
  destruct (execute_plan_total (execution_engine self) plan x1)
    as (plan' & x' & Hrun & _).
  exists plan, plan', x'. rewrite Hrun. cbn [fst snd]. auto.
Qed.

(** C8.  On an initialized service, [analyze_and_execute] returns the
    analysis of [analyze_scenario] together with an execution summary.
    When the analysis has applicable rules, the summary is what
    [execute_rules] returns for them, and the engine has executed one
    more plan; when it has none, nothing is executed (the service and the
    world are as the analysis left them) and the summary has
    [overall_status = "skipped"] and zero total, successful and failed
    rules. *)
Theorem analyze_and_execute_composes (self : AgenticSystemService)
    (scenario : string) (context : option PyVal)
    (domain_hint category_hint : option string) (x : X) :
  initialized self = true ->
  exists analysis self1 x1 execution self2 x2,
    analyze_scenario self scenario context domain_hint category_hint x
    = (Ok (analysis, self1), x1) /\
    analyze_and_execute self scenario context domain_hint category_hint x
    = (Ok (mkFullProcess scenario analysis execution, self2), x2) /\
    (Agent.applicable_rules analysis <> [] ->
     execute_rules self1 scenario (Agent.applicable_rules analysis)
                   (context_or_empty context) x1
     = (Ok (execution, self2), x2) /\
     length (Engine.execution_history (execution_engine self2))
     = S (length (Engine.execution_history (execution_engine self)))) /\
    (Agent.applicable_rules analysis = [] ->
     self2 = self1 /\ x2 = x1 /\
     execution_engine self2 = execution_engine self /\
     s_overall_status execution = "skipped" /\
     s_total_rules execution = 0%nat /\
     s_successful_rules execution = 0%nat /\
     s_failed_rules execution = 0%nat /\
     s_results execution = []).
Proof.
  intros Hinit.
  destruct (service_analyze_scenario_ok self scenario context domain_hint
              category_hint x Hinit)
    as (analysis & agent' & x1 & _ & Hanalyze).
  set (self1 := mkService agent' (execution_engine self) true) in *.
  unfold analyze_and_execute, bind. rewrite Hanalyze.
  destruct (Agent.applicable_rules analysis) as [| r rest] eqn:Hrules;
    cbn [nonempty].
  - exists analysis, self1, x1, (no_execution scenario), self1, x1.
    split; [reflexivity |]. split; [reflexivity |].
    split; [intros Hne; now rewrite Hrules in Hne |].
    intros _. cbn. repeat split; reflexivity.
  - destruct (service_execute_rules_ok self1 scenario (r :: rest)
                (context_or_empty context) x1 eq_refl)
      as (plan & plan' & x2 & _ & _ & Hexec).
    rewrite Hexec. unfold ret.
    eexists analysis, self1, x1, _, _, x2.
    split; [reflexivity |]. split; [reflexivity |]. split.
    + intros _. rewrite Hrules. split; [exact Hexec |].
      cbn. rewrite length_app. cbn. lia.
    + intros Hempty. rewrite Hrules in Hempty. discriminate.
Qed.

End ServiceClaims.

(* ================================================================== *)
(** * Further properties of the executor and the engine *)
(* ================================================================== *)

Section SingleRule.
Context {X : Type} {clock : Clock X} {runtime : PyRuntime} {executor : ActionExecutor X}.
Import Engine.

(** X1.  When [validate_parameters] of the executor returns [False] for
    the action and the parameters of a rule, [_execute_single_rule] never
    calls [execute]: it returns a FAILED result whose error message is
    "Parameter validation failed", with an empty output and no log
    line, stamped with the clock readings taken before and after the
    validation. *)
Theorem rejected_parameters_skip_the_action (rule : RuleDict) (ctx : PyVal)
    (x : X) (id name action : string) (x2 : X) :
  r_id rule = Some id -> r_name rule = Some name ->
  r_action rule = Some action ->
  validate_parameters action (parameters_or_empty rule) (snd (datetime_now x))
  = (Ok false, x2) ->
  _execute_single_rule rule ctx x
  = (Ok (mkExecutionResult id name FAILED (fst (datetime_now x))
           (Some (fst (datetime_now x2))) (VDict [])
           (Some (VStr "Parameter validation failed")) []),
     snd (datetime_now x2)).
Proof.
  intros Hid Hname Haction Hvalid.
  unfold _execute_single_rule, dispatch, set_result. rewrite Hid, Hname, Haction.
  unfold_monad. cbn beta iota delta [fst snd].
  destruct (datetime_now x) as [t x1]. cbn beta iota delta [fst snd] in *.
  rewrite Hvalid. cbn beta iota delta [fst snd negb].
  destruct (datetime_now x2) as [t2 x3]. reflexivity.
Qed.

(** X2.  When the parameters pass and [execute] returns [out],
    [_execute_single_rule] returns a result that carries [out] as its
    output and has its end time stamped.  If [out] is a mapping, the
    result is COMPLETED without an error message when [out.get("success",
    False)] is truthy, and FAILED with the error message
    [out.get("error", "Unknown error")] otherwise; if [out] is not a
    mapping, the [AttributeError] of [out.get] is caught and the result
    is FAILED with its text. *)
Theorem single_rule_outcome (rule : RuleDict) (ctx : PyVal) (x : X)
    (id name action : string) (x2 : X) (out : PyVal) (x3 : X) :
  r_id rule = Some id -> r_name rule = Some name ->
  r_action rule = Some action ->
  validate_parameters action (parameters_or_empty rule) (snd (datetime_now x))
  = (Ok true, x2) ->
  execute action (parameters_or_empty rule) ctx x2 = (Ok out, x3) ->
  exists result,
    _execute_single_rule rule ctx x = (Ok result, snd (datetime_now x3)) /\
    output result = out /\
    end_time result = Some (fst (datetime_now x3)) /\
    match out with
    | VDict d =>
        if truthy (get_or "success" (VBool false) d)
        then status result = COMPLETED /\ error_message result = None
        else status result = FAILED /\
             error_message result
             = Some (get_or "error" (VStr "Unknown error") d)
    | _ =>
        status result = FAILED /\
        error_message result = Some (VStr (exn_text (AttributeError out "get")))
    end.
Proof.
  intros Hid Hname Haction Hvalid Hexec.
  unfold _execute_single_rule, dispatch, on_dispatch_error, set_result.
  rewrite Hid, Hname, Haction.
  unfold_monad. cbn beta iota delta [fst snd].
  destruct (datetime_now x) as [t x1]. cbn beta iota delta [fst snd] in *.
  rewrite Hvalid. cbn beta iota delta [fst snd negb].
  rewrite Hexec. cbn beta iota delta [fst snd].
  unfold get_or.
  destruct out as [| b | z | q | s | l | d]; cbn beta iota delta [fst snd];
    try (destruct (datetime_now x3) as [t3 x4]; eexists;
         split; [reflexivity |]; cbn; auto).
  destruct (assoc "success" d) as [v |]; cbn beta iota delta [fst snd].
  - destruct (truthy v) eqn:Hv; cbn beta iota delta [fst snd];
      destruct (datetime_now x3) as [t3 x4]; eexists;
      (split; [reflexivity |]); cbn; auto.
  - cbn [truthy]. cbn beta iota delta [fst snd].
    destruct (datetime_now x3) as [t3 x4]; eexists;
      (split; [reflexivity |]); cbn; auto.
Qed.

End SingleRule.


Section ExecutorCoverage.
Context {X : Type} {clock : Clock X} {runtime : PyRuntime}.
Import DefaultActionExecutor.

Lemma handlers_report_success :
  Forall returns_success (map snd (supported_actions (X := X))).
Proof.
  unfold supported_actions. cbn [map snd].
  repeat (constructor; [handler_reports_success |]).
  constructor.
Qed.

Lemma reports_exclusive (out : PyVal) :
  reports_success out -> reports_failure out -> False.
Proof.
  intros (d & taken & -> & Hs & _) (d' & msg & Heq & Hf & _).
  inversion Heq; subst. congruence.
Qed.

(** X3.  [DefaultActionExecutor.execute] always returns, and what it
    returns is either a success report (["success"] is [True], with an
    ["action_taken"] text) or a failure report (["success"] is [False],
    with an ["error"] text), never both.  It is a success report exactly
    when the action is registered and its handler returned: no handler
    of the registry reports a failure of its own. *)
Theorem default_executor_reports (action : string)
    (parameters context : PyVal) (x : X) :
  exists out x',
    DefaultActionExecutor.execute action parameters context x = (Ok out, x') /\
    (reports_success out \/ reports_failure out) /\
    (reports_success out <->
     exists h o,
       assoc action supported_actions = Some h /\
       fst (h parameters context x) = Ok o).
Proof.
  unfold DefaultActionExecutor.execute.
  destruct (assoc action supported_actions) as [h |] eqn:Hassoc.
  - unfold try_except, ret.
    destruct (h parameters context x) as [[out | e] x'] eqn:Hh.
    + assert (reports_success out) as Hok.
      { assert (returns_success h) as Hh'.
        { eapply Forall_forall; [apply handlers_report_success |].
          eapply assoc_in; eauto. }
        eapply Hh'; eauto. }
      exists out, x'. split; [reflexivity |]. split; [now left |].
      split; [| intros _; exact Hok].
      intros _. exists h, out. rewrite Hh. auto.
    + eexists; eexists. split; [reflexivity |].
      assert (reports_failure (handler_error action e)) as Hfail
        by (eexists; eexists; split; [reflexivity |]; split; reflexivity).
      split; [now right |]. split.
      * intros Hs. exfalso. eapply reports_exclusive; eauto.
      * intros (h' & o & Hsome & Ho). inversion Hsome; subst h'.
        rewrite Hh in Ho. discriminate.
  - eexists; eexists. split; [reflexivity |].
    assert (reports_failure (unsupported (X := X) action)) as Hfail
      by (eexists; eexists; split; [reflexivity |]; split; reflexivity).
    split; [now right |]. split.
    + intros Hs. exfalso. eapply reports_exclusive; eauto.
    + intros (h' & o & Hsome & _). discriminate.
Qed.

Lemma handler_run_is_reported (action : string) (h : handler)
    (parameters context : PyVal) (x : X) :
  assoc action supported_actions = Some h ->
  (exists o x', h parameters context x = (Ok o, x')) ->
  exists out x',
    DefaultActionExecutor.execute action parameters context x = (Ok out, x') /\
    reports_success out.
Proof.
  intros Hh (o & x' & Hrun). exists o, x'.
  unfold DefaultActionExecutor.execute. rewrite Hh.
  unfold try_except, ret. rewrite Hrun. split; [reflexivity |].
  assert (returns_success h) as Hok.
  { eapply Forall_forall; [apply handlers_report_success |].
    eapply assoc_in; eauto. }
  eapply Hok; eauto.
Qed.

(** X4.  For every registered action other than the three that compute
    with a value of the context ([emergency_reorder],
    [increase_reorder_quantity], [route_to_billing_specialist]),
    [DefaultActionExecutor.execute] reports a success whenever the
    parameters and the context are mappings, whatever they hold. *)
Theorem mapping_inputs_succeed (action : string)
    (p c : list (string * PyVal)) (x : X) :
  In action (keys (supported_actions (X := X))) ->
  ~ In action arithmetic_actions ->
  exists out x',
    DefaultActionExecutor.execute action (VDict p) (VDict c) x = (Ok out, x') /\
    reports_success out.
Proof.
  intros Hin Hnot. unfold arithmetic_actions in Hnot.
  each_action Hin;
    try (exfalso; apply Hnot; cbn; tauto);
    (eapply handler_run_is_reported; [reflexivity |]);
    autounfold with handlers; unfold_monad; cbn beta iota delta [fst snd];
    destruct (datetime_now x) as [t x1]; cbn beta iota delta [fst snd];
    try (destruct (datetime_now x1) as [t1 x2]; cbn beta iota delta [fst snd]);
    eexists; eexists; reflexivity.
Qed.

(** X5.  For each of the eleven actions whose handler calls
    [context.get], a context that is not a mapping makes
    [DefaultActionExecutor.execute] return the failure report
    "Error executing <action>: '<type>' object has no attribute 'get'"
    with the traceback, and leaves the world as it was. *)
Theorem missing_context_is_reported (action : string)
    (parameters context : PyVal) (x : X) :
  In action context_reading_actions ->
  is_mapping context = false ->
  DefaultActionExecutor.execute action parameters context x
  = (Ok (VDict
           [("success", VBool false);
            ("error",
             VStr ("Error executing " ++ action ++ ": '" ++ type_name context
                   ++ "' object has no attribute 'get'"));
            ("traceback", VStr (format_exc (AttributeError context "get")))]),
     x).
Proof.
  intros Hin Hctx. unfold context_reading_actions in Hin.
  each_action Hin;
    unfold DefaultActionExecutor.execute; cbn [assoc supported_actions];
    cbn -[String.append];
    autounfold with handlers; unfold_monad; cbn beta iota delta [fst snd];
    destruct context; try discriminate; reflexivity.
Qed.

End ExecutorCoverage.


Section PlanFacts.
Context {X : Type} {clock : Clock X} {runtime : PyRuntime} {executor : ActionExecutor X}.
Import Engine.

Lemma execute_single_rule_finished (rule : RuleDict) (ctx : PyVal) (x : X)
    result x' :
  _execute_single_rule rule ctx x = (Ok result, x') -> finished result.
Proof.
  unfold _execute_single_rule.
  destruct (r_id rule) as [id |]; [| discriminate].
  destruct (r_name rule) as [name |]; [| discriminate].
  unfold subscript, now, bind at 1 2 3. unfold ret at 1 2.
  destruct (datetime_now x) as [t x1] eqn:Hnow. cbn [fst snd].
  pose proof (dispatch_terminal_status rule ctx x1 (fresh_result id name t))
    as Hterm.
  unfold bind, with_local, try_finally, try_except.
  destruct (dispatch rule ctx (x1, fresh_result id name t))
    as [[u | e] [x2 r2]] eqn:Hd.
  - unfold lift_world, now, set_result, set_local, modify, ret.
    cbn [fst snd].
    destruct (datetime_now x2) as [t2 x3]. cbn.
    intros E; inversion E; subst. split; cbn.
    + exact (Hterm _ _ eq_refl).
    + discriminate.
  - unfold on_dispatch_error, lift_world, now, set_result, set_local,
      modify, ret, bind.
    cbn [fst snd].
    destruct (datetime_now x2) as [t2 x3]. cbn.
    intros E; inversion E; subst. split; cbn; [now left | discriminate].
Qed.

Lemma run_rule_finished (rule : RuleDict) x p e r s :
  run_rule rule (x, (p, e)) = (r, s) ->
  exists results,
    snd s = (with_results results p, e) /\ Forall finished results /\
    (length results <= 1)%nat /\ (r = Ok tt -> length results = 1%nat).
Proof.
  unfold run_rule, get_plan, set_plan. unfold_monad.
  cbn beta iota delta [fst snd].
  destruct (_execute_single_rule rule (context p) x) as [[result | ex] x1]
    eqn:Hsingle.
  - apply execute_single_rule_finished in Hsingle.
    cbn beta iota delta [fst snd].
    repeat case_step; intros E; inversion E; subst; cbn;
      exists [result]; repeat split; auto; discriminate.
  - intros E; inversion E; subst; cbn. exists [].
    rewrite with_results_nil. repeat split; auto. discriminate.
Qed.

Lemma for_each_run_rule_finished (rules : list RuleDict) : forall x p e r s,
  for_each rules run_rule (x, (p, e)) = (r, s) ->
  exists results,
    snd s = (with_results results p, e) /\ Forall finished results /\
    (length results <= length rules)%nat /\
    (r = Ok tt -> length results = length rules).
Proof.
  induction rules as [| rule rest IH]; intros x p e r s.
  - cbn. unfold ret. intros E; inversion E; subst. exists [].
    cbn. rewrite with_results_nil. repeat split; auto.
  - cbn [for_each]. unfold bind.
    destruct (run_rule rule (x, (p, e))) as [[u | ex] [x1 [p1 e1]]] eqn:Hr;
      apply run_rule_finished in Hr;
      destruct Hr as (rs1 & Hs1 & Hfin1 & Hle1 & Hlen1); cbn in Hs1;
      inversion Hs1; subst.
    + intros E. apply IH in E. destruct E as (rs2 & Hs2 & Hfin2 & Hle2 & Hlen2).
      exists (rs1 ++ rs2). rewrite <- with_results_app.
      split; [exact Hs2 |]. split; [now apply Forall_app |].
      rewrite length_app. cbn [length]. destruct u.
      specialize (Hlen1 eq_refl). split; [lia |].
      intros Hr. specialize (Hlen2 Hr). lia.
    + intros E; inversion E; subst. exists rs1.
      split; [reflexivity |]. split; [exact Hfin1 |].
      cbn [length]. split; [lia | discriminate].
Qed.

(** What [execute_plan] does to a plan, whatever its rules are. *)
Lemma execute_plan_shape (self : BusinessRuleExecutionEngine)
    (plan : ExecutionPlan) (x : X) :
  exists plan' x' results t',
    execute_plan self plan x
    = (Ok (plan', mkEngine (execution_history self ++ [plan'])), x') /\
    plan' = mkExecutionPlan (plan_id plan) (scenario plan) (rules plan)
              (context plan) (execution_results plan ++ results)
              (overall_status plan') (Some (fst (datetime_now x))) (Some t') /\
    (overall_status plan' = FAILED \/ overall_status plan' = COMPLETED) /\
    Forall finished results /\
    (length results <= length (rules plan))%nat /\
    (Forall runnable (rules plan) -> length results = length (rules plan)).
Proof.
  unfold execute_plan, get_plan, set_plan, append_history.
  unfold_monad. cbn beta iota delta [fst snd].
  destruct (datetime_now x) as [t x1]. cbn beta iota delta [fst snd].
  fold (started t plan).
  destruct (for_each (rules (started t plan)) run_rule
                     (x1, (started t plan, self)))
    as [[u | ex] [x2 [p2 e2]]] eqn:Hloop.
  - pose proof Hloop as Hfin. apply for_each_run_rule_finished in Hfin.
    destruct Hfin as (rs & Hs & Hfin & Hle & Hlen). cbn in Hs.
    inversion Hs; subst p2 e2; clear Hs.
    destruct u. specialize (Hlen eq_refl).
    cbn beta iota delta [fst snd].
    destruct (determine_overall_status _)
      as [[u' | ex] [x3 [p3 e3]]] eqn:Hdet;
      apply determine_overall_status_frame in Hdet;
      cbn in Hdet; destruct Hdet as (-> & -> & Hp3);
      cbn beta iota delta [fst snd].
    + destruct Hp3 as (st & Hst & ->).
      destruct (datetime_now x2) as [t' x4]. cbn beta iota delta [fst snd].
      eexists; eexists; exists rs, t'. split; [reflexivity |]. cbn. auto 6.
    + subst p3. destruct (datetime_now x2) as [t' x4].
      cbn beta iota delta [fst snd].
      eexists; eexists; exists rs, t'. split; [reflexivity |]. cbn. auto 6.
  - pose proof Hloop as Hfin. apply for_each_run_rule_finished in Hfin.
    destruct Hfin as (rs & Hs & Hfin & Hle & _). cbn in Hs.
    inversion Hs; subst p2 e2; clear Hs.
    cbn beta iota delta [fst snd].
    destruct (datetime_now x2) as [t' x4]. cbn beta iota delta [fst snd].
    eexists; eexists; exists rs, t'. split; [reflexivity |]. cbn.
    repeat split; auto.
    intros Hid.
    destruct (@for_each_run_rule_ok _ _ _ _ (rules (started t plan)) Hid
                x1 (started t plan) self) as (rs' & x' & Hok & _).
    rewrite Hok in Hloop. discriminate.
Qed.

Lemma finished_counts (rs : list ExecutionResult) :
  Forall finished rs ->
  (length (filter is_completed rs) + length (filter is_failed rs)
   = length rs)%nat.
Proof.
  induction 1 as [| r rest [Hst _] _ IH]; [reflexivity |].
  cbn [filter].
  destruct Hst as [Hst | Hst].
  - assert (is_completed r = false) as -> by (unfold is_completed; now rewrite Hst).
    assert (is_failed r = true) as -> by (unfold is_failed; now rewrite Hst).
    cbn [length]. lia.
  - assert (is_completed r = true) as -> by (unfold is_completed; now rewrite Hst).
    assert (is_failed r = false) as -> by (unfold is_failed; now rewrite Hst).
    cbn [length]. lia.
Qed.

Lemma finished_duration (r : ExecutionResult) :
  finished r -> is_float (duration r).
Proof.
  intros [_ Hend]. unfold duration.
  destruct (end_time r); [eexists; reflexivity | congruence].
Qed.

(** X6.  [execute_plan] on a plan without earlier results returns, and in
    the summary of the returned plan the successful and the failed rules
    add up to the number of results; there are at most as many results
    as rules, and exactly as many when every rule has its id and name
    and a priority that, where the rule has one, is a number (a failed
    rule whose priority is [None] or a string ends the loop, and the
    rules after it get no result); the overall status is ["completed"]
    or ["failed"]; the execution time and the duration of every result
    are floats, not [None]. *)
Theorem executed_plan_summary (self : BusinessRuleExecutionEngine)
    (plan : ExecutionPlan) (x : X) :
  execution_results plan = [] ->
  exists plan' self' x',
    execute_plan self plan x = (Ok (plan', self'), x') /\
    let s := get_execution_summary plan' in
    (s_successful_rules s + s_failed_rules s = length (s_results s))%nat /\
    (length (s_results s) <= s_total_rules s)%nat /\
    (Forall runnable (rules plan) ->
     length (s_results s) = s_total_rules s) /\
    (s_overall_status s = "completed" \/ s_overall_status s = "failed") /\
    is_float (s_execution_time s) /\
    Forall (fun i => is_float (i_duration i)) (s_results s).
Proof.
  intros Hfresh.
  destruct (execute_plan_shape self plan x)
    as (plan' & x' & results & t' & Hrun & Hplan & Hst & Hfin & Hle & Hlen).
  exists plan', (mkEngine (execution_history self ++ [plan'])), x'.
  split; [exact Hrun |].
  rewrite Hfresh in Hplan. cbn [List.app] in Hplan.
  unfold get_execution_summary. rewrite Hplan. cbn.
  rewrite length_map. split; [now apply finished_counts |].
  split; [exact Hle |]. split; [exact Hlen |]. split.
  - destruct Hst as [-> | ->]; cbn; auto.
  - split; [eexists; reflexivity |].
    apply Forall_map. eapply Forall_impl; [| exact Hfin].
    intros r Hr. cbn. now apply finished_duration.
Qed.

(** ** Rules without a priority *)

Lemma any_critical_unprioritized {S} (rules : list RuleDict) (rid : string)
    (s : S) :
  Forall identified rules ->
  Forall (fun rule => r_priority rule = None) rules ->
  (exists rule, In rule rules /\ r_id rule = Some rid) ->
  any_critical rules rid s = (Raise (KeyError "priority"), s).
Proof.
  intros Hid Hprio. induction rules as [| rule rest IH];
    intros (rule' & Hin & Hrule'); [destruct Hin |].
  inversion Hid as [| ? ? [Hi _] Hid']; subst.
  inversion Hprio as [| ? ? Hp Hprio']; subst.
  cbn [any_critical]. unfold subscript, bind, ret, raise.
  destruct (r_id rule) as [id |] eqn:Eid; [| congruence].
  rewrite Hp.
  destruct (id =? rid)%string eqn:Heq; [reflexivity |].
  apply IH; auto.
  destruct Hin as [<- | Hin]; [| eauto].
  rewrite Eid in Hrule'. inversion Hrule'; subst.
  rewrite String.eqb_refl in Heq. discriminate.
Qed.

Lemma unprioritized_runnable (rules : list RuleDict) :
  Forall identified rules ->
  Forall (fun rule => r_priority rule = None) rules ->
  Forall runnable rules.
Proof.
  intros Hid Hprio. apply Forall_forall. intros rule Hin.
  split; [exact (proj1 (Forall_forall _ _) Hid rule Hin) |].
  unfold orderable, priority_or_1.
  rewrite (proj1 (Forall_forall _ _) Hprio rule Hin).
  eexists. reflexivity.
Qed.

Lemma runs_all_named (ctx : PyVal) rules (x : X) results x' :
  runs_all ctx rules x results x' ->
  forall result, In result results ->
    exists rule, In rule rules /\ r_id rule = Some (rule_id result).
Proof.
  induction 1 as [| rule rest x result x1 results x2 Hrun Hid Hex Hall IH];
    intros r Hin; [destruct Hin |].
  destruct Hin as [<- | Hin].
  - exists rule. split; [now left | exact Hid].
  - destruct (IH r Hin) as (rule' & Hin' & Hid').
    exists rule'. split; [now right | exact Hid'].
Qed.

(** X7.  When no rule of a plan without earlier results has a
    ["priority"] key (and every rule has its id and name), the default
    priority 1 of the loop does not reach
    the status aggregation: [execute_plan] runs every rule, and the
    overall status is FAILED exactly when some result is FAILED and
    COMPLETED exactly when every result is COMPLETED (the subscript
    [rule["priority"]] raises on the first failed result and the
    [except] clause sets FAILED). *)
Theorem unprioritized_plan_fails_on_any_failure
    (self : BusinessRuleExecutionEngine) (plan : ExecutionPlan) (x : X) :
  execution_results plan = [] ->
  Forall identified (rules plan) ->
  Forall (fun rule => r_priority rule = None) (rules plan) ->
  exists plan' self' x',
    execute_plan self plan x = (Ok (plan', self'), x') /\
    length (execution_results plan') = length (rules plan) /\
    (overall_status plan' = FAILED <->
     exists result,
       In result (execution_results plan') /\ status result = FAILED) /\
    (overall_status plan' = COMPLETED <->
     Forall (fun result => status result = COMPLETED)
            (execution_results plan')).
Proof.
  intros Hfresh Hid Hprio.
  unfold execute_plan, get_plan, set_plan, append_history.
  unfold_monad. cbn beta iota delta [fst snd].
  destruct (datetime_now x) as [t x1]. cbn beta iota delta [fst snd].
  fold (started t plan).
  destruct (@for_each_run_rule_ok _ _ _ _ (rules (started t plan))
              (unprioritized_runnable Hid Hprio) x1 (started t plan) self)
    as (results & x2 & Hloop & Hall & Hsts).
  rewrite Hloop. cbn beta iota delta [fst snd].
  cbn [context started set_overall_status set_plan_start_time] in Hall.
  assert (length results = length (rules plan)) as Hlen
    by (symmetry; eapply Forall2_length, runs_all_ids; eauto).
  unfold determine_overall_status, get_plan, set_plan.
  unfold_monad. cbn beta iota delta [fst snd].
  cbn [execution_results with_results started set_overall_status
       set_plan_start_time rules].
  rewrite Hfresh. cbn [List.app].
  destruct (filter is_failed results) as [| r0 failed] eqn:Hf;
    cbn beta iota delta [nonempty fst snd].
  - destruct (datetime_now x2) as [t' x4]. cbn beta iota delta [fst snd].
    eexists; eexists; eexists. split; [reflexivity |]. cbn.
    rewrite Hfresh. cbn [List.app]. split; [exact Hlen |].
    assert (Forall (fun r => status r = COMPLETED) results) as Hall_ok.
    { apply Forall_forall. intros r Hin.
      pose proof (proj1 (Forall_forall _ _) Hsts r Hin) as [Hr | Hr];
        [| exact Hr].
      exfalso. assert (In r (filter is_failed results)) as Hin'
        by (apply filter_In; split; [exact Hin | now apply is_failed_iff]).
      rewrite Hf in Hin'. destruct Hin'. }
    split; split; auto; try discriminate.
    intros (r & Hin & Hr).
    pose proof (proj1 (Forall_forall _ _) Hall_ok r Hin). congruence.
  - assert (In r0 (filter is_failed results)) as Hin0
      by (rewrite Hf; now left).
    apply filter_In in Hin0. destruct Hin0 as [Hin0 Hfail0].
    apply is_failed_iff in Hfail0.
    cbn [filter_m]. unfold bind.
    rewrite any_critical_unprioritized;
      [| exact Hid | exact Hprio | eapply runs_all_named; eauto].
    cbn beta iota delta [fst snd].
    destruct (datetime_now x2) as [t' x4]. cbn beta iota delta [fst snd].
    eexists; eexists; eexists. split; [reflexivity |]. cbn.
    rewrite Hfresh. cbn [List.app]. split; [exact Hlen |].
    split; split; auto; try discriminate.
    + intros _. exists r0. auto.
    + intros Hall_ok.
      pose proof (proj1 (Forall_forall _ _) Hall_ok r0 Hin0). congruence.
Qed.

End PlanFacts.


(* ================================================================== *)
(** * Further properties of the agent *)
(* ================================================================== *)

Section Bookkeeping.
Context {X : Type} {runtime : PyRuntime} {rag : RagService X}
        {llm : LLMService X}.
Import Agent.

Lemma pipeline_bookkeeping (scenario_description : string)
    (business_context : option PyVal)
    (domain_hint category_hint : option string)
    (x : X) (self : BusinessRuleAgent) r x' self' :
  pipeline scenario_description business_context domain_hint category_hint
           (x, self) = (r, (x', self')) ->
  confidence_threshold self' = confidence_threshold self /\
  max_iterations self' = max_iterations self /\
  current_scenario self' = current_scenario self /\
  iteration_count self' = iteration_count self /\
  match r with
  | Ok d =>
      (state self' = AGENT_COMPLETED /\
       decision_history self' = decision_history self ++ [d] /\
       exists hit hits x1,
         _query_relevant_rules self scenario_description domain_hint
                               category_hint x = (Ok (hit :: hits), x1)) \/
      (state self' = QUERYING_RULES /\
       decision_history self' = decision_history self /\
       d = _create_no_rules_decision scenario_description /\
       _query_relevant_rules self scenario_description domain_hint
                             category_hint x = (Ok [], x'))
  | Raise e =>
      decision_history self' = decision_history self /\
      exists hit hits x1,
        _query_relevant_rules self scenario_description domain_hint
                              category_hint x = (Ok (hit :: hits), x1)
  end.
Proof.
  unfold pipeline, get_self, set_self. unfold_monad.
  cbn beta iota delta [fst snd].
  assert (forall a, _query_relevant_rules (set_state QUERYING_RULES a)
                      scenario_description domain_hint category_hint
                    = _query_relevant_rules a scenario_description domain_hint
                        category_hint) as Hq by reflexivity.
  rewrite Hq.
  destruct (_query_relevant_rules self _ _ _ x) as [[relevant | e] x1] eqn:Hquery.
  2:{ exfalso. revert Hquery. unfold _query_relevant_rules, try_except, ret.
      destruct (query_rules _ _ _ _ _ x) as [[hits | e'] x2]; discriminate. }
  cbn beta iota delta [fst snd].
  destruct relevant as [| hit hits]; cbn [nonempty negb].
  - intros E; inversion E; subst. cbn.
    do 4 (split; [reflexivity |]).
    right. repeat split; auto.
  - cbn beta iota delta [fst snd].
    destruct (_analyze_with_llm _ _ _ _) as [[analysis | e] x2];
      cbn beta iota delta [fst snd];
      [| intros E; inversion E; subst; cbn; repeat split; eauto].
    destruct (_determine_executable_rules _ _ _ _)
      as [[executable | e] x3];
      cbn beta iota delta [fst snd];
      [| intros E; inversion E; subst; cbn; repeat split; eauto].
    destruct (_generate_explanation _ _ _ _) as [[explanation | e] x4];
      cbn beta iota delta [fst snd];
      [| intros E; inversion E; subst; cbn; repeat split; eauto].
    destruct (_create_decision _ _ _ _ _ _ _) as [[decision | e] x5];
      cbn beta iota delta [fst snd];
      [| intros E; inversion E; subst; cbn; repeat split; eauto].
    intros E; inversion E; subst. cbn.
    do 4 (split; [reflexivity |]).
    left. repeat split; eauto.
Qed.

(** X8.  [analyze_scenario] always returns and leaves the agent with the
    scenario as [current_scenario], an iteration count of 0 and its
    thresholds unchanged, in one of three states: COMPLETED, with the
    returned decision appended to the decision history; ERROR, with the
    history unchanged and the returned decision an error decision; or
    QUERYING_RULES, with the history unchanged and the "no rules"
    decision returned.  The agent is left in QUERYING_RULES exactly when
    the retrieval step returned an empty list. *)
Theorem analyze_scenario_bookkeeping (self : BusinessRuleAgent)
    (scenario_description : string) (business_context : option PyVal)
    (domain_hint category_hint : option string) (x : X) :
  exists d self' x',
    analyze_scenario self scenario_description business_context
                     domain_hint category_hint x = (Ok (d, self'), x') /\
    current_scenario self' = Some scenario_description /\
    iteration_count self' = 0%nat /\
    confidence_threshold self' = confidence_threshold self /\
    max_iterations self' = max_iterations self /\
    ((get_current_state self' = AGENT_COMPLETED /\
      get_decision_history self' = get_decision_history self ++ [d]) \/
     (get_current_state self' = ERROR /\
      get_decision_history self' = get_decision_history self /\
      exists msg,
        d = _create_error_decision self' scenario_description msg) \/
     (get_current_state self' = QUERYING_RULES /\
      get_decision_history self' = get_decision_history self /\
      d = _create_no_rules_decision scenario_description)) /\
    (get_current_state self' = QUERYING_RULES <->
     fst (_query_relevant_rules self scenario_description domain_hint
                                category_hint x) = Ok []).
Proof.
  rewrite analyze_scenario_unfold.
  unfold get_current_state, get_decision_history.
  destruct (pipeline _ _ _ _ _) as [[d | e] [x' self']] eqn:Hp;
    apply pipeline_bookkeeping in Hp;
    cbn [entered set_iteration_count set_current_scenario set_state
         confidence_threshold max_iterations current_scenario iteration_count
         decision_history state] in Hp;
    destruct Hp as (Hthr & Hmax & Hcur & Hit & Hcase).
  - exists d, self', x'. split; [reflexivity |].
    repeat (split; [assumption |]).
    assert (forall a, _query_relevant_rules
                        (set_iteration_count 0
                           (set_current_scenario (Some scenario_description)
                              (set_state ANALYZING a)))
                        scenario_description domain_hint category_hint
                      = _query_relevant_rules a scenario_description domain_hint
                          category_hint) as Hq by reflexivity.
    unfold entered in Hcase. rewrite Hq in Hcase.
    destruct Hcase as [(Hst & Hhist & hit & hits & x1 & Hquery)
                      | (Hst & Hhist & -> & Hquery)].
    + split; [left; auto |]. rewrite Hst, Hquery. cbn.
      split; discriminate.
    + split; [right; right; auto |]. rewrite Hst, Hquery. cbn.
      split; reflexivity.
  - eexists; eexists; eexists. split; [reflexivity |].
    cbn [set_state confidence_threshold max_iterations current_scenario
         iteration_count decision_history state].
    repeat (split; [assumption |]).
    destruct Hcase as (Hhist & hit & hits & x1 & Hquery).
    split.
    + right; left. repeat split; eauto.
    + assert (forall a, _query_relevant_rules
                          (set_iteration_count 0
                             (set_current_scenario (Some scenario_description)
                                (set_state ANALYZING a)))
                          scenario_description domain_hint category_hint
                        = _query_relevant_rules a scenario_description
                            domain_hint category_hint) as Hq by reflexivity.
      unfold entered in Hquery. rewrite Hq in Hquery. rewrite Hquery. cbn.
      split; discriminate.
Qed.

End Bookkeeping.


Section ExecutableRules.
Context {X : Type} {runtime : PyRuntime} {rag : RagService X}
        {llm : LLMService X}.
Import Agent.

Lemma resolve_rules_resolved (self : BusinessRuleAgent) (refs : list RuleRef) :
  Forall (fun ref => Qle_bool (confidence_threshold self)
                              (ref_confidence_or_0 ref) = true) refs ->
  forall (x : X) rules x',
    resolve_rules refs x = (Ok rules, x') ->
    Forall (fun r => above_threshold self r /\ resolved r) rules.
Proof.
  induction 1 as [| rule_ref rest Href _ IH]; intros x rules x'; cbn.
  - unfold ret. intros E; inversion E. constructor.
  - unfold subscript, bind, ret, raise.
    destruct (rr_rule_id rule_ref) as [rid |]; [| discriminate].
    destruct (get_rule_by_id rid x) as [[found | e] x1]; [| discriminate].
    destruct (resolve_rules rest x1) as [[more | e] x2] eqn:Hrest;
      [| discriminate].
    specialize (IH _ _ _ Hrest).
    destruct found; intros E; inversion E; subst; [| exact IH].
    constructor; [| exact IH].
    split; [exact Href |].
    unfold resolved, ready; cbn. repeat split; discriminate.
Qed.

Lemma find_full_rule_in_range (store : list RuleDict) (e : ExecRule) :
  forall (k : nat) (x : X) i x',
    find_full_rule store e k x = (Ok (Some i), x') ->
    (k <= i < k + length store)%nat.
Proof.
  induction store as [| r rest IH]; intros k x i x'; cbn.
  - unfold ret. discriminate.
  - unfold subscript, bind, ret, raise.
    destruct (r_id r) as [id |]; [| discriminate].
    destruct (er_rule_id e) as [rid |]; [| discriminate].
    destruct (id =? rid)%string.
    + intros E; inversion E; subst. lia.
    + intros E. apply IH in E. lia.
Qed.

Lemma update_at_length {A} (i : nat) (f : A -> A) (l : list A) :
  length (update_at i f l) = length l.
Proof.
  revert i. induction l as [| a rest IH]; intros [| i]; cbn; auto.
Qed.

Lemma merge_loop_invariant (P : RuleDict -> Prop) :
  (forall o s r, P r -> P (update_order o s r)) ->
  forall (execs : list ExecRule) (store : list RuleDict) (refs : list nat)
         (x : X) store' refs' x',
    merge_loop execs store refs x = (Ok (store', refs'), x') ->
    Forall P store ->
    Forall (fun i => (i < length store)%nat /\ ordered_rule (deref store i))
           refs ->
    Forall P store' /\
    Forall (fun i => (i < length store')%nat /\ ordered_rule (deref store' i))
           refs'.
Proof.
  intros HP. induction execs as [| e rest IH];
    intros store refs x store' refs' x'; cbn [merge_loop].
  - unfold ret. intros E; inversion E; subst. auto.
  - destruct (condition_met e); [| apply IH].
    unfold bind.
    destruct (find_full_rule store e 0 x) as [[[i |] | ex] x1] eqn:Hfind;
      [| apply IH | discriminate].
    apply find_full_rule_in_range in Hfind. cbn in Hfind.
    intros Hrun Hstore Hrefs.
    eapply IH; [exact Hrun | |].
    + apply update_at_Forall; [apply HP | exact Hstore].
    + apply Forall_app. split.
      * eapply Forall_impl; [| exact Hrefs].
        intros j [Hj Hord]. rewrite update_at_length. split; [exact Hj |].
        destruct (Nat.eq_dec i j) as [-> | Hne].
        -- rewrite deref_update_at_same by exact Hj. split; discriminate.
        -- now rewrite deref_update_at_other.
      * constructor; [| constructor].
        rewrite update_at_length. split; [lia |].
        rewrite deref_update_at_same by lia. split; discriminate.
Qed.

Lemma deref_in (store : list RuleDict) (i : nat) :
  (i < length store)%nat -> In (deref store i) store.
Proof. intros Hi. unfold deref. now apply nth_In. Qed.

Lemma update_order_keeps (self : BusinessRuleAgent) (o : Z) (s : string)
    (r : RuleDict) :
  above_threshold self r /\ resolved r ->
  above_threshold self (update_order o s r) /\ resolved (update_order o s r).
Proof. intros H. exact H. Qed.

(** X9.  Every rule that [_determine_executable_rules] returns has a
    confidence that reaches the threshold of the agent, and carries the
    keys id, name, description, condition, action, priority and
    parameters of the catalog entry together with the confidence, the
    reasoning, the execution order and the expected outcome.  When no
    applicable rule of the analysis reaches the threshold, the function
    returns the empty list and leaves the world alone. *)
Theorem executable_rules_meet_the_threshold (self : BusinessRuleAgent)
    (analysis_result : Analysis) (context : PyVal) (x : X) :
  (forall rules x',
     _determine_executable_rules self analysis_result context x
     = (Ok rules, x') ->
     Forall (fun r => above_threshold self r /\ complete r) rules) /\
  (Forall (fun ref => Qle_bool (confidence_threshold self)
                               (ref_confidence_or_0 ref) = false)
          (applicable_or_empty analysis_result) ->
   _determine_executable_rules self analysis_result context x = (Ok [], x)).
Proof.
  unfold _determine_executable_rules.
  set (high := filter _ _).
  assert (Forall (fun ref => Qle_bool (confidence_threshold self)
                                      (ref_confidence_or_0 ref) = true) high)
    as Hhigh.
  { apply Forall_forall. intros rr Hin. apply filter_In in Hin. tauto. }
  destruct high as [| ref0 high'] eqn:Ehigh; cbn [nonempty negb].
  - split; [| reflexivity].
    unfold ret. intros rules x' Hrun. inversion Hrun; subst. constructor.
  - split.
    2:{ intros Hnone. exfalso.
        assert (In ref0 (filter
                  (fun rule => Qle_bool (confidence_threshold self)
                                        (ref_confidence_or_0 rule))
                  (applicable_or_empty analysis_result))) as Hin
          by (fold high; rewrite Ehigh; now left).
        apply filter_In in Hin. destruct Hin as [Hin Hge].
        pose proof (proj1 (Forall_forall _ _) Hnone ref0 Hin). congruence. }
    intros rules x' Hrun.
    unfold bind in Hrun.
    destruct (resolve_rules (ref0 :: high') x) as [[full_rules | e] x1] eqn:Hres;
      [| discriminate].
    destruct (reason_about_rules full_rules context x1)
      as [[reasoning_result | e] x2]; [| discriminate].
    apply (resolve_rules_resolved self Hhigh) in Hres.
    unfold merge_and_sort, bind, ret in Hrun.
    destruct (merge_loop _ full_rules [] x2)
      as [[[store' refs'] | e] x3] eqn:Hloop; [| discriminate].
    inversion Hrun; subst.
    destruct (@merge_loop_invariant
                (fun r => above_threshold self r /\ resolved r)
                (@update_order_keeps self) _ _ _ _ _ _ _ Hloop Hres
                (Forall_nil _)) as [Hstore Hrefs].
    eapply Permutation_Forall; [symmetry; apply sort_by_perm |].
    apply Forall_map. eapply Forall_impl; [| exact Hrefs].
    intros i [Hi [Hord Hout]].
    pose proof (proj1 (Forall_forall _ _) Hstore _ (deref_in store' Hi))
      as [Habove (Hready & Hd & Hc & Hp & Hconf & Hreas)].
    split; [exact Habove |]. unfold complete. auto 10.
Qed.

End ExecutableRules.


Section DecisionAssembly.
Context {X : Type} {runtime : PyRuntime} {rag : RagService X}
        {llm : LLMService X}.
Import Agent.

Lemma plan_steps_ready (rules : list RuleDict) :
  Forall ready rules ->
  forall (i : nat) (x : X),
  exists steps,
    plan_steps i rules x = (Ok steps, x) /\
    map step steps = seq (i + 1) (length rules) /\
    map (fun s => Some (step_rule_id s)) steps = map r_id rules /\
    map (fun s => Some (step_rule_name s)) steps = map r_name rules /\
    map (fun s => Some (step_action s)) steps = map r_action rules /\
    map (fun s => Some (step_parameters s)) steps = map r_parameters rules.
Proof.
  induction 1 as [| rule rest (Hid & Hname & Haction & Hparams) _ IH];
    intros i x.
  - exists []. repeat split; reflexivity.
  - destruct (IH (S i) x) as (more & Hrun & Hnum & Hids & Hnames & Hacts & Hps).
    cbn [plan_steps map length]. unfold subscript, bind, ret.
    destruct (r_id rule) as [id |]; [| congruence].
    destruct (r_name rule) as [name |]; [| congruence].
    destruct (r_action rule) as [action |]; [| congruence].
    destruct (r_parameters rule) as [parameters |]; [| congruence].
    rewrite Hrun. eexists. split; [reflexivity |]. cbn.
    rewrite Hnum, Hids, Hnames, Hacts, Hps.
    replace (S i + 1)%nat with (S (i + 1)) by lia.
    repeat split; reflexivity.
Qed.

Lemma actions_of_ready (rules : list RuleDict) (x : X) :
  Forall ready rules ->
  exists actions,
    actions_of rules x = (Ok actions, x) /\
    map Some actions = map r_action rules.
Proof.
  unfold actions_of.
  induction 1 as [| rule rest (Hid & Hname & Haction & Hparams) _ IH].
  - exists []. split; reflexivity.
  - destruct IH as (more & Hrun & Hacts).
    cbn [map_m map]. unfold subscript, bind, ret in *.
    destruct (r_action rule) as [action |]; [| congruence].
    rewrite Hrun. eexists. split; [reflexivity |]. cbn. now rewrite Hacts.
Qed.

(** X10.  For executable rules that carry id, name, action and
    parameters, [_create_decision] returns a decision whose applicable
    rules are the given rules and whose reasoning is the given
    explanation; its execution plan has one step per rule, numbered
    1, 2, ... in the order of the rules, each with the id and the action
    of its rule; the outcome is "No rules to execute" for no rules and
    "Execute <n> rule(s): <actions joined by ', '>" otherwise; and the
    metadata counts the rules given. *)
Theorem decision_plan_numbers_its_steps (self : BusinessRuleAgent)
    (scenario : string) (executable_rules : list RuleDict)
    (analysis_result : Analysis) (explanation : string)
    (context : option PyVal) (x : X) :
  Forall ready executable_rules ->
  exists d actions,
    _create_decision self scenario executable_rules analysis_result
                     explanation context x = (Ok d, x) /\
    applicable_rules d = executable_rules /\
    reasoning d = explanation /\
    map step (execution_plan d) = seq 1 (length executable_rules) /\
    map (fun s => Some (step_rule_id s)) (execution_plan d)
    = map r_id executable_rules /\
    map (fun s => Some (step_action s)) (execution_plan d)
    = map r_action executable_rules /\
    map Some actions = map r_action executable_rules /\
    decision_outcome d
    = match executable_rules with
      | [] => "No rules to execute"
      | _ => ("Execute " ++ str_nat (length executable_rules) ++ " rule(s): "
              ++ join ", " actions)%string
      end /\
    rules_above_threshold (metadata d) = length executable_rules.
Proof.
  intros Hready.
  destruct (plan_steps_ready Hready 0 x)
    as (steps & Hsteps & Hnum & Hids & _ & Hacts & _).
  destruct (actions_of_ready x Hready) as (actions & Hactions & Hsome).
  unfold _create_decision, bind, ret. rewrite Hsteps.
  assert (length actions = length executable_rules) as Hlen
    by (rewrite <- (length_map Some actions), Hsome; apply length_map).
  destruct executable_rules as [| r rest]; cbn [nonempty].
  - eexists; exists actions. split; [reflexivity |]. cbn.
    rewrite Hnum, Hids, Hacts. repeat split; auto.
  - rewrite Hactions. eexists; exists actions. split; [reflexivity |].
    cbn [applicable_rules reasoning execution_plan decision_outcome metadata
         rules_above_threshold].
    rewrite Hnum, Hids, Hacts, Hlen. repeat split; auto.
Qed.

(** ** The enhanced query *)

Lemma append_empty (s : string) : (s ++ "")%string = s.
Proof. induction s as [| c s IH]; cbn; [reflexivity | now rewrite IH]. Qed.

Lemma join_cons (sep s : string) (parts : list string) :
  join sep (s :: parts)
  = (s ++ match parts with
          | [] => ""
          | _ => sep ++ join sep parts
          end)%string.
Proof.
  unfold join. destruct parts as [| p rest]; cbn [String.concat].
  - now rewrite append_empty.
  - reflexivity.
Qed.

Lemma prefix_append (s t : string) : String.prefix s (s ++ t) = true.
Proof.
  induction s as [| c s IH]; cbn.
  - now destruct t.
  - destruct (Ascii.ascii_dec c c); [exact IH | congruence].
Qed.

(** X11.  [_enhance_query] returns the scenario followed by tags: the
    scenario is a prefix of the query, the tags depend on the scenario
    only through its lowercase form (that of [str.lower], which follows
    the Unicode case mapping), and an empty hint adds the same as no
    hint. *)
Theorem enhanced_query_extends_the_scenario (scenario : string)
    (domain_hint category_hint : option string) :
  exists tags,
    (forall s, lower s = lower scenario ->
               _enhance_query s domain_hint category_hint = (s ++ tags)%string) /\
    String.prefix scenario
      (_enhance_query scenario domain_hint category_hint) = true /\
    _enhance_query scenario (Some "") category_hint
    = _enhance_query scenario None category_hint /\
    _enhance_query scenario domain_hint (Some "")
    = _enhance_query scenario domain_hint None.
Proof.
  unfold _enhance_query. cbn [List.app].
  eexists. split; [| split; [| split; reflexivity]].
  - intros s Hs. rewrite join_cons, Hs. reflexivity.
  - rewrite join_cons. apply prefix_append.
Qed.

(** ** An error that the provider reports *)

(** X12.  When the retrieval finds rules and the analysis of the
    reasoning provider carries an ["error"] key, [analyze_scenario] does
    not return an error decision: it completes normally (state COMPLETED,
    decision appended to the history) with the decision "No rules to
    execute", no applicable rules, an empty plan, confidence 0, the
    fixed explanation for no rules, no error in the metadata and the
    overall assessment "Analysis failed". *)
Theorem reported_provider_error_is_an_empty_decision
    (self : BusinessRuleAgent) (scenario_description : string)
    (business_context : option PyVal)
    (domain_hint category_hint : option string) (x : X)
    hit hits x1 rules_data x2 analysis x3 :
  _query_relevant_rules self scenario_description domain_hint category_hint x
  = (Ok (hit :: hits), x1) ->
  map_m rule_data (hit :: hits) x1 = (Ok rules_data, x2) ->
  llm_analyze_scenario scenario_description rules_data business_context x2
  = (Ok analysis, x3) ->
  an_error analysis <> None ->
  exists d self',
    analyze_scenario self scenario_description business_context
                     domain_hint category_hint x = (Ok (d, self'), x3) /\
    decision_outcome d = "No rules to execute" /\
    applicable_rules d = [] /\ execution_plan d = [] /\
    confidence d = 0 /\
    reasoning d
    = "No applicable business rules were found for this scenario." /\
    md_error (metadata d) = None /\
    overall_assessment (metadata d) = "Analysis failed" /\
    total_rules_considered (metadata d) = 0%nat /\
    get_current_state self' = AGENT_COMPLETED /\
    get_decision_history self' = get_decision_history self ++ [d].
Proof.
  intros Hquery Hdata Hllm Herr.
  rewrite analyze_scenario_unfold.
  unfold pipeline, get_self, set_self. unfold_monad.
  cbn beta iota delta [fst snd].
  assert (forall a, _query_relevant_rules
                      (set_state QUERYING_RULES (entered a scenario_description))
                      scenario_description domain_hint category_hint
                    = _query_relevant_rules a scenario_description domain_hint
                        category_hint) as Hq by reflexivity.
  rewrite Hq, Hquery. cbn beta iota delta [fst snd nonempty negb].
  unfold _analyze_with_llm, bind, ret.
  rewrite Hdata, Hllm. destruct (an_error analysis) as [msg |]; [| congruence].
  cbn beta iota delta [fst snd].
  unfold _determine_executable_rules.
  cbn [applicable_or_empty an_applicable_rules filter nonempty negb].
  unfold ret. cbn beta iota delta [fst snd].
  cbn [_generate_explanation nonempty negb]. unfold ret.
  cbn beta iota delta [fst snd].
  unfold _create_decision, bind, ret. cbn [plan_steps nonempty]. unfold ret.
  cbn beta iota delta [fst snd].
  eexists; eexists. split; [reflexivity |].
  cbn. repeat split; reflexivity.
Qed.

End DecisionAssembly.


Section SharedRules.
Context {X : Type} {runtime : PyRuntime} {rag : RagService X}
        {llm : LLMService X}.
Import Agent.

Lemma merge_loop_app (before after : list ExecRule) :
  forall (store : list RuleDict) (refs : list nat) (x : X),
    merge_loop (before ++ after) store refs x
    = match merge_loop before store refs x with
      | (Ok (store1, refs1), x1) => merge_loop after store1 refs1 x1
      | (Raise e, x1) => (Raise e, x1)
      end.
Proof.
  induction before as [| e rest IH]; intros store refs x; [reflexivity |].
  cbn [List.app merge_loop].
  destruct (condition_met e); [| apply IH].
  unfold bind.
  destruct (find_full_rule store e 0 x) as [[[i |] | ex] x1];
    [apply IH | apply IH | reflexivity].
Qed.

Lemma kept_refs_app (store : list RuleDict) (a b : list ExecRule) :
  kept_refs store (a ++ b) = kept_refs store a ++ kept_refs store b.
Proof. unfold kept_refs. apply flat_map_app. Qed.

(** X13.  The merge updates the rule dictionaries in place and appends a
    reference per approved entry, so a rule that the reasoning provider
    lists more than once appears once per listing in the result.  When
    [e] is the last approved entry that names the rule [i], the rule
    appears once more than it was listed before [e], and every copy
    carries the execution order and the expected outcome of [e]. *)
Theorem last_listing_of_a_rule_wins (full_rules : list RuleDict)
    (before : list ExecRule) (e : ExecRule) (after : list ExecRule)
    (x : X) (i : nat) :
  named full_rules -> Forall names_its_rule (before ++ e :: after) ->
  approved_ref full_rules e = [i] ->
  ~ In i (kept_refs full_rules after) ->
  exists full_rules' final_rules,
    merge_loop (before ++ e :: after) full_rules [] x
    = (Ok (full_rules', final_rules), x) /\
    merge_and_sort full_rules (before ++ e :: after) x
    = (Ok (sort_by order_or_0 (map (deref full_rules') final_rules)), x) /\
    count_occ Nat.eq_dec final_rules i
    = S (count_occ Nat.eq_dec (kept_refs full_rules before) i) /\
    deref full_rules' i
    = update_order (execution_order_or_0 e) (expected_outcome_or_empty e)
                   (deref full_rules i).
Proof.
  intros Hnamed Hexecs Happ Hlast.
  apply Forall_app in Hexecs. destruct Hexecs as [Hbefore Hrest].
  inversion Hrest as [| ? ? He Hafter]; subst.
  destruct (merge_loop_ok Hbefore [] x Hnamed)
    as (store1 & Hrun1 & Hids1 & Hout1 & Hin1).
  assert (named store1) as Hnamed1 by (unfold named; now rewrite Hids1).
  assert (Forall names_its_rule [e]) as He1 by (constructor; auto).
  destruct (merge_loop_ok He1 (kept_refs full_rules before) x Hnamed1)
    as (store2 & Hrun2 & Hids2 & Hout2 & Hin2).
  assert (kept_refs store1 [e] = [i]) as Hkept2.
  { unfold kept_refs. cbn [flat_map]. rewrite app_nil_r.
    now rewrite (approved_ref_ids store1 full_rules e Hids1). }
  rewrite Hkept2 in *.
  assert (named store2) as Hnamed2 by (unfold named; now rewrite Hids2).
  destruct (merge_loop_ok Hafter (kept_refs full_rules before ++ [i]) x Hnamed2)
    as (store3 & Hrun3 & Hids3 & Hout3 & Hin3).
  assert (map r_id store2 = map r_id full_rules) as Hids by congruence.
  rewrite (kept_refs_ids store2 full_rules after Hids) in *.
  assert (deref store3 i
          = update_order (execution_order_or_0 e) (expected_outcome_or_empty e)
                         (deref full_rules i)) as Hval.
  { rewrite (Hout3 i Hlast).
    destruct (Hin2 i (or_introl eq_refl)) as (e' & [<- | []] & _ & _ & ->).
    destruct (in_dec Nat.eq_dec i (kept_refs full_rules before)) as [Hin | Hout].
    - destruct (Hin1 i Hin) as (e0 & _ & _ & _ & ->).
      apply update_order_twice.
    - now rewrite (Hout1 i Hout). }
  assert (merge_loop (before ++ e :: after) full_rules [] x
          = (Ok (store3,
                 kept_refs full_rules before ++ i :: kept_refs full_rules after),
             x)) as Hrun.
  { rewrite merge_loop_app, Hrun1. cbn [List.app].
    change (e :: after) with ([e] ++ after).
    rewrite merge_loop_app, Hrun2, Hrun3.
    now rewrite <- app_assoc. }
  exists store3. eexists. split; [exact Hrun |]. split.
  - unfold merge_and_sort, bind, ret. now rewrite Hrun.
  - split; [| exact Hval].
    rewrite count_occ_app. cbn [count_occ].
    destruct (Nat.eq_dec i i) as [_ | Hne]; [| congruence].
    rewrite (proj1 (count_occ_not_In Nat.eq_dec _ _) Hlast). lia.
Qed.

End SharedRules.


(* ================================================================== *)
(** * The rules manager *)
(* ================================================================== *)

Section DictFacts.

Lemma assoc_dict_set {A} (k k' : string) (v : A) (d : list (string * A)) :
  assoc k (dict_set k' v d)
  = if (k' =? k)%string then Some v else assoc k d.
Proof.
  induction d as [| [k0 v0] rest IH]; cbn.
  - destruct (k' =? k)%string; reflexivity.
  - destruct (k0 =? k')%string eqn:H0; cbn.
    + apply String.eqb_eq in H0. subst k0.
      destruct (k' =? k)%string; reflexivity.
    + destruct (k0 =? k)%string eqn:H1.
      * apply String.eqb_eq in H1. subst k0.
        rewrite String.eqb_sym in H0. now rewrite H0.
      * exact IH.
Qed.

Lemma keys_dict_set {A} (k : string) (v : A) (d : list (string * A)) :
  keys (dict_set k v d) = if dict_has k d then keys d else keys d ++ [k].
Proof.
  unfold dict_has, keys.
  induction d as [| [k0 v0] rest IH]; cbn; [reflexivity |].
  destruct (k0 =? k)%string eqn:H0; cbn.
  - apply String.eqb_eq in H0. now subst.
  - rewrite IH. destruct (assoc k rest); reflexivity.
Qed.

Lemma dict_has_in {A} (k : string) (d : list (string * A)) :
  dict_has k d = true <-> In k (keys d).
Proof.
  unfold dict_has, keys.
  induction d as [| [k0 v0] rest IH]; cbn; [split; [discriminate | tauto] |].
  destruct (k0 =? k)%string eqn:H0.
  - apply String.eqb_eq in H0. split; auto.
  - apply String.eqb_neq in H0. rewrite IH. split; [auto | intros [? | ?]; tauto].
Qed.

End DictFacts.

Section ManagerFacts.
Import Manager.

Lemma find_over_app {A} (f : A -> bool) (l1 l2 : list A) :
  find f (l1 ++ l2)
  = match find f l1 with Some a => Some a | None => find f l2 end.
Proof.
  induction l1 as [| a rest IH]; cbn; [reflexivity |].
  destruct (f a); [reflexivity | exact IH].
Qed.

Lemma index_rule_by_id (rule_id : string) (l : list BusinessRule) :
  forall by_id by_domain,
    assoc rule_id (fst (fold_left index_rule l (by_id, by_domain)))
    = match last_with_id rule_id l with
      | Some r => Some r
      | None => assoc rule_id by_id
      end.
Proof.
  unfold last_with_id.
  induction l as [| rule rest IH]; intros by_id by_domain; [reflexivity |].
  cbn [fold_left]. unfold index_rule at 2. rewrite IH.
  cbn [List.rev]. rewrite find_over_app.
  destruct (find _ (List.rev rest)); [reflexivity |].
  cbn [find]. rewrite assoc_dict_set.
  destruct (br_id rule =? rule_id)%string; reflexivity.
Qed.

Lemma get_rule_by_id_is_last (self : BusinessRulesManager)
    (rule_id : string) :
  get_rule_by_id (_build_indices self) rule_id
  = last_with_id rule_id (rules self).
Proof.
  unfold get_rule_by_id, _build_indices.
  pose proof (index_rule_by_id rule_id (rules self) [] []) as H.
  destruct (fold_left index_rule (rules self) ([], [])) as [by_id by_domain].
  cbn in *. rewrite H. now destruct (last_with_id _ _).
Qed.

(** X14.  After [_build_indices], [get_rule_by_id] returns the last rule
    of [rules] that carries the id, so that of two rules with the same id
    the later one shadows the earlier; what it returns is a rule of the
    list with that id, and it returns [None] exactly when no rule of the
    list carries the id. *)
Theorem lookup_returns_the_last_rule_with_the_id
    (self : BusinessRulesManager) (rule_id : string) :
  get_rule_by_id (_build_indices self) rule_id
  = last_with_id rule_id (rules self) /\
  (forall r, get_rule_by_id (_build_indices self) rule_id = Some r ->
             In r (rules self) /\ br_id r = rule_id) /\
  (get_rule_by_id (_build_indices self) rule_id = None <->
   forall r, In r (rules self) -> br_id r <> rule_id).
Proof.
  pose proof (get_rule_by_id_is_last self rule_id) as Heq.
  split; [exact Heq |]. rewrite Heq. unfold last_with_id. split.
  - intros r Hfind. apply find_some in Hfind. destruct Hfind as [Hin Hid].
    apply in_rev in Hin. apply String.eqb_eq in Hid. auto.
  - split.
    + intros Hnone r Hin Hid.
      apply in_rev in Hin.
      pose proof (find_none _ _ Hnone r Hin) as Hne. cbn in Hne.
      apply String.eqb_neq in Hne. congruence.
    + intros Hall.
      destruct (find _ _) as [r |] eqn:Hfind; [| reflexivity].
      apply find_some in Hfind. destruct Hfind as [Hin Hid].
      apply in_rev in Hin. apply String.eqb_eq in Hid.
      exfalso. eapply Hall; eauto.
Qed.

(** ** The domain index *)

Lemma index_rule_bucket (domain : string) (rule : BusinessRule) by_id by_domain :
  bucket domain (snd (index_rule (by_id, by_domain) rule))
  = bucket domain by_domain ++ (if in_domain domain rule then [rule] else []).
Proof.
  unfold index_rule, bucket, in_domain, dict_has.
  cbn [snd].
  destruct (assoc (br_domain rule) by_domain) as [l |] eqn:Hl; cbn [negb].
  - rewrite Hl, assoc_dict_set.
    destruct (br_domain rule =? domain)%string eqn:Hd.
    + apply String.eqb_eq in Hd. subst. now rewrite Hl.
    + now rewrite app_nil_r.
  - rewrite !assoc_dict_set, String.eqb_refl.
    destruct (br_domain rule =? domain)%string eqn:Hd.
    + apply String.eqb_eq in Hd. subst. now rewrite Hl.
    + now rewrite app_nil_r.
Qed.

Lemma fold_index_bucket (domain : string) (l : list BusinessRule) :
  forall by_id by_domain,
    bucket domain (snd (fold_left index_rule l (by_id, by_domain)))
    = bucket domain by_domain ++ filter (in_domain domain) l.
Proof.
  induction l as [| rule rest IH]; intros by_id by_domain.
  - cbn. now rewrite app_nil_r.
  - cbn [fold_left filter].
    destruct (index_rule (by_id, by_domain) rule) as [by_id1 by_domain1] eqn:H1.
    rewrite IH.
    pose proof (index_rule_bucket domain rule by_id by_domain) as Hb.
    rewrite H1 in Hb. cbn [snd] in Hb. rewrite Hb, <- app_assoc.
    now destruct (in_domain domain rule).
Qed.

Lemma index_rule_keys (rule : BusinessRule) by_id by_domain :
  keys (snd (index_rule (by_id, by_domain) rule))
  = if dict_has (br_domain rule) by_domain then keys by_domain
    else keys by_domain ++ [br_domain rule].
Proof.
  unfold index_rule. cbv zeta.
  destruct (dict_has (br_domain rule) by_domain) eqn:Hhas; cbn [negb snd].
  - rewrite keys_dict_set. now rewrite Hhas.
  - rewrite keys_dict_set.
    assert (dict_has (br_domain rule)
              (dict_set (br_domain rule) [] by_domain) = true) as ->.
    { unfold dict_has. now rewrite assoc_dict_set, String.eqb_refl. }
    rewrite keys_dict_set. now rewrite Hhas.
Qed.

Lemma fold_index_keys (l : list BusinessRule) :
  forall by_id by_domain,
    NoDup (keys by_domain) ->
    NoDup (keys (snd (fold_left index_rule l (by_id, by_domain)))) /\
    forall d, In d (keys (snd (fold_left index_rule l (by_id, by_domain))))
              <-> In d (keys by_domain) \/
                  exists r, In r l /\ br_domain r = d.
Proof.
  induction l as [| rule rest IH]; intros by_id by_domain Hnd.
  - cbn. split; [exact Hnd |]. intros d. split; [auto |].
    intros [H | (r & [] & _)]; exact H.
  - cbn [fold_left].
    destruct (index_rule (by_id, by_domain) rule) as [by_id1 by_domain1] eqn:H1.
    pose proof (index_rule_keys rule by_id by_domain) as Hk.
    rewrite H1 in Hk. cbn [snd] in Hk.
    assert (NoDup (keys by_domain1)) as Hnd1.
    { rewrite Hk. destruct (dict_has _ _) eqn:Hhas; [exact Hnd |].
      apply NoDup_app; [exact Hnd | repeat constructor; intros [] |].
      intros d Hin [<- | []]. apply dict_has_in in Hin. congruence. }
    destruct (IH by_id1 by_domain1 Hnd1) as [Hnd' Hin'].
    split; [exact Hnd' |]. intros d. rewrite Hin', Hk.
    destruct (dict_has (br_domain rule) by_domain) eqn:Hhas.
    + apply dict_has_in in Hhas. split.
      * intros [H | (r & Hr & Hd)]; [auto | right; exists r; cbn; auto].
      * intros [H | (r & [<- | Hr] & Hd)]; [auto | subst; auto | eauto].
    + rewrite in_app_iff. cbn. split.
      * intros [[H | [<- | []]] | (r & Hr & Hd)]; eauto.
      * intros [H | (r & [<- | Hr] & Hd)]; [auto | subst; auto | eauto].
Qed.

Lemma filter_head {A} (f : A -> bool) (a : A) (l : list A) :
  filter f (a :: l) = if f a then a :: filter f l else filter f l.
Proof. reflexivity. Qed.

Lemma flat_map_other_domains (r : BusinessRule) (rest : list BusinessRule)
    (ks : list string) :
  ~ In (br_domain r) ks ->
  flat_map (fun k => filter (in_domain k) (r :: rest)) ks
  = flat_map (fun k => filter (in_domain k) rest) ks.
Proof.
  induction ks as [| k ks IH]; [reflexivity |].
  intros Hnot. cbn [flat_map]. rewrite filter_head. unfold in_domain at 1.
  destruct (br_domain r =? k)%string eqn:Hk.
  - apply String.eqb_eq in Hk. exfalso. apply Hnot. now left.
  - rewrite IH; [reflexivity |]. intros H. apply Hnot. now right.
Qed.

Lemma flat_map_own_domain (r : BusinessRule) (rest : list BusinessRule)
    (ks : list string) :
  NoDup ks -> In (br_domain r) ks ->
  Permutation (flat_map (fun k => filter (in_domain k) (r :: rest)) ks)
              (r :: flat_map (fun k => filter (in_domain k) rest) ks).
Proof.
  induction 1 as [| k ks Hnotin Hnd IH]; intros Hin; [destruct Hin |].
  cbn [flat_map]. rewrite filter_head. unfold in_domain at 1.
  destruct (br_domain r =? k)%string eqn:Hk.
  - apply String.eqb_eq in Hk. subst k. cbn [List.app].
    constructor. apply Permutation_app_head.
    now rewrite flat_map_other_domains.
  - apply String.eqb_neq in Hk.
    destruct Hin as [-> | Hin]; [congruence |].
    rewrite (IH Hin). apply Permutation_sym, Permutation_middle.
Qed.

Lemma partition_by_key (ks : list string) (l : list BusinessRule) :
  NoDup ks -> (forall r, In r l -> In (br_domain r) ks) ->
  Permutation (flat_map (fun k => filter (in_domain k) l) ks) l.
Proof.
  intros Hnd. induction l as [| r rest IH]; intros Hcover.
  - cbn. clear Hnd Hcover. induction ks as [| k ks' IHk]; [constructor |].
    cbn. exact IHk.
  - rewrite flat_map_own_domain; [| exact Hnd | apply Hcover; now left].
    constructor. apply IH. intros r' Hr'. apply Hcover. now right.
Qed.

(** X15.  After [_build_indices], [get_rules_by_domain] returns the rules
    of the domain in the order of [rules]; [get_domains] lists each
    domain that has a rule once and no other; and the lists of all the
    domains together are a rearrangement of [rules]. *)
Theorem domain_index_partitions_the_rules (self : BusinessRulesManager) :
  (forall domain,
     get_rules_by_domain (_build_indices self) domain
     = filter (in_domain domain) (rules self)) /\
  NoDup (get_domains (_build_indices self)) /\
  (forall domain,
     In domain (get_domains (_build_indices self)) <->
     exists r, In r (rules self) /\ br_domain r = domain) /\
  Permutation
    (flat_map (get_rules_by_domain (_build_indices self))
              (get_domains (_build_indices self)))
    (rules self).
Proof.
  assert (forall domain,
            get_rules_by_domain (_build_indices self) domain
            = filter (in_domain domain) (rules self)) as Hbucket.
  { intros domain. unfold get_rules_by_domain, _build_indices.
    pose proof (fold_index_bucket domain (rules self) [] []) as H.
    destruct (fold_left index_rule (rules self) ([], [])) as [by_id by_domain].
    cbn in *. exact H. }
  assert (NoDup (get_domains (_build_indices self)) /\
          forall domain,
            In domain (get_domains (_build_indices self)) <->
            exists r, In r (rules self) /\ br_domain r = domain) as [Hnd Hin].
  { unfold get_domains, _build_indices.
    pose proof (@fold_index_keys (rules self) [] [] (NoDup_nil _)) as [H1 H2].
    destruct (fold_left index_rule (rules self) ([], [])) as [by_id by_domain].
    cbn in *. split; [exact H1 |]. intros d. rewrite H2. tauto. }
  split; [exact Hbucket |]. split; [exact Hnd |]. split; [exact Hin |].
  rewrite (flat_map_ext _ (fun k => filter (in_domain k) (rules self)))
    by exact Hbucket.
  apply partition_by_key; [exact Hnd |].
  intros r Hr. apply Hin. eauto.
Qed.

End ManagerFacts.

Section SearchFacts.
Context {runtime : PyRuntime} {sets : PySets}.
Import Manager.

Lemma to_text_returns (r : BusinessRule) :
  has_mapping_parameters r -> exists s, to_text r = Ok s.
Proof.
  unfold has_mapping_parameters, to_text.
  destruct (br_parameters r); cbn; try discriminate. intros _.
  destruct d; eexists; reflexivity.
Qed.

Lemma matching_rules_filter (query : string) (domain category : option string)
    (l : list BusinessRule) :
  Forall has_mapping_parameters l ->
  matching_rules (lower query) domain category l
  = Ok (filter (search_hit query domain category) l).
Proof.
  induction 1 as [| r rest Hr _ IH]; [reflexivity |].
  cbn [matching_rules filter]. unfold search_hit at 1.
  destruct (filtered_out domain (br_domain r)); [exact IH |].
  destruct (filtered_out category (br_category r)); [exact IH |].
  cbn [negb andb]. unfold text_of.
  destruct (to_text_returns Hr) as [s ->]. rewrite IH. reflexivity.
Qed.

Lemma sorted_descending (l : list BusinessRule) :
  StronglySorted (key_le (fun r => (- br_priority r)%Z)) l ->
  StronglySorted priority_ge l.
Proof.
  induction 1 as [| a rest _ IH Hall]; constructor; [exact IH |].
  eapply Forall_impl; [| exact Hall].
  intros b Hb. unfold key_le, priority_ge in *. lia.
Qed.

(** X16.  When the parameters of every rule are a mapping, [search_rules]
    returns; what it returns is a rearrangement of the rules that pass
    the filters and whose lowercase text contains the lowercase query
    (both lowered by [str.lower], which follows the Unicode case
    mapping), in descending order of priority, with rules of equal
    priority in the order of [rules].  With no (or empty) filters and an
    empty query every rule is returned. *)
Theorem search_orders_hits_by_priority (self : BusinessRulesManager)
    (query : string) (domain category : option string) :
  Forall has_mapping_parameters (rules self) ->
  exists found,
    search_rules self query domain category = Ok found /\
    Permutation found
      (filter (search_hit query domain category) (rules self)) /\
    StronglySorted priority_ge found /\
    (forall p,
       filter (fun r => br_priority r =? p)%Z found
       = filter (fun r => br_priority r =? p)%Z
           (filter (search_hit query domain category) (rules self))) /\
    (domain = Some "" \/ domain = None ->
     category = Some "" \/ category = None ->
     query = "" -> Permutation found (rules self)).
Proof.
  intros Hall. unfold search_rules.
  rewrite (matching_rules_filter query domain category Hall).
  eexists. split; [reflexivity |].
  split; [apply sort_by_perm |].
  split; [apply sorted_descending, sort_by_sorted |].
  split.
  - intros p.
    pose proof (sort_by_stable (fun r => (- br_priority r)%Z) (- p)%Z
                  (filter (search_hit query domain category) (rules self)))
      as Hst.
    assert (forall l : list BusinessRule,
              filter (fun r => (- br_priority r =? - p)%Z) l
              = filter (fun r => (br_priority r =? p)%Z) l) as Hsame.
    { intros l. apply filter_ext. intros r.
      destruct (br_priority r =? p)%Z eqn:Hp.
      - apply Z.eqb_eq in Hp. subst. apply Z.eqb_refl.
      - apply Z.eqb_neq in Hp. apply Z.eqb_neq. lia. }
    now rewrite !Hsame in Hst.
  - intros Hd Hc ->. rewrite sort_by_perm.
    assert (forall r, search_hit "" domain category r = true) as Htrue.
    { intros r. unfold search_hit.
      destruct Hd as [-> | ->], Hc as [-> | ->]; cbn;
        now destruct (lower (text_of r)). }
    clear Hall. induction (rules self) as [| r rest IH]; [constructor |].
    cbn [filter]. rewrite Htrue. now constructor.
Qed.

End SearchFacts.


(* ================================================================== *)
(** * The further operations of the service *)
(* ================================================================== *)

Section SliceFacts.

Lemma py_slice_page {A} (l : list A) (limit offset : Z) :
  (0 <= offset)%Z -> (0 <= limit)%Z ->
  py_slice l offset (offset + limit) = page_of l limit offset.
Proof.
  intros Ho Hl. unfold py_slice, page_of, slice_index.
  assert ((offset <? 0)%Z = false) as -> by lia.
  assert ((offset + limit <? 0)%Z = false) as -> by lia.
  set (n := Z.of_nat (length l)).
  destruct (Z_le_gt_dec n offset) as [Hbig | Hsmall].
  - rewrite (skipn_all2 l) by lia.
    rewrite (skipn_all2 l) by lia. now rewrite !firstn_nil.
  - rewrite (Z.min_l offset n) by lia.
    destruct (Z_le_gt_dec (offset + limit) n) as [Hin | Hout].
    + rewrite Z.min_l by lia. f_equal. lia.
    + rewrite Z.min_r by lia.
      rewrite !firstn_all2; [reflexivity | |];
        rewrite length_skipn; lia.
Qed.

Lemma page_of_app {A} (l : list A) (limit limit' offset : Z) :
  (0 <= offset)%Z -> (0 <= limit)%Z -> (0 <= limit')%Z ->
  page_of l (limit + limit') offset
  = page_of l limit offset ++ page_of l limit' (offset + limit).
Proof.
  intros Ho Hl Hl'. unfold page_of.
  rewrite Z2Nat.inj_add by lia. rewrite (Z2Nat.inj_add offset limit) by lia.
  rewrite (Nat.add_comm (Z.to_nat offset)), <- skipn_skipn.
  generalize (skipn (Z.to_nat offset) l) as rest.
  generalize (Z.to_nat limit) as n. generalize (Z.to_nat limit') as m.
  intros m n. induction n as [| n IH]; intros rest; [reflexivity |].
  destruct rest as [| a rest]; cbn.
  - now rewrite firstn_nil.
  - now rewrite IH.
Qed.

Lemma page_of_length {A} (l : list A) (limit offset : Z) :
  (0 <= limit)%Z -> (Z.of_nat (length (page_of l limit offset)) <= limit)%Z.
Proof.
  intros Hl. unfold page_of.
  pose proof (firstn_le_length (Z.to_nat limit) (skipn (Z.to_nat offset) l)).
  lia.
Qed.

End SliceFacts.

Section ServiceOpsFacts.
Context {X : Type} {clock : Clock X} {runtime : PyRuntime} {sets : PySets}
        {executor : ActionExecutor X}
        {rag : RagService X} {llm : LLMService X}
        {facade : RagFacade X} {chat_model : ChatModel X}.
Import Service.

(** X17.  A service that is not initialized refuses its operations: [analyze_scenario], [execute_rules],
    [analyze_and_execute], [get_rules], [get_rule_by_id],
    [get_execution_history] and [chat_with_agent] raise the
    [RuntimeError] "System not initialized" without touching anything,
    while [get_system_info] returns a mapping that reports it instead of
    raising. *)
Theorem uninitialized_service_refuses (self : AgenticSystemService) (x : X) :
  initialized self = false ->
  (forall scenario context domain_hint category_hint,
     refused (analyze_scenario self scenario context domain_hint
                               category_hint) x /\
     refused (analyze_and_execute self scenario context domain_hint
                                  category_hint) x) /\
  (forall scenario rules context,
     refused (execute_rules self scenario rules context) x) /\
  (forall domain category limit offset,
     refused (get_rules self domain category limit offset) x) /\
  (forall rule_id, refused (get_rule_by_id self rule_id) x) /\
  (forall limit offset, refused (get_execution_history self limit offset) x) /\
  (forall message context conversation_history,
     refused (chat_with_agent self message context conversation_history) x) /\
  get_system_info self x
  = (Ok (VDict [("initialized", VBool false);
                ("error", VStr "System not initialized")]), x).
Proof.
  intros Hinit. unfold refused.
  unfold analyze_and_execute, analyze_scenario, execute_rules, get_rules,
    get_rule_by_id, get_execution_history, chat_with_agent, get_system_info.
  unfold bind. rewrite Hinit. cbn [negb]. unfold raise, ret.
  repeat split; reflexivity.
Qed.

Lemma cleanup_uninitializes (self : AgenticSystemService) :
  initialized (cleanup self) = false /\
  agent (cleanup self) = agent self /\
  execution_engine (cleanup self) = execution_engine self.
Proof. repeat split; reflexivity. Qed.

(** X18.  For an offset and limits that are not negative,
    [get_execution_history] returns the [limit] summaries that start at
    [offset] (fewer at the end of the history) and leaves the world
    alone; the page at [offset] followed by the page at [offset + limit]
    is the page of both limits at [offset]; and a page from offset 0
    whose limit reaches the length of the history is the whole
    history. *)
Theorem history_pages_tile_the_history (self : AgenticSystemService)
    (limit limit' offset : Z) (x : X) :
  initialized self = true ->
  (0 <= offset)%Z -> (0 <= limit)%Z -> (0 <= limit')%Z ->
  exists page next,
    get_execution_history self limit offset x = (Ok page, x) /\
    get_execution_history self limit' (offset + limit) x = (Ok next, x) /\
    get_execution_history self (limit + limit') offset x
    = (Ok (page ++ next), x) /\
    page = page_of (Engine.get_execution_history (execution_engine self))
                   limit offset /\
    (Z.of_nat (length page) <= limit)%Z /\
    (offset = 0%Z ->
     (Z.of_nat (length (Engine.execution_history (execution_engine self)))
      <= limit)%Z ->
     page = Engine.get_execution_history (execution_engine self)).
Proof.
  intros Hinit Ho Hl Hl'. unfold get_execution_history. rewrite Hinit.
  cbn [negb]. unfold ret.
  eexists; eexists. split; [reflexivity |]. split; [reflexivity |].
  rewrite !py_slice_page by lia.
  split; [now rewrite page_of_app |]. split; [reflexivity |].
  split; [now apply page_of_length |].
  intros -> Hall. unfold page_of. cbn [Z.to_nat skipn].
  apply firstn_all2. unfold Engine.get_execution_history.
  rewrite length_map. lia.
Qed.

Lemma keep_matching_visible (domain category : option string)
    (l : list BusinessRule) :
  keep_matching category br_category (keep_matching domain br_domain l)
  = filter (visible domain category) l.
Proof.
  unfold keep_matching, visible.
  destruct domain as [d |], category as [c |];
    try destruct (hint_given (Some d)); try destruct (hint_given (Some c));
    cbn [andb];
    try rewrite filter_filter;
    try (apply filter_ext; intros r; now rewrite ?andb_true_r);
    try (induction l as [| r rest IH]; cbn; [reflexivity | now rewrite <- IH]).
Qed.

(** X19.  For an offset and a limit that are not negative, [get_rules]
    returns a page in which [total_count] counts all the rules that pass
    the two filters (a missing or empty filter lets every rule pass),
    [rules] holds the dictionaries of the [limit] of them that start at
    [offset], so at most [limit] and at most [total_count] entries, and
    [domains] lists the domains of the manager. *)
Theorem rules_page_counts_before_paging (self : AgenticSystemService)
    (domain category : option string) (limit offset : Z) (x : X) :
  initialized self = true -> (0 <= offset)%Z -> (0 <= limit)%Z ->
  exists page,
    get_rules self domain category limit offset x = (Ok page, x) /\
    rp_total_count page
    = length (filter (visible domain category)
                     (Manager.rules (rules_manager x))) /\
    rp_rules page
    = map Manager.to_dict
          (page_of (filter (visible domain category)
                           (Manager.rules (rules_manager x)))
                   limit offset) /\
    (Z.of_nat (length (rp_rules page)) <= limit)%Z /\
    (length (rp_rules page) <= rp_total_count page)%nat /\
    rp_domains page = Manager.get_domains (rules_manager x).
Proof.
  intros Hinit Ho Hl. unfold get_rules. rewrite Hinit. cbn [negb].
  unfold bind, gets, ret. eexists. split; [reflexivity |].
  cbn [rp_total_count rp_rules rp_domains].
  unfold Manager.get_all_rules.
  rewrite keep_matching_visible, py_slice_page by lia.
  split; [reflexivity |]. split; [reflexivity |].
  rewrite length_map. split; [now apply page_of_length |].
  split; [| reflexivity].
  unfold page_of. rewrite length_firstn, length_skipn. lia.
Qed.

(** X20.  [execute_rules] on an initialized service returns a summary for
    the scenario that counts the rules given, keeps the service
    initialized and its agent unchanged, and appends to the history: a
    page of one entry at the old length of the history is that summary,
    and every page from offset 0 that is longer than the old history
    ends with it. *)
Theorem executed_rules_show_up_last (self : AgenticSystemService)
    (description : string) (to_run : list RuleDict) (context : PyVal) (x : X) :
  initialized self = true ->
  exists summary self' x',
    execute_rules self description to_run context x
    = (Ok (summary, self'), x') /\
    initialized self' = true /\ agent self' = agent self /\
    s_scenario summary = description /\
    s_total_rules summary = length to_run /\
    get_execution_history self' 1
      (Z.of_nat (length (Engine.execution_history (execution_engine self)))) x'
    = (Ok [summary], x') /\
    forall limit,
      (Z.of_nat (length (Engine.execution_history (execution_engine self)))
       < limit)%Z ->
      exists earlier,
        get_execution_history self' limit 0 x' = (Ok (earlier ++ [summary]), x') /\
        length earlier
        = length (Engine.execution_history (execution_engine self)).
Proof.
  intros Hinit.
  destruct (service_execute_rules_ok self description to_run context x Hinit)
    as (plan & plan' & x' & Hcreate & Hrun & Hexec).
  eexists; eexists; exists x'. split; [exact Hexec |].
  split; [reflexivity |]. split; [reflexivity |].
  destruct (execute_plan_shape (execution_engine self) plan (snd (datetime_now x)))
    as (plan2 & x2 & results & t' & Hrun2 & Hplan2 & _).
  rewrite Hrun in Hrun2. inversion Hrun2; subst plan2 x2. clear Hrun2.
  assert (description = scenario plan /\ to_run = rules plan)
    as [Hs Hr].
  { revert Hcreate. unfold Engine.create_execution_plan, now, bind, ret.
    destruct (datetime_now x) as [t x1]. intros E; inversion E. auto. }
  split; [rewrite Hplan2; cbn; now rewrite Hs |].
  split; [rewrite Hplan2; cbn; now rewrite Hr |].
  set (history := Engine.execution_history (execution_engine self)).
  unfold get_execution_history. cbn [initialized negb execution_engine].
  unfold ret, Engine.get_execution_history.
  cbn [Engine.execution_history]. rewrite map_app. cbn [map].
  split.
  - rewrite py_slice_page by lia. unfold page_of.
    rewrite Nat2Z.id.
    rewrite skipn_app, skipn_all2 by (rewrite length_map; lia).
    rewrite length_map, Nat.sub_diag. reflexivity.
  - intros limit Hlimit. exists (map Engine.get_execution_summary history).
    rewrite length_map. split; [| reflexivity].
    rewrite (py_slice_page _ (limit := limit) (offset := 0)) by lia.
    unfold page_of. cbn [Z.to_nat skipn].
    rewrite firstn_all2; [reflexivity |].
    rewrite length_app, length_map. cbn [length]. fold history. lia.
Qed.

End ServiceOpsFacts.


(* ================================================================== *)
(** * Retrieval *)
(* ================================================================== *)

Section BatchFacts.
Import Qdrant.

Lemma chunks_concat {A} (b : nat) : forall (m : nat) (l : list A),
  (length l <= m * b)%nat ->
  concat (map (fun k => firstn b (skipn (k * b) l)) (seq 0 m)) = l.
Proof.
  induction m as [| m IH]; intros l Hlen.
  - cbn in *. destruct l; [reflexivity | cbn in Hlen; lia].
  - cbn [seq map concat]. cbn [Nat.mul skipn].
    rewrite <- seq_shift, map_map.
    rewrite (map_ext _ (fun k => firstn b (skipn (k * b) (skipn b l)))).
    + rewrite IH; [apply firstn_skipn |]. rewrite length_skipn. lia.
    + intros k. rewrite skipn_skipn. f_equal. f_equal. lia.
Qed.

Lemma ceil_div_covers (n b : nat) :
  (0 < b)%nat -> (n <= (n + b - 1) / b * b)%nat.
Proof.
  intros Hb.
  pose proof (Nat.div_mod_eq (n + b - 1) b) as Hdiv.
  pose proof (Nat.mod_upper_bound (n + b - 1) b). nia.
Qed.

Lemma ceil_div_tight (n b k : nat) :
  (0 < b)%nat -> (k < (n + b - 1) / b)%nat -> (k * b < n)%nat.
Proof.
  intros Hb Hk.
  pose proof (Nat.div_mod_eq (n + b - 1) b) as Hdiv.
  pose proof (Nat.mod_upper_bound (n + b - 1) b). nia.
Qed.

Lemma batches_chunks (points : list PointStruct) :
  batches points
  = map (fun k => firstn batch_size (skipn (k * batch_size) points))
        (seq 0 ((length points + batch_size - 1) / batch_size)).
Proof.
  unfold batches, range_by. rewrite map_map. apply map_ext. intros k.
  rewrite Nat2Z.inj_add, py_slice_page by lia.
  unfold page_of. now rewrite !Nat2Z.id.
Qed.

Lemma batches_tile (points : list PointStruct) :
  concat (batches points) = points /\
  Forall (fun batch => (0 < length batch <= batch_size)%nat) (batches points) /\
  length (batches points) = ((length points + 99) / 100)%nat.
Proof.
  rewrite batches_chunks. unfold batch_size. split; [| split].
  - apply chunks_concat. apply ceil_div_covers. lia.
  - apply Forall_forall. intros batch Hin. apply in_map_iff in Hin.
    destruct Hin as (k & <- & Hk). apply in_seq in Hk.
    assert (k * 100 < length points)%nat
      by (apply ceil_div_tight; lia).
    rewrite length_firstn, length_skipn. lia.
  - rewrite length_map, length_seq. f_equal. lia.
Qed.

End BatchFacts.

Section QdrantFacts.
Context {X : Type} {qdrant : Qdrant.QdrantClient X}.
Import Qdrant.

Lemma add_rules_returns (self : QdrantRAG)
    (rules_data : list (list (string * PyVal))) (embeddings : list Embedding)
    (x : X) :
  returns (add_rules self rules_data embeddings) x.
Proof.
  unfold returns, add_rules.
  destruct (client self); cbn [negb]; [| eexists; eexists; reflexivity].
  destruct (length rules_data =? length embeddings)%nat; cbn [negb];
    [| eexists; eexists; reflexivity].
  unfold try_except, bind, ret.
  destruct (Agent.map_m _ _ x) as [[points | e] x1];
    [| eexists; eexists; reflexivity].
  destruct (for_each _ _ x1) as [[u | e] x2];
    eexists; eexists; reflexivity.
Qed.

(** X21.  [add_rules] never raises.  It returns [False] without touching
    the store when there is no client or when the rules and the
    embeddings differ in number, and [True] once every point is built
    and every batch is upserted.  The batches, in order, are the points
    in order; no batch is empty or holds more than 100 points; and there
    are [ceil(n / 100)] of them for [n] points. *)
Theorem points_are_upserted_in_batches (self : QdrantRAG)
    (rules_data : list (list (string * PyVal))) (embeddings : list Embedding)
    (x : X) :
  returns (add_rules self rules_data embeddings) x /\
  (client self = false \/ length rules_data <> length embeddings ->
   add_rules self rules_data embeddings x = (Ok false, x)) /\
  (forall points x1 x2,
     client self = true -> length rules_data = length embeddings ->
     Agent.map_m point_of (combine rules_data embeddings) x = (Ok points, x1) ->
     for_each (batches points) (fun batch => upsert (collection_name self) batch)
              x1 = (Ok tt, x2) ->
     add_rules self rules_data embeddings x = (Ok true, x2)) /\
  (forall points,
     concat (batches points) = points /\
     Forall (fun batch => (0 < length batch <= batch_size)%nat)
            (batches points) /\
     length (batches points) = ((length points + 99) / 100)%nat).
Proof.
  split; [apply add_rules_returns |].
  unfold add_rules. split; [| split].
  - intros [Hc | Hlen].
    + now rewrite Hc.
    + destruct (client self); [| reflexivity]. cbn [negb].
      apply Nat.eqb_neq in Hlen. now rewrite Hlen.
  - intros points x1 x2 Hc Hlen Hpoints Hloop.
    rewrite Hc, Hlen, Nat.eqb_refl. cbn [negb].
    unfold try_except, bind, ret. now rewrite Hpoints, Hloop.
  - apply batches_tile.
Qed.

Lemma search_result_of_pure (score : Q) (payload : Payload) (x : X) :
  snd (search_result_of score payload x) = x /\
  forall r x', search_result_of score payload x = (Ok r, x') ->
    sr_score r = score /\ Some (sr_rule_id r) = p_rule_id payload /\
    map fst (sr_metadata r) = metadata_keys.
Proof.
  unfold search_result_of, subscript, bind, ret, raise.
  destruct (p_rule_id payload); cbn; [| split; [reflexivity | discriminate]].
  repeat (match goal with
          | |- context [assoc ?k (p_fields payload)] =>
              destruct (assoc k (p_fields payload)); cbn;
              [| split; [reflexivity | discriminate]]
          end).
  split; [reflexivity |]. intros r x' E. inversion E; subst. cbn. auto.
Qed.

Lemma map_search_results (hits : list ScoredPoint) (x : X) :
  snd (Agent.map_m (fun hit => search_result_of (hit_score hit)
                                                (hit_payload hit)) hits x) = x /\
  forall results x',
    Agent.map_m (fun hit => search_result_of (hit_score hit) (hit_payload hit))
                hits x = (Ok results, x') ->
    map sr_score results = map hit_score hits /\
    map (fun r => Some (sr_rule_id r)) results
    = map (fun h => p_rule_id (hit_payload h)) hits /\
    Forall (fun r => map fst (sr_metadata r) = metadata_keys) results.
Proof.
  induction hits as [| hit rest IH]; cbn [Agent.map_m].
  - unfold ret. split; [reflexivity |].
    intros results x' E. inversion E. repeat split; constructor.
  - unfold bind, ret.
    destruct (search_result_of_pure (hit_score hit) (hit_payload hit) x)
      as [Hx Hr].
    destruct (search_result_of _ _ x) as [[r | e] x1]; cbn in Hx; subst x1;
      [| split; [reflexivity | discriminate]].
    destruct IH as [Hx' Hrest].
    destruct (Agent.map_m _ rest x) as [[more | e] x2]; cbn in Hx'; subst x2;
      [| split; [reflexivity | discriminate]].
    split; [reflexivity |]. intros results x' E. inversion E; subst.
    destruct (Hr _ _ eq_refl) as (Hs & Hid & Hk).
    destruct (Hrest _ _ eq_refl) as (Hss & Hids & Hks).
    cbn [map]. rewrite Hs, Hid, Hss, Hids. repeat split. now constructor.
Qed.

(** X22.  [search_similar_rules] never raises: without a client it
    returns [[]] and leaves the world alone, and when the client answers
    it returns either [[]] (as when a hit lacks a key) or one result per
    hit, in order, with the score and the rule id of the hit and exactly the
    nine metadata keys.  No filter is sent when no hint or priority is
    given, and a [min_priority] of 0 or an empty hint filters like
    none. *)
Theorem search_never_raises (self : QdrantRAG) (query_embedding : Embedding)
    (top_k : Z) (domain_filter category_filter : option string)
    (min_priority : option Z) (x : X) :
  returns (search_similar_rules self query_embedding top_k domain_filter
                                category_filter min_priority) x /\
  (client self = false ->
   search_similar_rules self query_embedding top_k domain_filter
                        category_filter min_priority x = (Ok [], x)) /\
  (forall hits x',
     client self = true ->
     search (collection_name self) query_embedding
            (query_filter domain_filter category_filter min_priority) top_k x
     = (Ok hits, x') ->
     exists results,
       search_similar_rules self query_embedding top_k domain_filter
                            category_filter min_priority x = (Ok results, x') /\
       (results = [] \/
        (map sr_score results = map hit_score hits /\
         map (fun r => Some (sr_rule_id r)) results
         = map (fun h => p_rule_id (hit_payload h)) hits /\
         Forall (fun r => map fst (sr_metadata r) = metadata_keys) results))) /\
  query_filter None None None = None /\
  query_filter domain_filter category_filter (Some 0%Z)
  = query_filter domain_filter category_filter None /\
  query_filter (Some "") category_filter min_priority
  = query_filter None category_filter min_priority.
Proof.
  unfold returns, search_similar_rules.
  split; [| split; [| split; [| repeat split; reflexivity]]].
  - destruct (client self); cbn [negb]; [| eexists; eexists; reflexivity].
    unfold try_except, bind, ret.
    destruct (search _ _ _ _ x) as [[hits | e] x1];
      [| eexists; eexists; reflexivity].
    destruct (Agent.map_m _ hits x1) as [[results | e] x2];
      eexists; eexists; reflexivity.
  - intros Hc. now rewrite Hc.
  - intros hits x' Hc Hsearch. rewrite Hc. cbn [negb].
    unfold try_except, bind, ret. rewrite Hsearch.
    destruct (map_search_results hits x') as [Hx Hres].
    destruct (Agent.map_m _ hits x') as [[results | e] x2]; cbn in Hx; subst x2.
    + exists results. split; [reflexivity |]. right.
      exact (Hres _ _ eq_refl).
    + exists []. split; [reflexivity |]. now left.
Qed.

End QdrantFacts.

Section RagFacts.
Context {X : Type} {runtime : PyRuntime} {sets : PySets}
        {qdrant : Qdrant.QdrantClient X} {embeddings : EmbeddingsService X}.
Import Rag.

Lemma query_rules_scores (self : BusinessRulesRAG)
    (query : string) (top_k : Z)
    (domain_filter category_filter : option string) (min_priority : option Z)
    (confidence_threshold : Q) (x : X) :
  exists results x',
    query_rules self query top_k domain_filter category_filter min_priority
                confidence_threshold x = (Ok results, x') /\
    Forall (scores_at_least confidence_threshold) results /\
    (initialized self = false -> results = [] /\ x' = x).
Proof.
  unfold query_rules.
  destruct (initialized self); cbn [negb].
  2:{ exists [], x. unfold ret. split; [reflexivity |].
      split; [constructor | auto]. }
  unfold try_except, bind, ret.
  destruct (generate_single_embedding query x) as [[[emb |] | e] x1];
    [destruct (Qdrant.search_similar_rules _ _ _ _ _ _ x1)
       as [[found | e] x2] | |];
    eexists; eexists; (split; [reflexivity |]);
    (split; [| discriminate]); try constructor.
  apply Forall_forall. intros r Hin. apply filter_In in Hin.
  unfold scores_at_least. tauto.
Qed.

(** X23.  [query_rules] never raises, and every result it returns has a
    score that reaches [confidence_threshold].  An uninitialized service
    returns [[]] and leaves the world alone; otherwise the results are
    those of [search_similar_rules] for the embedding of the query, in
    order, without the ones below the threshold. *)
Theorem query_results_reach_the_threshold (self : BusinessRulesRAG)
    (query : string) (top_k : Z)
    (domain_filter category_filter : option string) (min_priority : option Z)
    (confidence_threshold : Q) (x : X) :
  exists results x',
    query_rules self query top_k domain_filter category_filter min_priority
                confidence_threshold x = (Ok results, x') /\
    Forall (scores_at_least confidence_threshold) results /\
    (initialized self = false -> results = [] /\ x' = x) /\
    (forall query_embedding x1 found x2,
       initialized self = true ->
       generate_single_embedding query x = (Ok (Some query_embedding), x1) ->
       Qdrant.search_similar_rules (qdrant_rag self) query_embedding top_k
         domain_filter category_filter min_priority x1 = (Ok found, x2) ->
       results = filter (fun r => Qle_bool confidence_threshold (sr_score r))
                        found /\
       x' = x2).
Proof.
  unfold query_rules.
  destruct (initialized self); cbn [negb].
  2:{ exists [], x. unfold ret. split; [reflexivity |].
      split; [constructor |]. split; [auto |].
      intros emb x1 found x2 Hinit. discriminate. }
  unfold try_except, bind, ret.
  destruct (generate_single_embedding query x) as [[[emb |] | e] x1] eqn:Hemb.
  - destruct (Qdrant.search_similar_rules _ _ _ _ _ _ x1)
      as [[found | e] x2] eqn:Hsearch.
    + eexists; eexists. split; [reflexivity |]. split.
      * apply Forall_forall. intros r Hin. apply filter_In in Hin.
        unfold scores_at_least. tauto.
      * split; [discriminate |].
        intros emb' x1' found' x2' _ E1 E2.
        inversion E1; subst. rewrite Hsearch in E2. inversion E2; subst. auto.
    + exists [], x2. split; [reflexivity |]. split; [constructor |].
      split; [discriminate |].
      intros emb' x1' found' x2' _ E1 E2.
      inversion E1; subst. rewrite Hsearch in E2. discriminate.
  - exists [], x1. split; [reflexivity |]. split; [constructor |].
    split; [discriminate |]. intros emb' x1' found' x2' _ E1. discriminate.
  - exists [], x1. split; [reflexivity |]. split; [constructor |].
    split; [discriminate |]. intros emb' x1' found' x2' _ E1. discriminate.
Qed.

(** X24.  [index_rules] never raises.  It returns [False] at once on an
    uninitialized service and [True] at once when there is no rule; a
    rule whose text cannot be built and an embeddings service that
    returns [None] both make it return [False]. *)
Theorem index_rules_never_raises (self : BusinessRulesRAG) (x : X) :
  returns (index_rules self) x /\
  (initialized self = false -> index_rules self x = (Ok false, x)) /\
  (initialized self = true -> Manager.rules (rules_manager self) = [] ->
   index_rules self x = (Ok true, x)) /\
  (forall e,
     initialized self = true -> Manager.rules (rules_manager self) <> [] ->
     Manager.map_res Manager.to_text (Manager.rules (rules_manager self))
     = Raise e ->
     index_rules self x = (Ok false, x)) /\
  (forall texts x1,
     initialized self = true -> Manager.rules (rules_manager self) <> [] ->
     Manager.map_res Manager.to_text (Manager.rules (rules_manager self))
     = Ok texts ->
     generate_embeddings texts x = (Ok None, x1) ->
     index_rules self x = (Ok false, x1)).
Proof.
  unfold returns, index_rules, Manager.get_all_rules.
  split; [| split; [| split; [| split]]].
  - destruct (initialized self); cbn [negb]; [| eexists; eexists; reflexivity].
    unfold try_except.
    destruct (Manager.rules (rules_manager self)) as [| r rest];
      cbn [nonempty negb]; [eexists; eexists; reflexivity |].
    unfold bind, lift_res, ret.
    destruct (Manager.map_res _ _) as [texts | e];
      [| eexists; eexists; reflexivity].
    destruct (generate_embeddings texts x) as [[[embs |] | e] x1];
      try (eexists; eexists; reflexivity).
    destruct (add_rules_returns (qdrant_rag self)
                (map rule_data_of (combine (r :: rest) texts)) embs x1)
      as (ok & x2 & Hadd).
    rewrite Hadd. eexists; eexists; reflexivity.
  - intros Hinit. now rewrite Hinit.
  - intros Hinit Hrules. now rewrite Hinit, Hrules.
  - intros e Hinit Hrules Htext. rewrite Hinit. cbn [negb].
    destruct (Manager.rules (rules_manager self)) as [| r rest];
      [congruence |].
    cbn [nonempty negb]. unfold try_except, bind, lift_res, ret.
    now rewrite Htext.
  - intros texts x1 Hinit Hrules Htext Hemb. rewrite Hinit. cbn [negb].
    destruct (Manager.rules (rules_manager self)) as [| r rest];
      [congruence |].
    cbn [nonempty negb]. unfold try_except, bind, lift_res, ret.
    now rewrite Htext, Hemb.
Qed.

End RagFacts.

Section AgentOverRag.
Context {X : Type} {runtime : PyRuntime} {sets : PySets}
        {qdrant : Qdrant.QdrantClient X} {embeddings : EmbeddingsService X}
        {llm : LLMService X}.
Import Agent.

(** X25.  An agent whose retrieval service is a [BusinessRulesRAG] always
    gets an answer from [_query_relevant_rules], and every hit scores at
    least the threshold that the agent passes on: the float product of
    its confidence threshold and 0.8, as the machine rounds it
    ([float_mul]; for the threshold 0.7 that is 0.5599999999999999, below
    the exact 0.56).  Over an uninitialized RAG service
    [analyze_scenario] returns the "no rules" decision, leaves the world
    alone and leaves the agent in QUERYING_RULES.  The rule that the
    agent resolves for an id is the last rule of the manager with that
    id. *)
Theorem agent_retrieves_above_the_relaxed_threshold
    (store : Rag.BusinessRulesRAG) (self : BusinessRuleAgent)
    (scenario : string) (domain_hint category_hint : option string) (x : X) :
  exists hits x',
    _query_relevant_rules (rag := Rag.as_rag_service store) self scenario
                          domain_hint category_hint x = (Ok hits, x') /\
    Forall (scores_at_least (float_mul (confidence_threshold self) (8 # 10)))
           hits /\
    (Rag.initialized store = false ->
     forall business_context,
     exists self',
       analyze_scenario (rag := Rag.as_rag_service store) self scenario
                        business_context domain_hint category_hint x
       = (Ok (_create_no_rules_decision scenario, self'), x) /\
       get_current_state self' = QUERYING_RULES) /\
    (forall manager rule_id,
       Rag.rules_manager store = Manager._build_indices manager ->
       get_rule_by_id (RagService := Rag.as_rag_service store) rule_id x
       = (Ok (last_with_id rule_id (Manager.rules manager)), x)).
Proof.
  destruct (query_rules_scores store
              (_enhance_query scenario domain_hint category_hint) 10
              domain_hint category_hint None
              (float_mul (confidence_threshold self) (8 # 10)) x)
    as (results & x' & Hrun & Hall & Hoff).
  exists results, x'.
  assert (_query_relevant_rules (rag := Rag.as_rag_service store) self scenario
            domain_hint category_hint x = (Ok results, x')) as Hquery.
  { unfold _query_relevant_rules, try_except. cbn [query_rules Rag.as_rag_service].
    cbn [Z.of_nat Pos.of_succ_nat Pos.succ]. now rewrite Hrun. }
  split; [exact Hquery |]. split; [exact Hall |]. split.
  - intros Hinit business_context. destruct (Hoff Hinit) as [-> ->].
    rewrite analyze_scenario_unfold.
    unfold pipeline, get_self, set_self. unfold_monad.
    cbn beta iota delta [fst snd].
    assert (forall a,
              _query_relevant_rules (rag := Rag.as_rag_service store)
                (set_state QUERYING_RULES (entered a scenario))
                scenario domain_hint category_hint
              = _query_relevant_rules (rag := Rag.as_rag_service store) a
                  scenario domain_hint category_hint) as Hq by reflexivity.
    rewrite Hq, Hquery. cbn beta iota delta [fst snd nonempty negb].
    eexists. split; reflexivity.
  - intros manager rule_id Heq.
    cbn [get_rule_by_id Rag.as_rag_service]. unfold ret, Rag.get_rule_by_id.
    rewrite Heq.
    now rewrite get_rule_by_id_is_last.
Qed.

End AgentOverRag.


(* ================================================================== *)
(** * The language model service *)
(* ================================================================== *)

Section TextFacts.

Lemma py_find_bounds (c : ascii) (s : string) :
  (-1 <= py_find c s < Z.of_nat (String.length s))%Z \/
  (py_find c s = -1 /\ s = "")%Z.
Proof.
  induction s as [| a rest IH]; [right; auto |].
  left. cbn [py_find String.length].
  destruct (Ascii.eqb a c); [lia |].
  destruct (py_find c rest <? 0)%Z eqn:Hneg; [lia |].
  apply Z.ltb_ge in Hneg. destruct IH as [IH | [IH _]]; lia.
Qed.

Lemma py_find_split (c : ascii) (s : string) :
  (0 <= py_find c s)%Z ->
  exists before rest,
    s = (before ++ String c rest)%string /\
    String.length before = Z.to_nat (py_find c s) /\
    absent c before.
Proof.
  induction s as [| a rest IH]; cbn [py_find]; [lia |].
  destruct (Ascii.eqb a c) eqn:Hac.
  - apply Ascii.eqb_eq in Hac. subst a. intros _.
    exists "", rest. repeat split. intros [].
  - destruct (py_find c rest <? 0)%Z eqn:Hneg; [lia |].
    apply Z.ltb_ge in Hneg. intros _.
    destruct (IH Hneg) as (before & rest' & -> & Hlen & Habs).
    exists (String a before), rest'. split; [reflexivity |]. split.
    + cbn [String.length]. rewrite Hlen. lia.
    + unfold absent. cbn. intros [-> | Hin]; [| exact (Habs Hin)].
      rewrite Ascii.eqb_refl in Hac. discriminate.
Qed.

Lemma py_find_absent (c : ascii) (s : string) :
  py_find c s = (-1)%Z -> absent c s.
Proof.
  unfold absent. induction s as [| a rest IH]; cbn [py_find]; [tauto |].
  destruct (Ascii.eqb a c) eqn:Hac; [discriminate |].
  destruct (py_find c rest <? 0)%Z eqn:Hneg.
  - intros _. apply Z.ltb_lt in Hneg.
    assert (py_find c rest = (-1)%Z) as Hrest.
    { destruct (py_find_bounds c rest) as [H | [H _]]; lia. }
    cbn. intros [-> | Hin]; [| exact (IH Hrest Hin)].
    rewrite Ascii.eqb_refl in Hac. discriminate.
  - apply Z.ltb_ge in Hneg. lia.
Qed.

Lemma py_rfind_split (c : ascii) (s : string) :
  (0 <= py_rfind c s)%Z ->
  exists before rest,
    s = (before ++ String c rest)%string /\
    String.length before = Z.to_nat (py_rfind c s) /\
    absent c rest.
Proof.
  induction s as [| a rest IH]; cbn [py_rfind]; [lia |].
  destruct (py_rfind c rest <? 0)%Z eqn:Hneg.
  - destruct (Ascii.eqb a c) eqn:Hac; [| lia].
    apply Ascii.eqb_eq in Hac. subst a. intros _.
    exists "", rest. repeat split.
    apply Z.ltb_lt in Hneg. clear IH.
    unfold absent. induction rest as [| b rest' IH']; [tauto |].
    cbn [py_rfind] in Hneg.
    destruct (py_rfind c rest' <? 0)%Z eqn:Hneg'.
    + destruct (Ascii.eqb b c) eqn:Hbc; [lia |].
      apply Z.ltb_lt in Hneg'. cbn. intros [-> | Hin]; [| exact (IH' Hneg' Hin)].
      rewrite Ascii.eqb_refl in Hbc. discriminate.
    + apply Z.ltb_ge in Hneg'. lia.
  - apply Z.ltb_ge in Hneg. intros _.
    destruct (IH Hneg) as (before & rest' & -> & Hlen & Habs).
    exists (String a before), rest'. split; [reflexivity |]. split.
    + cbn [String.length]. rewrite Hlen. lia.
    + exact Habs.
Qed.

Lemma list_ascii_app (s t : string) :
  list_ascii_of_string (s ++ t)
  = list_ascii_of_string s ++ list_ascii_of_string t.
Proof. induction s as [| a s IH]; cbn; [reflexivity | now rewrite IH]. Qed.

Lemma string_of_list_app (l1 l2 : list ascii) :
  string_of_list_ascii (l1 ++ l2)
  = (string_of_list_ascii l1 ++ string_of_list_ascii l2)%string.
Proof. induction l1 as [| a l1 IH]; cbn; [reflexivity | now rewrite IH]. Qed.

Lemma length_list_ascii (s : string) :
  length (list_ascii_of_string s) = String.length s.
Proof. induction s as [| a s IH]; cbn; [reflexivity | now rewrite IH]. Qed.

(** Two decompositions of one text at different characters: the first
    occurrence of [c] comes before the last occurrence of [d]. *)
Lemma split_twice (c d : ascii) (s b1 r1 b2 r2 : string) :
  c <> d ->
  s = (b1 ++ String c r1)%string -> s = (b2 ++ String d r2)%string ->
  (String.length b1 < String.length b2 + 1)%nat ->
  exists middle, r1 = (middle ++ String d r2)%string /\
                 b2 = (b1 ++ String c middle)%string.
Proof.
  intros Hcd. revert s b2. induction b1 as [| a b1 IH]; intros s b2 H1 H2 Hlen.
  - cbn in H1. subst s. destruct b2 as [| a2 b2]; cbn in H2.
    + inversion H2. congruence.
    + inversion H2; subst. exists b2. auto.
  - cbn in H1. subst s. destruct b2 as [| a2 b2]; cbn in H2, Hlen; [lia |].
    inversion H2; subst.
    destruct (IH _ b2 eq_refl H1) as (middle & -> & ->); [lia |].
    exists middle. auto.
Qed.

Lemma slice_of_split (before middle after : string) :
  str_slice (before ++ middle ++ after)
            (Z.of_nat (String.length before))
            (Z.of_nat (String.length before + String.length middle))
  = middle.
Proof.
  unfold str_slice. rewrite Nat2Z.inj_add, py_slice_page by lia.
  unfold page_of. rewrite !Nat2Z.id, !list_ascii_app.
  rewrite skipn_app, skipn_all2 by (rewrite length_list_ascii; lia).
  rewrite length_list_ascii, Nat.sub_diag. cbn [skipn List.app].
  rewrite firstn_app, firstn_all2 by (rewrite length_list_ascii; lia).
  rewrite length_list_ascii, Nat.sub_diag. cbn [firstn]. rewrite app_nil_r.
  apply string_of_list_ascii_of_string.
Qed.

Lemma length_append (s t : string) :
  String.length (s ++ t) = (String.length s + String.length t)%nat.
Proof. induction s as [| a s IH]; cbn; [reflexivity | now rewrite IH]. Qed.

End TextFacts.

Section ParsingFacts.
Context {json : Json}.
Import LocalLLM.

Lemma json_span_shape (response_text json_str : string) :
  json_span response_text = Some json_str ->
  exists before middle after,
    response_text = (before ++ json_str ++ after)%string /\
    json_str = (String "{" middle ++ "}")%string /\
    absent "{" before /\ absent "}" after.
Proof.
  unfold json_span.
  destruct (py_find "{" response_text =? -1)%Z eqn:Hstart; [discriminate |].
  apply Z.eqb_neq in Hstart. cbn [negb andb].
  destruct (_ >? _)%Z eqn:Hend; [| discriminate].
  apply Z.gtb_lt in Hend. intros E; inversion E as [Hj]; clear E.
  assert (0 <= py_find "{" response_text)%Z as Hs
    by (destruct (py_find_bounds "{" response_text) as [H | [H _]]; lia).
  assert (0 <= py_rfind "}" response_text)%Z as He by lia.
  destruct (py_find_split _ _ Hs) as (b1 & r1 & H1 & Hl1 & Habs1).
  destruct (py_rfind_split _ _ He) as (b2 & r2 & H2 & Hl2 & Habs2).
  destruct (@split_twice "{" "}" response_text b1 r1 b2 r2) as (middle & -> & ->);
    [discriminate | exact H1 | exact H2 | lia |].
  exists b1, middle, r2.
  assert (py_find "{" response_text = Z.of_nat (String.length b1)) as -> by lia.
  assert ((py_rfind "}" response_text + 1)%Z
          = Z.of_nat (String.length b1
                      + String.length (String "{" middle ++ "}"))) as ->.
  { rewrite length_append in Hl2. cbn [String.length] in *.
    rewrite length_append. cbn [String.length]. lia. }
  assert (response_text
          = (b1 ++ (String "{" middle ++ "}") ++ r2)%string) as Htext.
  { rewrite H1. f_equal. cbn. f_equal.
    clear. induction middle as [| a m IH]; cbn; [reflexivity | now rewrite IH]. }
  assert (str_slice response_text (Z.of_nat (String.length b1))
            (Z.of_nat (String.length b1
                       + String.length (String "{" middle ++ "}")))
          = (String "{" middle ++ "}")%string) as Hslice.
  { rewrite Htext. apply slice_of_split. }
  subst json_str. rewrite Hslice.
  repeat split; auto.
Qed.

(** X26.  [_parse_analysis_response] hands to [json.loads] the text from
    the first opening brace to the last closing brace of the response,
    dropping what comes before and after.  Without such a span (in
    particular when either brace is missing) it returns the fallback
    analysis with the whole response as overall assessment; with one it
    returns what [json.loads] returns, the fallback with a
    ["parsing_error"] when that raises [JSONDecodeError], and passes on
    any other exception.  It never raises [JSONDecodeError]. *)
Theorem parser_reads_the_outermost_braces (response_text : string) :
  (forall json_str,
     json_span response_text = Some json_str ->
     exists before middle after,
       response_text = (before ++ json_str ++ after)%string /\
       json_str = (String "{" middle ++ "}")%string /\
       absent "{" before /\ absent "}" after) /\
  (json_span response_text = None ->
   _parse_analysis_response response_text
   = Ok (VDict [("applicable_rules", VList []);
                ("overall_assessment", VStr response_text);
                ("recommended_actions", VList [])])) /\
  (forall json_str,
     json_span response_text = Some json_str ->
     _parse_analysis_response response_text
     = match json_loads json_str with
       | Ok v => Ok v
       | Raise e =>
           if (exn_class e =? "JSONDecodeError")%string
           then Ok (VDict [("applicable_rules", VList []);
                           ("overall_assessment", VStr response_text);
                           ("recommended_actions", VList []);
                           ("parsing_error",
                            VStr "Failed to parse JSON response")])
           else Raise e
       end) /\
  (forall e, _parse_analysis_response response_text = Raise e ->
             exn_class e <> "JSONDecodeError") /\
  (absent "{" response_text \/ absent "}" response_text ->
   json_span response_text = None).
Proof.
  split; [intros j; apply json_span_shape |].
  unfold _parse_analysis_response, try_except_class.
  split; [intros ->; reflexivity |].
  split; [intros j ->; reflexivity |]. split.
  - destruct (json_span response_text) as [j |]; [| discriminate].
    destruct (json_loads j) as [v | e0]; [discriminate |].
    destruct (exn_class e0 =? "JSONDecodeError")%string eqn:Hcls;
      [discriminate |].
    intros e E. inversion E; subst. now apply String.eqb_neq.
  - intros Habs. destruct (json_span response_text) as [j |] eqn:Hspan;
      [| reflexivity].
    exfalso. apply json_span_shape in Hspan.
    destruct Hspan as (before & middle & after & -> & -> & _).
    unfold absent in Habs.
    destruct Habs as [Habs | Habs]; apply Habs;
      rewrite !list_ascii_app, !in_app_iff.
    + right; left; left. cbn. auto.
    + right; left; right. cbn. auto.
Qed.

End ParsingFacts.

Section ChatFacts.
Context {X : Type} {clock : Clock X} {runtime : PyRuntime} {sets : PySets}
        {executor : ActionExecutor X}
        {rag : RagService X} {llms : LLMService X}
        {facade : RagFacade X} {ollama : LocalLLM.Ollama X}.
Import Service.

(** X27.  [chat_with_agent] of an initialized service over a
    [LocalLLMService] never raises.  It sends the system prompt, the
    history and then the message as a user message; the reply carries
    the context and the suggested actions, which are those that the
    words of [message.lower()] call for ([suggest_actions], with the
    Unicode case mapping of [str.lower]).  A failure of the model comes
    back as the message "Error: <text>", and a service whose model was
    never built answers "Error: LLM service not initialized" without
    touching the world. *)
Theorem chat_failures_come_back_as_messages
    (backend : LocalLLM.LocalLLMService) (self : AgenticSystemService)
    (message : string) (context : option PyVal)
    (conversation_history : option (list (string * string))) (x : X) :
  initialized self = true ->
  let sent :=
    LocalLLM.mkChatMessage LocalLLM.SYSTEM system_prompt
    :: map LocalLLM.chat_message_of
           (match conversation_history with Some l => l | None => [] end
            ++ [("user", message)]) in
  exists reply x',
    chat_with_agent (chat_model := LocalLLM.as_chat_model backend) self
                    message context conversation_history x
    = (Ok reply, x') /\
    cr_context reply = context /\
    cr_suggested_actions reply = suggest_actions message /\
    if LocalLLM.llm backend then
      x' = snd (LocalLLM.chat sent x) /\
      cr_message reply
      = match fst (LocalLLM.chat sent x) with
        | Ok response => response
        | Raise e => ("Error: " ++ exn_text e)%string
        end
    else
      x' = x /\ cr_message reply = "Error: LLM service not initialized".
Proof.
  intros Hinit sent. unfold chat_with_agent. rewrite Hinit. cbn [negb].
  unfold bind, ret, LocalLLM.as_chat_model. cbn [chat_with_context].
  unfold LocalLLM.chat_with_context.
  destruct (LocalLLM.llm backend); cbn [negb].
  - unfold try_except, ret.
    assert (hint_given (Some system_prompt) = true) as -> by reflexivity.
    cbn [List.app]. fold sent.
    destruct (LocalLLM.chat sent x) as [[response | e] x1];
      eexists; eexists; (split; [reflexivity |]); cbn; auto.
  - unfold ret. eexists; eexists. split; [reflexivity |]. cbn. auto.
Qed.

End ChatFacts.


(* ================================================================== *)
(** * The performance monitor *)
(* ================================================================== *)

Section MonitorFacts.
Context {X : Type} {time : Time X} {floats : PyFloats}.
Import Performance.

Lemma adjust_adjust {A} (k : string) (f g : A -> A) (d : list (string * A)) :
  adjust k f (adjust k g d) = adjust k (fun a => f (g a)) d.
Proof.
  unfold adjust. rewrite map_map. apply map_ext. intros [k' v]. cbn.
  destruct (k' =? k)%string eqn:Hk; cbn; rewrite Hk; reflexivity.
Qed.

Lemma adjust_ext {A} (k : string) (f g : A -> A) (d : list (string * A)) :
  (forall a, f a = g a) -> adjust k f d = adjust k g d.
Proof.
  intros H. unfold adjust. apply map_ext. intros [k' v]. cbn.
  now rewrite H.
Qed.

Lemma adjust_absent {A} (k : string) (f : A -> A) (d : list (string * A)) :
  ~ In k (keys d) -> adjust k f d = d.
Proof.
  unfold adjust, keys. induction d as [| [k' v] rest IH]; cbn; [reflexivity |].
  intros Hn. destruct (k' =? k)%string eqn:Hk.
  - apply String.eqb_eq in Hk. tauto.
  - rewrite IH by tauto. reflexivity.
Qed.

Lemma keys_adjust {A} (k : string) (f : A -> A) (d : list (string * A)) :
  keys (adjust k f d) = keys d.
Proof.
  unfold adjust, keys. rewrite map_map. apply map_ext. intros [k' v]. cbn.
  destruct (k' =? k)%string; reflexivity.
Qed.

Lemma dict_set_fresh {A} (k : string) (v : A) (d : list (string * A)) :
  dict_has k d = false -> dict_set k v d = d ++ [(k, v)].
Proof.
  unfold dict_has. induction d as [| [k' v'] rest IH]; cbn; [reflexivity |].
  destruct (k' =? k)%string; [discriminate |].
  intros H. now rewrite IH.
Qed.

Lemma dict_has_not_in {A} (k : string) (d : list (string * A)) :
  dict_has k d = false <-> ~ In k (keys d).
Proof.
  rewrite <- dict_has_in. destruct (dict_has k d); split; congruence.
Qed.

Lemma count_in_present (d : list (string * TypeStats)) (m : PerformanceMetrics) :
  dict_has (operation m) d = true ->
  count_in d m = adjust (operation m) (bump m) d.
Proof.
  intros H. unfold count_in. rewrite H. cbn [negb].
  destruct (success m) eqn:Hs; rewrite adjust_adjust; apply adjust_ext;
    intros st; unfold bump; rewrite Hs; reflexivity.
Qed.

Lemma count_in_fresh (d : list (string * TypeStats)) (m : PerformanceMetrics) :
  dict_has (operation m) d = false ->
  count_in d m
  = d ++ [(operation m, bump m (mkTypeStats 0 0 0 (VInt 0)))].
Proof.
  intros H. unfold count_in. rewrite H. cbn [negb].
  rewrite dict_set_fresh by exact H.
  apply dict_has_not_in in H.
  assert (forall f, adjust (operation m) f
                      (d ++ [(operation m, mkTypeStats 0 0 0 (VInt 0))])
                    = d ++ [(operation m, f (mkTypeStats 0 0 0 (VInt 0)))])
    as Hadj.
  { intros f. unfold adjust at 1. rewrite map_app.
    fold (adjust (operation m) f d). rewrite adjust_absent by exact H.
    cbn. now rewrite String.eqb_refl. }
  destruct (success m) eqn:Hs; rewrite adjust_adjust, Hadj;
    unfold bump; rewrite Hs; reflexivity.
Qed.

Lemma of_type_app (op : string) (p q : list PerformanceMetrics) :
  of_type op (p ++ q) = of_type op p ++ of_type op q.
Proof. apply filter_app. Qed.

Lemma of_type_absent (op : string) (p : list PerformanceMetrics) :
  ~ In op (map operation p) -> of_type op p = [].
Proof.
  unfold of_type. induction p as [| m p IH]; cbn; [reflexivity |].
  intros Hn. destruct (operation m =? op)%string eqn:Hm.
  - apply String.eqb_eq in Hm. tauto.
  - apply IH. tauto.
Qed.

Lemma total_count_app (d e : list (string * TypeStats)) :
  total_count (d ++ e) = (total_count d + total_count e)%nat.
Proof.
  unfold total_count. induction d as [| item d IH]; cbn; [reflexivity |].
  rewrite IH. lia.
Qed.

Lemma total_count_adjust (k : string) (f : TypeStats -> TypeStats)
    (d : list (string * TypeStats)) :
  NoDup (keys d) -> In k (keys d) ->
  (forall st, ts_count (f st) = S (ts_count st)) ->
  total_count (adjust k f d) = S (total_count d).
Proof.
  intros Hnd Hin Hf. unfold total_count, adjust, keys in *.
  induction d as [| [k' v] rest IH]; cbn in *; [tauto |].
  inversion Hnd as [| ? ? Hnot Hnd']; subst.
  destruct (k' =? k)%string eqn:Hk.
  - apply String.eqb_eq in Hk. subst k'. cbn. rewrite Hf.
    fold (adjust k f rest). rewrite (@adjust_absent _ k f rest Hnot). lia.
  - apply String.eqb_neq in Hk. cbn. rewrite IH; [lia | exact Hnd' | tauto].
Qed.

Lemma in_adjust {A} (k op : string) (f : A -> A) (st : A)
    (d : list (string * A)) :
  In (op, st) (adjust k f d) ->
  (op <> k /\ In (op, st) d) \/
  (op = k /\ exists st0, In (k, st0) d /\ st = f st0).
Proof.
  unfold adjust. rewrite in_map_iff. intros [[k' v] [E Hin]]. cbn in E.
  destruct (k' =? k)%string eqn:Hk.
  - apply String.eqb_eq in Hk. inversion E; subst. right. eauto.
  - apply String.eqb_neq in Hk. inversion E; subst. left. auto.
Qed.

Lemma count_in_grouped (d : list (string * TypeStats))
    (p : list PerformanceMetrics) (m : PerformanceMetrics) :
  grouped d p -> grouped (count_in d m) (p ++ [m]).
Proof.
  intros (Hnd & Hkeys & Hent & Htot).
  assert (forall op, of_type op (p ++ [m])
                     = of_type op p
                       ++ (if (operation m =? op)%string then [m] else []))
    as Hof.
  { intros op. rewrite of_type_app. cbn. now destruct (operation m =? op)%string. }
  destruct (dict_has (operation m) d) eqn:Hhas.
  - rewrite count_in_present by exact Hhas.
    apply dict_has_in in Hhas. repeat split.
    + now rewrite keys_adjust.
    + rewrite keys_adjust, map_app, in_app_iff, Hkeys. cbn. tauto.
    + rewrite keys_adjust, map_app, in_app_iff, Hkeys. cbn.
      intros [? | [<- | []]]; [assumption |]. now apply Hkeys.
    + apply in_adjust in H.
      destruct H as [[Hne Hin] | [-> (st0 & Hin & ->)]].
      * rewrite Hof. destruct (operation m =? op)%string eqn:Hm;
          [apply String.eqb_eq in Hm; congruence |].
        rewrite app_nil_r. now apply Hent.
      * rewrite Hof, String.eqb_refl, length_app. cbn.
        destruct (Hent _ _ Hin) as (-> & _). lia.
    + apply in_adjust in H.
      destruct H as [[Hne Hin] | [-> (st0 & Hin & ->)]].
      * rewrite Hof. destruct (operation m =? op)%string eqn:Hm;
          [apply String.eqb_eq in Hm; congruence |].
        rewrite app_nil_r. now apply Hent.
      * rewrite Hof, String.eqb_refl, filter_app, length_app. cbn.
        destruct (Hent _ _ Hin) as (_ & -> & _).
        destruct (success m); cbn; lia.
    + apply in_adjust in H.
      destruct H as [[Hne Hin] | [-> (st0 & Hin & ->)]].
      * rewrite Hof. destruct (operation m =? op)%string eqn:Hm;
          [apply String.eqb_eq in Hm; congruence |].
        rewrite app_nil_r. now apply Hent.
      * rewrite Hof, String.eqb_refl, filter_app, length_app. cbn.
        destruct (Hent _ _ Hin) as (_ & _ & ->).
        destruct (success m); cbn; lia.
    + rewrite total_count_adjust; auto.
      * rewrite length_app. cbn. lia.
      * intros st. cbn. lia.
  - rewrite count_in_fresh by exact Hhas.
    apply dict_has_not_in in Hhas.
    assert (of_type (operation m) p = []) as Hnone.
    { apply of_type_absent. now rewrite <- Hkeys. }
    repeat split.
    + unfold keys in *. rewrite map_app. cbn.
      apply NoDup_app; [exact Hnd | repeat constructor; intros [] | ].
      intros a Ha [<- | []]. tauto.
    + unfold keys in *. rewrite !map_app, !in_app_iff, Hkeys. cbn. tauto.
    + unfold keys in *. rewrite !map_app, !in_app_iff, Hkeys. cbn. tauto.
    + apply in_app_iff in H. destruct H as [Hin | [E | []]].
      * rewrite Hof. destruct (operation m =? op)%string eqn:Hm.
        -- apply String.eqb_eq in Hm. subst op. exfalso. apply Hhas.
           unfold keys. apply in_map_iff. exists (operation m, st). auto.
        -- rewrite app_nil_r. now apply Hent.
      * inversion E; subst. rewrite Hof, String.eqb_refl, Hnone. reflexivity.
    + apply in_app_iff in H. destruct H as [Hin | [E | []]].
      * rewrite Hof. destruct (operation m =? op)%string eqn:Hm.
        -- apply String.eqb_eq in Hm. subst op. exfalso. apply Hhas.
           unfold keys. apply in_map_iff. exists (operation m, st). auto.
        -- rewrite app_nil_r. now apply Hent.
      * inversion E; subst. rewrite Hof, String.eqb_refl, Hnone. cbn.
        destruct (success m); reflexivity.
    + apply in_app_iff in H. destruct H as [Hin | [E | []]].
      * rewrite Hof. destruct (operation m =? op)%string eqn:Hm.
        -- apply String.eqb_eq in Hm. subst op. exfalso. apply Hhas.
           unfold keys. apply in_map_iff. exists (operation m, st). auto.
        -- rewrite app_nil_r. now apply Hent.
      * inversion E; subst. rewrite Hof, String.eqb_refl, Hnone. cbn.
        destruct (success m); reflexivity.
    + rewrite total_count_app, length_app, Htot. cbn. lia.
Qed.

Lemma fold_count_in_grouped (l p : list PerformanceMetrics)
    (d : list (string * TypeStats)) :
  grouped d p -> grouped (fold_left count_in l d) (p ++ l).
Proof.
  revert d p. induction l as [| m l IH]; intros d p H; cbn.
  - now rewrite app_nil_r.
  - replace (p ++ m :: l) with ((p ++ [m]) ++ l)
      by (rewrite <- app_assoc; reflexivity).
    apply IH. now apply count_in_grouped.
Qed.

Lemma with_average_grouped (completed p : list PerformanceMetrics)
    (d : list (string * TypeStats)) :
  grouped d p -> grouped (map (with_average completed) d) p.
Proof.
  intros (Hnd & Hkeys & Hent & Htot).
  assert (forall item, fst (with_average completed item) = fst item) as Hfst.
  { intros [k v]. unfold with_average. cbn. now destruct (durations_of _). }
  assert (forall item,
            ts_count (snd (with_average completed item)) = ts_count (snd item)
            /\ ts_successful (snd (with_average completed item))
               = ts_successful (snd item)
            /\ ts_failed (snd (with_average completed item))
               = ts_failed (snd item)) as Hsnd.
  { intros [k v]. unfold with_average. cbn.
    now destruct (durations_of _). }
  assert (keys (map (with_average completed) d) = keys d) as Hk.
  { unfold keys. rewrite map_map. now apply map_ext. }
  repeat split; try (rewrite Hk; auto; now apply Hkeys).
  - apply in_map_iff in H. destruct H as ([k v] & E & Hin).
    pose proof (Hfst (k, v)) as F. pose proof (Hsnd (k, v)) as (S1 & _).
    rewrite E in F, S1. cbn in F, S1. subst k. rewrite S1.
    now apply (Hent _ _ Hin).
  - apply in_map_iff in H. destruct H as ([k v] & E & Hin).
    pose proof (Hfst (k, v)) as F. pose proof (Hsnd (k, v)) as (_ & S1 & _).
    rewrite E in F, S1. cbn in F, S1. subst k. rewrite S1.
    now apply (Hent _ _ Hin).
  - apply in_map_iff in H. destruct H as ([k v] & E & Hin).
    pose proof (Hfst (k, v)) as F. pose proof (Hsnd (k, v)) as (_ & _ & S1).
    rewrite E in F, S1. cbn in F, S1. subst k. rewrite S1.
    now apply (Hent _ _ Hin).
  - rewrite <- Htot. unfold total_count. clear - Hsnd.
    induction d as [| item d IH]; cbn; [reflexivity |].
    rewrite IH. now destruct (Hsnd item) as (-> & _).
Qed.

Lemma records_length (self : PerformanceMonitor) :
  well_formed self -> length (records self) = length (metrics self).
Proof.
  unfold well_formed, records. generalize (heap self) as h.
  intros h. induction (metrics self) as [| r l IH]; cbn; [reflexivity |].
  intros Hwf. inversion Hwf as [| ? ? Hr Hl]; subst.
  rewrite length_app, IH by exact Hl.
  destruct (nth_error h r) eqn:Hn; [reflexivity |].
  apply nth_error_None in Hn. lia.
Qed.

Lemma filter_partition_length {A} (f : A -> bool) (l : list A) :
  (length (filter f l) + length (filter (fun a => negb (f a)) l)
   = length l)%nat.
Proof.
  induction l as [| a l IH]; cbn; [reflexivity |].
  destruct (f a); cbn; lia.
Qed.

(** X28.  [get_metrics_summary] returns [{"total_operations": 0}]
    exactly when the monitor holds no record.  Otherwise the total is
    the number of records and the successful and the failed operations
    add up to it; [operations_by_type] has one entry per operation name
    that occurs, each counting the records of that name and splitting
    them into successful and failed; and the counts of the entries add
    up to the total. *)
Theorem summary_counts_every_record_once (self : PerformanceMonitor) :
  well_formed self ->
  (get_metrics_summary self = NoOperations <-> metrics self = []) /\
  forall s, get_metrics_summary self = Operations s ->
    total_operations s = length (metrics self) /\
    (successful_operations s + failed_operations s = total_operations s)%nat /\
    successful_operations s = length (filter success (records self)) /\
    NoDup (keys (operations_by_type s)) /\
    (forall op, In op (keys (operations_by_type s))
                <-> In op (map operation (records self))) /\
    (forall op st, In (op, st) (operations_by_type s) ->
       ts_count st = length (of_type op (records self)) /\
       ts_successful st
       = length (filter success (of_type op (records self))) /\
       (ts_successful st + ts_failed st = ts_count st)%nat) /\
    total_count (operations_by_type s) = total_operations s.
Proof.
  intros Hwf. pose proof (records_length Hwf) as Hlen.
  unfold get_metrics_summary.
  destruct (metrics self) as [| r l] eqn:Hm.
  - split; [tauto | discriminate].
  - split; [split; discriminate |].
    intros s E. inversion E; subst s; clear E. cbn [total_operations
      successful_operations failed_operations operations_by_type].
    assert (grouped (map (with_average
                       (filter (fun m => match duration m with
                                         | Some _ => true | None => false end)
                               (records self)))
                       (fold_left count_in (records self) []))
                    (records self)) as (Hnd & Hkeys & Hent & Htot).
    { apply with_average_grouped.
      apply (@fold_count_in_grouped (records self) [] []).
      split; [constructor |]. split; [cbn; tauto |].
      split; [intros ? ? [] | reflexivity]. }
    split; [reflexivity |].
    split; [rewrite filter_partition_length; exact Hlen |].
    split; [reflexivity |].
    split; [exact Hnd |]. split; [exact Hkeys |].
    split; [| rewrite Htot; exact Hlen].
    intros op st Hin. destruct (Hent _ _ Hin) as (Hc & Hs & Hf).
    split; [exact Hc |]. split; [exact Hs |].
    rewrite Hc, Hs, Hf. apply filter_partition_length.
Qed.

End MonitorFacts.


Section WrapperFacts.
Context {X : Type} {time : Time X} {floats : PyFloats}.
Import Performance.

Lemma update_at_fresh {A} (f : A -> A) (h : list A) (m : A) :
  update_at (length h) f (h ++ [m]) = h ++ [f m].
Proof. induction h as [| a h IH]; cbn; [reflexivity | now rewrite IH]. Qed.

Lemma records_appended (h : list PerformanceMetrics) (l : list nat)
    (m : PerformanceMetrics) :
  Forall (fun ref => ref < length h)%nat l ->
  records (mkMonitor (h ++ [m]) (l ++ [length h]))
  = records (mkMonitor h l) ++ [m].
Proof.
  unfold records. cbn [heap metrics]. intros Hwf.
  rewrite flat_map_app. cbn [flat_map].
  rewrite nth_error_app2, Nat.sub_diag by lia. cbn. f_equal.
  induction Hwf as [| r l Hr Hl IH]; cbn; [reflexivity |].
  rewrite IH, nth_error_app1 by exact Hr. reflexivity.
Qed.

Lemma well_formed_appended (h : list PerformanceMetrics) (l : list nat)
    (m : PerformanceMetrics) :
  Forall (fun ref => ref < length h)%nat l ->
  Forall (fun ref => ref < length (h ++ [m]))%nat (l ++ [length h]).
Proof.
  intros Hwf. rewrite length_app. cbn. apply Forall_app. split.
  - eapply Forall_impl; [| exact Hwf]. cbn. intros; lia.
  - constructor; [lia | constructor].
Qed.

(** X29.  A function that does not itself use the monitor, wrapped by
    [monitor_performance], returns what the function returns and raises
    what it raises, after one more reading of the clock on either
    side.  The monitor gains exactly one record
    and keeps the others as they were; the record carries the operation
    name (the given one, else module and function name), the two clock
    readings and their difference, [success] as the function returned
    or raised, and the text of the exception as [error]. *)
Theorem monitored_call_is_transparent {A} (operation_name : option string)
    (include_args : bool) (func_module func_name : string)
    (args_count : nat) (kwargs_keys : list string) (func : M X A)
    (x : X) (monitor : PerformanceMonitor) :
  well_formed monitor ->
  let '(t0, x0) := time_time x in
  let '(r, x1) := func x0 in
  let '(t1, x2) := time_time x1 in
  exists monitor' m,
    sync_wrapper operation_name include_args func_module func_name
                 args_count kwargs_keys (lift_world func) (x, monitor)
    = (r, (x2, monitor')) /\
    well_formed monitor' /\
    records monitor' = records monitor ++ [m] /\
    operation m = operation_of operation_name func_module func_name /\
    start_time m = t0 /\ end_time m = Some t1 /\
    duration m = Some (float_sub t1 t0) /\
    success m = (match r with Ok _ => true | Raise _ => false end) /\
    error m = (match r with Ok _ => None | Raise e => Some (exn_text e) end).
Proof.
  intros Hwf. destruct monitor as [h l]. unfold well_formed in Hwf.
  cbn [heap metrics] in Hwf.
  destruct (time_time x) as [t0 x0] eqn:Ht0.
  destruct (func x0) as [r x1] eqn:Hf.
  destruct (time_time x1) as [t1 x2] eqn:Ht1.
  unfold sync_wrapper, bind, start_operation. rewrite Ht0.
  cbn [heap metrics]. unfold try_except, bind, lift_world.
  cbn [fst snd]. rewrite Hf.
  destruct r as [a | e]; unfold complete_operation, ret, raise;
    rewrite Ht1; cbn [heap metrics]; rewrite update_at_fresh;
    eexists; eexists; (split; [reflexivity |]);
    (split; [apply well_formed_appended; exact Hwf |]);
    (split; [apply records_appended; exact Hwf |]);
    cbn; repeat split; reflexivity.
Qed.

(** X30.  A record starts with [success = True], so an operation that
    was started and not yet completed counts as successful: after
    [start_operation] the summary shows one more operation in total and
    one more successful one, the same number of failed ones, and the
    same minimal duration as before. *)
Theorem running_operations_count_as_successful (operation : string)
    (metadata : option (list (string * PyVal))) (x : X)
    (monitor : PerformanceMonitor) :
  well_formed monitor ->
  exists ref x' monitor' s,
    start_operation operation metadata (x, monitor)
    = (Ok ref, (x', monitor')) /\
    well_formed monitor' /\
    get_metrics_summary monitor' = Operations s /\
    total_operations s = S (length (metrics monitor)) /\
    successful_operations s
    = S (length (filter success (records monitor))) /\
    failed_operations s
    = length (filter (fun m => negb (success m)) (records monitor)) /\
    min_duration s
    = match get_metrics_summary monitor with
      | NoOperations => VInt 0
      | Operations s0 => min_duration s0
      end.
Proof.
  intros Hwf. destruct monitor as [h l]. unfold well_formed in Hwf.
  cbn [heap metrics] in Hwf.
  unfold start_operation. destruct (time_time x) as [t x1].
  cbn [heap metrics].
  set (m := mkMetrics operation t None None true None
                      match metadata with Some d => d | None => [] end).
  set (monitor' := mkMonitor (h ++ [m]) (l ++ [length h])).
  assert (records monitor' = records (mkMonitor h l) ++ [m]) as Hrec
    by (apply records_appended; exact Hwf).
  destruct (get_metrics_summary monitor') as [| s] eqn:Hs.
  - unfold get_metrics_summary in Hs. cbn [metrics monitor'] in Hs.
    destruct l; discriminate.
  - exists (length h), x1, monitor', s. split; [reflexivity |].
    split; [apply well_formed_appended; exact Hwf |].
    split; [exact Hs |].
    unfold get_metrics_summary in Hs. rewrite Hrec in Hs.
    cbn [metrics monitor'] in Hs.
    destruct (l ++ [length h]) as [| r l'] eqn:Hl;
      [destruct l; discriminate |].
    rewrite <- Hl in Hs. inversion Hs; subst s; clear Hs.
    cbn [total_operations successful_operations failed_operations
         min_duration].
    rewrite !filter_app, !length_app. cbn. rewrite app_nil_r.
    split; [lia |]. split; [lia |]. split; [lia |].
    unfold get_metrics_summary. cbn [metrics].
    destruct l as [| r0 l0]; reflexivity.
Qed.

End WrapperFacts.

(* ================================================================== *)
(** * Runs in the small world *)
(* ================================================================== *)

Module Runs.

Import Demo.

(** ** The default executor *)

(** C7 at the action ["fly_to_the_moon"]. *)
Lemma execute_unsupported_action_witness :
  ~ In "fly_to_the_moon"
       (keys (DefaultActionExecutor.supported_actions
                (clock := ticking_clock) (runtime := int_runtime))) /\
  DefaultActionExecutor.execute (clock := ticking_clock)
    (runtime := int_runtime) "fly_to_the_moon" (VDict []) (VDict []) 0%nat
  = (Ok (VDict [("success", VBool false);
                ("error", VStr ("Unsupported action: " ++ "fly_to_the_moon"));
                ("supported_actions",
                 VList (map VStr
                          (keys (DefaultActionExecutor.supported_actions
                                   (clock := ticking_clock)
                                   (runtime := int_runtime)))))]),
     0%nat).
Proof.
  assert (~ In "fly_to_the_moon"
            (keys (DefaultActionExecutor.supported_actions
                     (clock := ticking_clock) (runtime := int_runtime))))
    as Hnot.
  { cbn. intros Hin.
    repeat (destruct Hin as [Hin | Hin]; [discriminate |]). exact Hin. }
  split; [exact Hnot |].
  exact (execute_unsupported_action (clock := ticking_clock)
           (runtime := int_runtime) (VDict []) (VDict []) 0%nat Hnot).
Defined.

(** A registered handler that raises: [_emergency_reorder] calls [get]
    on a context that is [None]. *)
Example handler_exception_is_reported :
  fst (DefaultActionExecutor._emergency_reorder
         (clock := ticking_clock) (runtime := int_runtime)
         (VDict []) VNone 0%nat)
  = Raise (AttributeError VNone "get") /\
  fst (DefaultActionExecutor.execute (clock := ticking_clock)
         (runtime := int_runtime) "emergency_reorder" (VDict []) VNone 0%nat)
  = Ok (VDict
          [("success", VBool false);
           ("error",
            VStr "Error executing emergency_reorder: 'NoneType' object has no attribute 'get'");
           ("traceback",
            VStr "Traceback (most recent call last): 'NoneType' object has no attribute 'get'")]).
Proof. split; reflexivity. Qed.

(** [reorder_quantity = minimum_stock_level * 2] *)
Example emergency_reorder_doubles_the_minimum :
  exists out,
    fst (DefaultActionExecutor.execute (clock := ticking_clock)
           (runtime := int_runtime) "emergency_reorder" (VDict [])
           (VDict [("minimum_stock_level", VInt 40)]) 0%nat) = Ok (VDict out) /\
    assoc "reorder_quantity" out = Some (VInt 80).
Proof. eexists. split; reflexivity. Qed.

(** ** The engine *)

(** The status aggregation at a plan whose second rule, of priority 3,
    crashes. *)
Lemma execute_plan_overall_status_witness :
  Forall prioritized two_rules /\
  exists plan' self' x',
    Engine.execute_plan (clock := ticking_clock) (runtime := int_runtime)
      (executor := crashing_executor) Engine.init (plan_of two_rules) 0%nat
    = (Ok (plan', self'), x') /\
    (overall_status plan' = FAILED <-> critical_failure plan') /\
    (~ critical_failure plan' -> overall_status plan' = COMPLETED) /\
    (execution_results (plan_of two_rules) = [] ->
     NoDup (map r_id (rules (plan_of two_rules))) ->
     (overall_status plan' = FAILED <-> critical_failure_at plan')).
Proof.
  assert (Forall prioritized two_rules) as Hrules
    by (repeat constructor; discriminate).
  split; [exact Hrules |].
  exact (execute_plan_overall_status (clock := ticking_clock)
           (runtime := int_runtime) (executor := crashing_executor)
           Engine.init (plan_of two_rules) 0%nat Hrules).
Defined.

(** The three orderings of the specification: [A(1), B(3)] with B
    failing, [A(3), B(1)] with A failing, and two rules of priority 1 of
    which one fails. *)
Example critical_failure_dominates :
  exists plan' self',
    run_plan crashing_executor
             [rule "a" "A" "instant_approve" 1; rule "b" "B" "explode" 3]
    = Ok (plan', self') /\
    map status (execution_results plan') = [COMPLETED; FAILED] /\
    overall_status plan' = FAILED.
Proof.
  eexists; eexists. split; [vm_compute; reflexivity |]. split; reflexivity.
Qed.

Example critical_failure_dominates_when_first :
  exists plan' self',
    run_plan crashing_executor
             [rule "a" "A" "explode" 3; rule "b" "B" "instant_approve" 1]
    = Ok (plan', self') /\
    map status (execution_results plan') = [FAILED; COMPLETED] /\
    overall_status plan' = FAILED.
Proof.
  eexists; eexists. split; [vm_compute; reflexivity |]. split; reflexivity.
Qed.

Example minor_failure_is_tolerated :
  exists plan' self',
    run_plan crashing_executor
             [rule "a" "A" "explode" 1; rule "b" "B" "instant_approve" 1]
    = Ok (plan', self') /\
    map status (execution_results plan') = [FAILED; COMPLETED] /\
    overall_status plan' = COMPLETED.
Proof.
  eexists; eexists. split; [vm_compute; reflexivity |]. split; reflexivity.
Qed.

(** Results are tied to rules by id: when two rules share an id, the
    failure of the one of priority 1 counts against the one of
    priority 3. *)
Example shared_id_makes_a_minor_failure_critical :
  exists plan' self',
    run_plan crashing_executor
             [rule "r" "A" "explode" 1; rule "r" "B" "instant_approve" 3]
    = Ok (plan', self') /\
    map status (execution_results plan') = [FAILED; COMPLETED] /\
    overall_status plan' = FAILED.
Proof.
  eexists; eexists. split; [vm_compute; reflexivity |]. split; reflexivity.
Qed.

(** C1.  The aggregation departs from the rule of the claim on a plan
    whose rules have no ["priority"] key.  The loop reads
    [rule.get("priority", 1)], so that such a rule counts as a rule of
    priority 1 and no exception escapes the loop; the aggregation reads
    [rule["priority"]], which raises [KeyError] at the first FAILED
    result, and the [except] clause of [execute_plan] marks the plan
    FAILED.  Here the default executor runs two rules without the key on
    a fresh engine: both rules are run, the first asks for an action
    that is not registered and is FAILED, the second is COMPLETED, no
    FAILED result belongs to a rule of priority 3 or more -- and the
    plan is FAILED, where the claim has COMPLETED.  With the priority 1
    written out the same plan is COMPLETED. *)
Example missing_priority_fails_the_plan :
  Forall (fun rule => Engine.priority_or_1 rule = VInt 1) keyless_rules /\
  (exists plan' self',
     run_plan default_executor keyless_rules = Ok (plan', self') /\
     map (fun r => (rule_id r, status r)) (execution_results plan')
     = [("a", FAILED); ("b", COMPLETED)] /\
     ~ critical_failure plan' /\
     overall_status plan' = FAILED) /\
  (exists plan' self',
     run_plan default_executor
              [rule "a" "A" "fly_to_the_moon" 1;
               rule "b" "B" "instant_approve" 1]
     = Ok (plan', self') /\
     map (fun r => (rule_id r, status r)) (execution_results plan')
     = [("a", FAILED); ("b", COMPLETED)] /\
     overall_status plan' = COMPLETED).
Proof.
  split; [repeat constructor |]. split.
  - eexists; eexists. split; [vm_compute; reflexivity |].
    split; [reflexivity |]. split; [| reflexivity].
    intros (result & r & priority & _ & _ & Hin & _ & Hp & _).
    cbn in Hin. destruct Hin as [<- | [<- | []]]; discriminate.
  - eexists; eexists. split; [vm_compute; reflexivity |].
    split; reflexivity.
Qed.

(** The exception of the aggregation is the [KeyError] of the missing
    key. *)
Example missing_priority_is_a_key_error :
  fst (Engine.any_critical keyless_rules "a" tt) = Raise (KeyError "priority").
Proof. reflexivity. Qed.

(** A rule dictionary without ["id"] raises before its [try]: the loop
    ends there and the plan is FAILED. *)
Example unidentified_rule_aborts_the_plan :
  exists plan' self',
    run_plan crashing_executor
             [mkRuleDict None (Some "A") None None (Some "instant_approve")
                         (Some (VInt 1)) None None None None None;
              rule "b" "B" "instant_approve" 1]
    = Ok (plan', self') /\
    execution_results plan' = [] /\
    overall_status plan' = FAILED.
Proof.
  eexists; eexists. split; [vm_compute; reflexivity |]. split; reflexivity.
Qed.

(** C9.  A crash of one rule ends the plan when the priority of the
    rule has no order with integers.  The exception of the dispatch is
    captured and becomes a FAILED result whose [error_message] is its
    text; then the loop evaluates [rule.get("priority", 1) >= 3] for
    the failed rule, which raises [TypeError] for the priority [None]
    (a request may carry a null priority) as for a word; that exception
    leaves the loop, and the [except] clause of [execute_plan] marks the
    plan FAILED.  Here the action of rule [a] raises and its priority is
    [None]: the plan of two rules ends with the one result of [a], and
    rule [b] is never run, where the claim has the loop go on to [b].
    With the priority 1 in the place of [None] the loop does go on
    ([crash_is_recorded_and_the_next_rule_runs]). *)
Example ill_typed_priority_ends_the_loop :
  dispatch_raises (clock := ticking_clock) (runtime := int_runtime)
    (executor := crashing_executor)
    (rule_with "a" "A" "explode" VNone) (VDict []) 1%nat
    (mkExn "RuntimeError" "boom") /\
  exists plan' self',
    run_plan crashing_executor null_priority_rules = Ok (plan', self') /\
    map r_id (rules plan') = [Some "a"; Some "b"] /\
    map (fun r => (rule_id r, status r, error_message r))
        (execution_results plan')
    = [("a", FAILED, Some (VStr "boom"))] /\
    overall_status plan' = FAILED.
Proof.
  split.
  - exists "a", "A". repeat split; reflexivity.
  - eexists; eexists. split; [vm_compute; reflexivity |].
    repeat split; reflexivity.
Qed.

(** The exception that ends the loop is the [TypeError] of the
    comparison. *)
Example null_priority_has_no_order :
  py_ge_int (Engine.priority_or_1 (rule_with "a" "A" "explode" VNone)) 3
  = Raise (mkExn "TypeError"
             "'>=' not supported between instances of 'NoneType' and 'int'") /\
  py_ge_int (Engine.priority_or_1 (rule_with "a" "A" "explode" (VStr "high")))
            3
  = Raise (mkExn "TypeError"
             "'>=' not supported between instances of 'str' and 'int'").
Proof. split; reflexivity. Qed.

(** The same with the default executor and the rules of a request: a
    rule with a null priority whose action is not registered fails
    without an exception, and the loop ends behind it all the same. *)
Example failed_rule_with_null_priority_ends_the_loop :
  exists plan' self',
    run_plan default_executor
             [rule_with "a" "A" "fly_to_the_moon" VNone;
              rule "b" "B" "instant_approve" 1]
    = Ok (plan', self') /\
    map (fun r => (rule_id r, status r, error_message r))
        (execution_results plan')
    = [("a", FAILED, Some (VStr "Unsupported action: fly_to_the_moon"))] /\
    overall_status plan' = FAILED.
Proof.
  eexists; eexists. split; [vm_compute; reflexivity |]. split; reflexivity.
Qed.

(** A priority that is a word, as the rule files of the tests have it. *)
Example worded_priority_ends_the_loop :
  exists plan' self',
    run_plan crashing_executor
             [rule_with "a" "A" "explode" (VStr "high");
              rule "b" "B" "instant_approve" 1]
    = Ok (plan', self') /\
    map (fun r => (rule_id r, status r)) (execution_results plan')
    = [("a", FAILED)] /\
    overall_status plan' = FAILED.
Proof.
  eexists; eexists. split; [vm_compute; reflexivity |]. split; reflexivity.
Qed.

(** The comparison is evaluated for a FAILED result only: a rule with a
    null priority that is completed does not end the loop. *)
Example null_priority_of_a_completed_rule_is_not_read :
  exists plan' self',
    run_plan crashing_executor
             [rule_with "a" "A" "instant_approve" VNone;
              rule "b" "B" "instant_approve" 1]
    = Ok (plan', self') /\
    map (fun r => (rule_id r, status r)) (execution_results plan')
    = [("a", COMPLETED); ("b", COMPLETED)] /\
    overall_status plan' = COMPLETED.
Proof.
  eexists; eexists. split; [vm_compute; reflexivity |]. split; reflexivity.
Qed.

(** A dispatch that raises, and the plan that goes on after it. *)
Example crash_is_recorded_and_the_next_rule_runs :
  dispatch_raises (clock := ticking_clock) (runtime := int_runtime)
    (executor := crashing_executor)
    (rule "a" "A" "explode" 1) (VDict []) 1%nat (mkExn "RuntimeError" "boom") /\
  exists plan' self',
    run_plan crashing_executor
             [rule "a" "A" "explode" 1; rule "b" "B" "instant_approve" 1]
    = Ok (plan', self') /\
    map (fun r => (rule_id r, status r, error_message r))
        (execution_results plan')
    = [("a", FAILED, Some (VStr "boom")); ("b", COMPLETED, None)].
Proof.
  split.
  - exists "a", "A". repeat split; reflexivity.
  - eexists; eexists. split; [vm_compute; reflexivity |]. reflexivity.
Qed.

(** C4 as stated fails: no bound holds for every sequence of
    [execute_plan] calls on one engine. *)
Lemma execution_history_is_unbounded :
  ~ exists bound : nat,
      forall (plans : list ExecutionPlan) self' x',
        execute_sequence (clock := ticking_clock) (runtime := int_runtime)
          (executor := default_executor) Engine.init plans 0%nat
        = (Ok self', x') ->
        (length (Engine.execution_history self') <= bound)%nat.
Proof.
  intros [bound Hbound].
  destruct (execute_sequence_grows (clock := ticking_clock)
              (runtime := int_runtime) (executor := default_executor)
              (repeat (plan_of []) (S bound)) Engine.init 0%nat)
    as (self' & x' & Hrun & Hlen).
  specialize (Hbound _ _ _ Hrun).
  rewrite Hlen, repeat_length in Hbound. cbn in Hbound. lia.
Qed.

(** C5 as stated fails: one engine creates two plans, at two different
    clock readings within one second and with no execution in between,
    and gives both the same [plan_id]. *)
Lemma create_execution_plan_ids_collide :
  exists plan1 x1 plan2 x2,
    Engine.create_execution_plan (clock := frozen_clock) Engine.init
      "first" [] (VDict []) 0%nat = (Ok plan1, x1) /\
    Engine.create_execution_plan (clock := frozen_clock) Engine.init
      "second" [] (VDict []) x1 = (Ok plan2, x2) /\
    fst (datetime_now (Clock := frozen_clock) 0%nat)
    <> fst (datetime_now (Clock := frozen_clock) x1) /\
    plan_id plan1 = plan_id plan2.
Proof.
  eexists; eexists; eexists; eexists.
  split; [reflexivity |]. split; [reflexivity |].
  split; [discriminate | reflexivity].
Qed.

(** ** The pipeline *)

(** C2 as stated fails: the retrieval call raises inside
    [analyze_scenario], and the decision that comes back does not begin
    with "Analysis failed". *)
Lemma retrieval_failure_is_not_an_analysis_failure :
  exists e d self',
    fst (query_rules (RagService := broken_catalog)
           (Agent._enhance_query "loan request" None None) 10 None None
           ((7 # 10) * (8 # 10)) (0%nat : World)) = Raise e /\
    run_analysis broken_catalog (provider (9 # 10)) = Ok (d, self') /\
    Agent.decision_outcome d = "No applicable business rules found" /\
    String.prefix "Analysis failed" (Agent.decision_outcome d) = false.
Proof.
  eexists; eexists; eexists.
  split; [reflexivity |]. split; [vm_compute; reflexivity |].
  split; reflexivity.
Qed.

(** A failure that does reach the handler of [analyze_scenario]. *)
Example provider_crash_is_an_analysis_failure :
  exists d self',
    run_analysis catalog crashing_provider = Ok (d, self') /\
    Agent.decision_outcome d = "Analysis failed: model timed out" /\
    Agent.confidence d = 0 /\
    Agent.state self' = Agent.ERROR.
Proof.
  eexists; eexists. split; [vm_compute; reflexivity |].
  repeat split; reflexivity.
Qed.

(** C3, as amended, at two rules that the provider lists in reverse. *)
Lemma merge_and_sort_keeps_provider_order_witness :
  named [candidate "A"; candidate "B"] /\
  Forall names_its_rule [ordered "B" 1 true; ordered "A" 1 true] /\
  exists full_rules' final,
    Agent.merge_and_sort [candidate "A"; candidate "B"]
                         [ordered "B" 1 true; ordered "A" 1 true]
                         (0%nat : World) = (Ok final, 0%nat) /\
    Permutation final
      (map (Agent.deref full_rules')
           (kept_refs [candidate "A"; candidate "B"]
                      [ordered "B" 1 true; ordered "A" 1 true])) /\
    StronglySorted (key_le Agent.order_or_0) final /\
    (forall k,
       filter (fun r => Agent.order_or_0 r =? k)%Z final
       = filter (fun r => Agent.order_or_0 r =? k)%Z
           (map (Agent.deref full_rules')
                (kept_refs [candidate "A"; candidate "B"]
                           [ordered "B" 1 true; ordered "A" 1 true]))) /\
    (forall i,
       In i (kept_refs [candidate "A"; candidate "B"]
                       [ordered "B" 1 true; ordered "A" 1 true]) ->
       exists e,
         In e [ordered "B" 1 true; ordered "A" 1 true] /\
         Agent.condition_met e = true /\
         er_rule_id e = r_id (Agent.deref [candidate "A"; candidate "B"] i) /\
         er_rule_id e <> None /\
         Agent.deref full_rules' i
         = Agent.update_order (Agent.execution_order_or_0 e)
                              (Agent.expected_outcome_or_empty e)
                              (Agent.deref [candidate "A"; candidate "B"] i)).
Proof.
  assert (named [candidate "A"; candidate "B"]) as Hnamed
    by (repeat constructor; discriminate).
  assert (Forall names_its_rule [ordered "B" 1 true; ordered "A" 1 true])
    as Hanswer by (repeat constructor; discriminate).
  split; [exact Hnamed |]. split; [exact Hanswer |].
  exact (merge_and_sort_keeps_provider_order (0%nat : World) Hnamed Hanswer).
Defined.

(** C3 as stated fails: the candidates come in the order A, B, the
    provider gives both the execution order 1 and lists B first, and the
    merge returns B before A, where a stable sort of the candidates in
    retrieval order ([merge_in_retrieval_order]) returns A before B.
    The same happens through the whole of [analyze_scenario]. *)
Lemma merge_ties_follow_the_provider :
  exists final d self',
    fst (Agent.merge_and_sort [candidate "A"; candidate "B"]
                              [ordered "B" 1 true; ordered "A" 1 true]
                              (0%nat : World)) = Ok final /\
    map r_id final = [Some "B"; Some "A"] /\
    map Agent.order_or_0 final = [1%Z; 1%Z] /\
    map r_id (merge_in_retrieval_order
                [candidate "A"; candidate "B"]
                [ordered "B" 1 true; ordered "A" 1 true])
    = [Some "A"; Some "B"] /\
    final <> merge_in_retrieval_order
               [candidate "A"; candidate "B"]
               [ordered "B" 1 true; ordered "A" 1 true] /\
    map sr_rule_id
        (match fst (query_rules (RagService := catalog)
                      (Agent._enhance_query "loan request" None None) 10
                      None None ((7 # 10) * (8 # 10)) (0%nat : World)) with
         | Ok hits => hits
         | Raise _ => []
         end) = ["A"; "B"] /\
    run_analysis catalog reversing_provider = Ok (d, self') /\
    map r_id (Agent.applicable_rules d) = [Some "B"; Some "A"] /\
    map Agent.order_or_0 (Agent.applicable_rules d) = [1%Z; 1%Z].
Proof.
  eexists; eexists; eexists. split; [vm_compute; reflexivity |].
  split; [reflexivity |]. split; [reflexivity |].
  split; [reflexivity |]. split; [discriminate |].
  split; [reflexivity |]. split; [vm_compute; reflexivity |].
  split; reflexivity.
Qed.

(** A rule whose condition is not met is dropped, and the rest is sorted
    by the returned order. *)
Example unmet_condition_is_dropped :
  fst (Agent.merge_and_sort [candidate "A"; candidate "B"; candidate "C"]
         [ordered "C" 2 true; ordered "A" 1 false; ordered "B" 1 true]
         (0%nat : World))
  = Ok [Agent.update_order 1 "done" (candidate "B");
        Agent.update_order 2 "done" (candidate "C")].
Proof. reflexivity. Qed.

(** C6, as amended, with a provider that reports 0.9. *)
Lemma decision_confidence_in_unit_interval_witness :
  provider_confidences_in_unit_interval (llm := provider (9 # 10)) /\
  exists d self' x',
    Agent.analyze_scenario (rag := catalog) (llm := provider (9 # 10))
      (Agent.init (7 # 10) 10) "loan request" None None None (0%nat : World)
    = (Ok (d, self'), x') /\
    Agent.confidence d = Agent.overall_confidence (Agent.applicable_rules d) /\
    in_unit_interval (Agent.confidence d).
Proof.
  assert (provider_confidences_in_unit_interval (llm := provider (9 # 10)))
    as Hprovider.
  { intros scenario rules_data context x analysis x' Hrun.
    cbn in Hrun. unfold ret in Hrun. inversion Hrun. cbn.
    repeat constructor; unfold Qle; cbn; lia. }
  split; [exact Hprovider |].
  exact (decision_confidence_in_unit_interval (rag := catalog)
           (llm := provider (9 # 10)) (Agent.init (7 # 10) 10)
           "loan request" None None None (0%nat : World) Hprovider).
Defined.

(** C6 as stated fails: the provider reports the confidence 2 for the
    one rule, which passes the threshold 0.7, and the decision has the
    confidence 2. *)
Lemma confidence_can_exceed_one :
  exists d self',
    run_analysis catalog (provider 2) = Ok (d, self') /\
    map r_confidence (Agent.applicable_rules d) = [Some 2] /\
    Agent.confidence d = 2 /\
    ~ in_unit_interval (Agent.confidence d).
Proof.
  eexists; eexists. split; [vm_compute; reflexivity |].
  split; [reflexivity |]. split; [reflexivity |].
  unfold in_unit_interval, Qle. cbn. lia.
Qed.

(** ** The service *)

(** C8 on the service of the small world. *)
Lemma analyze_and_execute_composes_witness :
  Service.initialized service = true /\
  exists analysis self1 x1 execution self2 x2,
    Service.analyze_scenario (rag := catalog) (llm := provider (9 # 10))
      service "loan request" None None None (0%nat : World)
    = (Ok (analysis, self1), x1) /\
    Service.analyze_and_execute (clock := ticking_clock)
      (runtime := int_runtime) (executor := default_executor)
      (rag := catalog) (llm := provider (9 # 10))
      service "loan request" None None None (0%nat : World)
    = (Ok (Service.mkFullProcess "loan request" analysis execution, self2),
       x2) /\
    (Agent.applicable_rules analysis <> [] ->
     Service.execute_rules (clock := ticking_clock) (runtime := int_runtime)
       (executor := default_executor) self1 "loan request"
       (Agent.applicable_rules analysis) (context_or_empty None) x1
     = (Ok (execution, self2), x2) /\
     length (Engine.execution_history (Service.execution_engine self2))
     = S (length (Engine.execution_history
                    (Service.execution_engine service)))) /\
    (Agent.applicable_rules analysis = [] ->
     self2 = self1 /\ x2 = x1 /\
     Service.execution_engine self2 = Service.execution_engine service /\
     s_overall_status execution = "skipped" /\
     s_total_rules execution = 0%nat /\
     s_successful_rules execution = 0%nat /\
     s_failed_rules execution = 0%nat /\
     s_results execution = []).
Proof.
  split; [reflexivity |].
  exact (analyze_and_execute_composes (clock := ticking_clock)
           (runtime := int_runtime) (executor := default_executor)
           (rag := catalog) (llm := provider (9 # 10))
           service "loan request" None None None (0%nat : World) eq_refl).
Defined.

(** No candidates: the execution is skipped and the engine has run
    nothing. *)
Example nothing_retrieved_is_skipped :
  exists result self',
    fst (Service.analyze_and_execute (clock := ticking_clock)
           (runtime := int_runtime) (executor := default_executor)
           (rag := broken_catalog) (llm := provider (9 # 10))
           service "loan request" None None None (0%nat : World))
    = Ok (result, self') /\
    s_overall_status (Service.fp_execution result) = "skipped" /\
    s_total_rules (Service.fp_execution result) = 0%nat /\
    Service.execution_engine self' = Engine.init.
Proof.
  eexists; eexists. split; [vm_compute; reflexivity |].
  repeat split; reflexivity.
Qed.

(** One rule of confidence 0.9 against the threshold 0.7: it is
    analyzed, executed and completed. *)
Example approved_rule_is_executed :
  exists result self',
    fst (Service.analyze_and_execute (clock := ticking_clock)
           (runtime := int_runtime) (executor := default_executor)
           (rag := catalog) (llm := provider (9 # 10))
           service "loan request" None None None (0%nat : World))
    = Ok (result, self') /\
    length (Agent.applicable_rules (Service.fp_analysis result)) = 1%nat /\
    s_overall_status (Service.fp_execution result) = "completed" /\
    map (fun i => (i_status i, assoc "action_taken"
                                 match i_output i with
                                 | VDict d => d | _ => [] end))
        (s_results (Service.fp_execution result))
    = [("completed", Some (VStr "instant_approval"))] /\
    length (Engine.execution_history (Service.execution_engine self')) = 1%nat.
Proof.
  eexists; eexists. split; [vm_compute; reflexivity |].
  repeat split; reflexivity.
Qed.


(** ** Further runs: the executor and the engine *)

(** X1 at an executor that turns the parameters down. *)
Lemma rejected_parameters_skip_the_action_witness :
  validate_parameters (ActionExecutor := strict_executor) "instant_approve"
    (Engine.parameters_or_empty (rule "a" "A" "instant_approve" 1)) 1%nat
  = (Ok false, 1%nat) /\
  Engine._execute_single_rule (clock := ticking_clock)
    (executor := strict_executor) (rule "a" "A" "instant_approve" 1)
    (VDict []) 0%nat
  = (Ok (mkExecutionResult "a" "A" FAILED (at_second 0)
           (Some (at_second 1)) (VDict [])
           (Some (VStr "Parameter validation failed")) []),
     2%nat).
Proof.
  split; [reflexivity |].
  exact (rejected_parameters_skip_the_action (clock := ticking_clock)
           (executor := strict_executor) (rule "a" "A" "instant_approve" 1)
           (VDict []) 0%nat (x2 := 1%nat) eq_refl eq_refl eq_refl eq_refl).
Defined.

(** X2 at a rule whose handler succeeds. *)
Lemma single_rule_outcome_witness :
  validate_parameters (ActionExecutor := default_executor) "instant_approve"
    (Engine.parameters_or_empty (rule "a" "A" "instant_approve" 1)) 1%nat
  = (Ok true, 1%nat) /\
  exists result,
    Engine._execute_single_rule (clock := ticking_clock)
      (executor := default_executor) (rule "a" "A" "instant_approve" 1)
      (VDict []) 0%nat
    = (Ok result, 3%nat) /\
    status result = COMPLETED /\ error_message result = None.
Proof.
  split; [reflexivity |].
  destruct (single_rule_outcome (clock := ticking_clock)
              (executor := default_executor)
              (rule "a" "A" "instant_approve" 1) (VDict []) 0%nat
              (x2 := 1%nat) eq_refl eq_refl eq_refl eq_refl eq_refl)
    as (result & Hrun & _ & _ & Hstatus).
  exists result. split; [exact Hrun | exact Hstatus].
Defined.

(** X4 at the action ["instant_approve"]. *)
Lemma mapping_inputs_succeed_witness :
  In "instant_approve"
     (keys (DefaultActionExecutor.supported_actions
              (clock := ticking_clock) (runtime := int_runtime))) /\
  ~ In "instant_approve" arithmetic_actions /\
  exists out x',
    DefaultActionExecutor.execute (clock := ticking_clock)
      (runtime := int_runtime) "instant_approve" (VDict []) (VDict []) 0%nat
    = (Ok out, x') /\
    reports_success out.
Proof.
  assert (In "instant_approve"
             (keys (DefaultActionExecutor.supported_actions
                      (clock := ticking_clock) (runtime := int_runtime))))
    as Hin by (cbn; tauto).
  assert (~ In "instant_approve" arithmetic_actions) as Hnot.
  { cbn. intros H.
    repeat (destruct H as [H | H]; [discriminate |]). exact H. }
  split; [exact Hin |]. split; [exact Hnot |].
  exact (mapping_inputs_succeed (clock := ticking_clock)
           (runtime := int_runtime) (action := "instant_approve") [] []
           0%nat Hin Hnot).
Defined.

(** X5 at the action ["block_reorder"] and a context that is [None]. *)
Lemma missing_context_is_reported_witness :
  In "block_reorder" context_reading_actions /\
  is_mapping VNone = false /\
  DefaultActionExecutor.execute (clock := ticking_clock)
    (runtime := int_runtime) "block_reorder" (VDict []) VNone 0%nat
  = (Ok (VDict
           [("success", VBool false);
            ("error",
             VStr "Error executing block_reorder: 'NoneType' object has no attribute 'get'");
            ("traceback",
             VStr "Traceback (most recent call last): 'NoneType' object has no attribute 'get'")]),
     0%nat).
Proof.
  assert (In "block_reorder" context_reading_actions) as Hin
    by (cbn; tauto).
  split; [exact Hin |]. split; [reflexivity |].
  exact (missing_context_is_reported (clock := ticking_clock)
           (runtime := int_runtime) (action := "block_reorder") (VDict [])
           VNone 0%nat Hin eq_refl).
Defined.

(** X6 at the plan whose second rule crashes: both rules have an
    integer priority, and both get a result. *)
Lemma executed_plan_summary_witness :
  execution_results (plan_of two_rules) = [] /\
  Forall runnable two_rules /\
  exists plan' self' x',
    Engine.execute_plan (clock := ticking_clock) (runtime := int_runtime)
      (executor := crashing_executor) Engine.init (plan_of two_rules) 0%nat
    = (Ok (plan', self'), x') /\
    (s_successful_rules (Engine.get_execution_summary plan')
     + s_failed_rules (Engine.get_execution_summary plan')
     = length (s_results (Engine.get_execution_summary plan')))%nat /\
    length (s_results (Engine.get_execution_summary plan'))
    = s_total_rules (Engine.get_execution_summary plan').
Proof.
  assert (Forall runnable two_rules) as Hrules.
  { repeat (constructor;
            [split; [split; discriminate | eexists; reflexivity] |]).
    constructor. }
  split; [reflexivity |]. split; [exact Hrules |].
  destruct (executed_plan_summary (clock := ticking_clock)
              (runtime := int_runtime) (executor := crashing_executor)
              Engine.init (plan_of two_rules) 0%nat eq_refl)
    as (plan' & self' & x' & Hrun & Hsum & _ & Hlen & _).
  exists plan', self', x'.
  split; [exact Hrun |]. split; [exact Hsum | exact (Hlen Hrules)].
Defined.

(** Where the priority of a failed rule is [None], the rules after it
    get no result: one result for two rules, each with its id and
    name. *)
Example null_priority_leaves_rules_without_a_result :
  Forall identified null_priority_rules /\
  exists plan' self',
    run_plan crashing_executor null_priority_rules = Ok (plan', self') /\
    s_total_rules (Engine.get_execution_summary plan') = 2%nat /\
    length (s_results (Engine.get_execution_summary plan')) = 1%nat.
Proof.
  split; [repeat constructor; discriminate |].
  eexists; eexists. split; [vm_compute; reflexivity |]. split; reflexivity.
Qed.

(** X7 at a plan of one rule without a priority. *)
Lemma unprioritized_plan_fails_on_any_failure_witness :
  Forall identified [unprioritized "a" "A" "explode"] /\
  Forall (fun rule => r_priority rule = None)
         [unprioritized "a" "A" "explode"] /\
  exists plan' self' x',
    Engine.execute_plan (clock := ticking_clock) (runtime := int_runtime)
      (executor := crashing_executor) Engine.init
      (plan_of [unprioritized "a" "A" "explode"]) 0%nat
    = (Ok (plan', self'), x') /\
    (overall_status plan' = FAILED <->
     exists result,
       In result (execution_results plan') /\ status result = FAILED).
Proof.
  assert (Forall identified [unprioritized "a" "A" "explode"]) as Hid
    by (repeat constructor; discriminate).
  assert (Forall (fun rule => r_priority rule = None)
                 [unprioritized "a" "A" "explode"]) as Hprio
    by (repeat constructor).
  split; [exact Hid |]. split; [exact Hprio |].
  destruct (unprioritized_plan_fails_on_any_failure
              (clock := ticking_clock) (runtime := int_runtime)
              (executor := crashing_executor) Engine.init
              (plan_of [unprioritized "a" "A" "explode"]) 0%nat
              eq_refl Hid Hprio)
    as (plan' & self' & x' & Hrun & _ & Hfailed & _).
  exists plan', self', x'. split; [exact Hrun | exact Hfailed].
Defined.

(** ** Further runs: the agent *)

(** X10 at one candidate rule. *)
Lemma decision_plan_numbers_its_steps_witness :
  Forall ready [candidate "A"] /\
  exists d actions,
    Agent._create_decision (Agent.init (7 # 10) 10) "loan request"
      [candidate "A"] (mkAnalysis None None (Some "ok") None) "because"
      None (0%nat : World)
    = (Ok d, 0%nat) /\
    map Agent.step (Agent.execution_plan d) = [1%nat] /\
    map Some actions = [Some "notify"] /\
    Agent.decision_outcome d
    = ("Execute " ++ str_nat 1 ++ " rule(s): " ++ join ", " actions)%string.
Proof.
  assert (Forall ready [candidate "A"]) as Hready.
  { repeat constructor; discriminate. }
  split; [exact Hready |].
  destruct (decision_plan_numbers_its_steps (Agent.init (7 # 10) 10)
              "loan request" (mkAnalysis None None (Some "ok") None)
              "because" None (0%nat : World) Hready)
    as (d & actions & Hrun & _ & _ & Hsteps & _ & _ & Hactions & Hout & _).
  exists d, actions. repeat split; assumption.
Defined.

(** X12 at a provider whose analysis carries an error. *)
Lemma reported_provider_error_is_an_empty_decision_witness :
  (exists analysis,
     fst (llm_analyze_scenario (LLMService := failing_provider)
            "loan request" [] None (0%nat : World)) = Ok analysis /\
     an_error analysis <> None) /\
  exists d self',
    Agent.analyze_scenario (rag := catalog) (llm := failing_provider)
      (Agent.init (7 # 10) 10) "loan request" None None None (0%nat : World)
    = (Ok (d, self'), 0%nat) /\
    Agent.decision_outcome d = "No rules to execute" /\
    Agent.applicable_rules d = [] /\
    Agent.overall_assessment (Agent.metadata d) = "Analysis failed" /\
    Agent.get_current_state self' = Agent.AGENT_COMPLETED.
Proof.
  split.
  { eexists. split; [reflexivity | discriminate]. }
  edestruct (reported_provider_error_is_an_empty_decision
               (rag := catalog) (llm := failing_provider)
               (Agent.init (7 # 10) 10) "loan request" None None None
               (0%nat : World))
    as (d & self' & Hrun & Hout & Hrules & _ & _ & _ & _ & Hassess & _
        & Hstate & _);
    [reflexivity | reflexivity | reflexivity | discriminate |].
  exists d, self'. repeat split; assumption.
Defined.

(** X13 at a provider that lists rule A twice. *)
Lemma last_listing_of_a_rule_wins_witness :
  named [candidate "A"; candidate "B"] /\
  Forall names_its_rule
         ([ordered "A" 2 true] ++ ordered "A" 1 true :: [ordered "B" 3 true]) /\
  approved_ref [candidate "A"; candidate "B"] (ordered "A" 1 true) = [0%nat] /\
  ~ In 0%nat (kept_refs [candidate "A"; candidate "B"] [ordered "B" 3 true]) /\
  exists full_rules' final_rules,
    Agent.merge_loop
      ([ordered "A" 2 true] ++ ordered "A" 1 true :: [ordered "B" 3 true])
      [candidate "A"; candidate "B"] [] (0%nat : World)
    = (Ok (full_rules', final_rules), 0%nat) /\
    count_occ Nat.eq_dec final_rules 0%nat
    = S (count_occ Nat.eq_dec
           (kept_refs [candidate "A"; candidate "B"] [ordered "A" 2 true])
           0%nat) /\
    Agent.deref full_rules' 0
    = Agent.update_order (Agent.execution_order_or_0 (ordered "A" 1 true))
        (Agent.expected_outcome_or_empty (ordered "A" 1 true))
        (Agent.deref [candidate "A"; candidate "B"] 0).
Proof.
  assert (named [candidate "A"; candidate "B"]) as Hnamed
    by (repeat constructor; discriminate).
  assert (Forall names_its_rule
            ([ordered "A" 2 true] ++ ordered "A" 1 true
             :: [ordered "B" 3 true])) as Hanswer
    by (repeat constructor; discriminate).
  assert (~ In 0%nat (kept_refs [candidate "A"; candidate "B"]
                                [ordered "B" 3 true])) as Hlast.
  { cbn. intros [H | H]; [discriminate | exact H]. }
  split; [exact Hnamed |]. split; [exact Hanswer |].
  split; [reflexivity |]. split; [exact Hlast |].
  destruct (last_listing_of_a_rule_wins [ordered "A" 2 true]
              (ordered "A" 1 true) [ordered "B" 3 true] (0%nat : World)
              Hnamed Hanswer eq_refl Hlast)
    as (full_rules' & final_rules & Hloop & _ & Hcount & Hlast_wins).
  exists full_rules', final_rules. repeat split; assumption.
Defined.

(** ** Further runs: the rules manager and the service *)

(** X16 at the two rules of the catalog. *)
Lemma search_orders_hits_by_priority_witness :
  Forall has_mapping_parameters (Manager.rules manager) /\
  exists found,
    Manager.search_rules manager "RULE" None None = Ok found /\
    Permutation found
      (filter (search_hit "RULE" None None) (Manager.rules manager)) /\
    StronglySorted priority_ge found /\
    map br_id found = ["B"; "A"].
Proof.
  assert (Forall has_mapping_parameters (Manager.rules manager)) as Hparams
    by (repeat constructor).
  split; [exact Hparams |].
  destruct (search_orders_hits_by_priority manager "RULE" None None Hparams)
    as (found & Hrun & Hperm & Hsorted & _).
  exists found.
  split; [exact Hrun |]. split; [exact Hperm |]. split; [exact Hsorted |].
  vm_compute in Hrun. inversion Hrun. reflexivity.
Defined.

(** The search on text that leaves the ASCII range: with a runtime that
    knows the Kelvin sign, the query "STOCK" finds the rule whose name
    is spelt with the sign, and no other. *)
Example search_follows_the_case_mapping :
  exists found,
    Manager.search_rules (runtime := kelvin_runtime) kelvin_manager "STOCK"
                         None None = Ok found /\
    map br_id found = ["K"].
Proof. eexists. split; [vm_compute; reflexivity | reflexivity]. Qed.

(** [str.lower] follows the Unicode case mapping.  With a runtime that
    knows the Kelvin sign, the sign reads as [k]: "low stoc" followed by
    it names the stock, "chec" followed by it asks for a check, and the
    query "stock" finds a rule whose name is spelt with it. *)
Example kelvin_sign_reads_as_k :
  Agent._enhance_query (runtime := kelvin_runtime)
    ("low stoc" ++ kelvin_sign) None None
  = ("low stoc" ++ kelvin_sign ++ " inventory management rules")%string /\
  Service.suggest_actions (runtime := kelvin_runtime) ("chec" ++ kelvin_sign)
  = ["Analyze a business scenario"] /\
  search_hit (runtime := kelvin_runtime) "stock" None None
    (mkBusinessRule "K" ("Stoc" ++ kelvin_sign) "first" "inventory" "levels"
                    "c" "a" 1 (VDict []) (VDict []))
  = true.
Proof. repeat split; reflexivity. Qed.

(** The threshold that the agent passes on is the product as the runtime
    rounds it: where 0.7 * 0.8 is rounded down to 0.5, a hit that scores
    0.5 is kept, below the exact 0.56. *)
Example relaxed_threshold_is_the_rounded_product :
  float_mul (PyRuntime := coarse_runtime) (7 # 10) (8 # 10) == 5 # 10 /\
  exists hits,
    fst (Agent._query_relevant_rules (runtime := coarse_runtime)
           (rag := Rag.as_rag_service rag_store) (Agent.init (7 # 10) 10)
           "loan request" None None (0%nat : World)) = Ok hits /\
    map (fun h => (sr_rule_id h, sr_score h)) hits
    = [("A", 9 # 10); ("B", 5 # 10)].
Proof.
  split; [reflexivity |].
  eexists. split; [vm_compute; reflexivity | reflexivity].
Qed.

(** X17 at a service that has not been initialized. *)
Lemma uninitialized_service_refuses_witness :
  Service.initialized
    (Service.mkService (Agent.init (7 # 10) 10) Engine.init false) = false /\
  refused (Service.get_rules (facade := rag_facade)
             (Service.mkService (Agent.init (7 # 10) 10) Engine.init false)
             None None 50 0) (0%nat : World) /\
  refused (Service.execute_rules (clock := ticking_clock)
             (executor := default_executor)
             (Service.mkService (Agent.init (7 # 10) 10) Engine.init false)
             "loan request" [] (VDict [])) (0%nat : World).
Proof.
  split; [reflexivity |].
  destruct (uninitialized_service_refuses (clock := ticking_clock)
              (executor := default_executor) (rag := catalog)
              (llm := provider (9 # 10)) (facade := rag_facade)
              (chat_model := LocalLLM.as_chat_model local_llm)
              (Service.mkService (Agent.init (7 # 10) 10) Engine.init false)
              (0%nat : World) eq_refl)
    as (_ & Hexecute & Hrules & _).
  split; [exact (Hrules None None 50%Z 0%Z) |].
  exact (Hexecute "loan request" [] (VDict [])).
Defined.

(** X18 at a service whose engine has executed the five plans [p0] to
    [p4]: the page of two summaries at offset 1 holds [p1] and [p2], the
    page of three at offset 3 holds the two that are left, and the page
    of five at offset 1 is the one followed by the other. *)
Lemma history_pages_tile_the_history_witness :
  Service.initialized busy_service = true /\
  exists page next,
    Service.get_execution_history busy_service 2 1 (0%nat : World)
    = (Ok page, 0%nat) /\
    Service.get_execution_history busy_service 3 (1 + 2) (0%nat : World)
    = (Ok next, 0%nat) /\
    Service.get_execution_history busy_service (2 + 3) 1 (0%nat : World)
    = (Ok (page ++ next), 0%nat) /\
    map s_plan_id page = ["p1"; "p2"] /\
    map s_plan_id next = ["p3"; "p4"].
Proof.
  split; [reflexivity |].
  destruct (history_pages_tile_the_history busy_service (limit := 2)
              (limit' := 3) (offset := 1) (0%nat : World) eq_refl)
    as (page & next & Hpage & Hnext & Hboth & Heq & _); try lia.
  exists page, next.
  split; [exact Hpage |]. split; [exact Hnext |]. split; [exact Hboth |].
  split.
  - rewrite Heq. reflexivity.
  - vm_compute in Hnext. inversion Hnext. reflexivity.
Defined.

(** X19 at the catalog, filtered by the domain ["finance"]. *)
Lemma rules_page_counts_before_paging_witness :
  Service.initialized service = true /\
  exists page,
    Service.get_rules (facade := rag_facade) service (Some "finance") None
                      1 0 (0%nat : World)
    = (Ok page, 0%nat) /\
    Service.rp_total_count page
    = length (filter (visible (Some "finance") None)
                     (Manager.rules (rules_manager (0%nat : World)))) /\
    (Z.of_nat (length (Service.rp_rules page)) <= 1)%Z.
Proof.
  split; [reflexivity |].
  destruct (rules_page_counts_before_paging (facade := rag_facade) service
              (Some "finance") None (limit := 1) (offset := 0)
              (0%nat : World) eq_refl)
    as (page & Hrun & Htotal & _ & Hpage & _); try lia.
  exists page. repeat split; assumption.
Defined.

(** X20 at the plan whose second rule crashes. *)
Lemma executed_rules_show_up_last_witness :
  Service.initialized service = true /\
  exists summary self' x',
    Service.execute_rules (clock := ticking_clock) (runtime := int_runtime)
      (executor := crashing_executor) service "demo" two_rules (VDict [])
      (0%nat : World)
    = (Ok (summary, self'), x') /\
    s_total_rules summary = length two_rules /\
    Service.get_execution_history self' 1
      (Z.of_nat (length (Engine.execution_history
                           (Service.execution_engine service)))) x'
    = (Ok [summary], x').
Proof.
  split; [reflexivity |].
  destruct (executed_rules_show_up_last (clock := ticking_clock)
              (runtime := int_runtime) (executor := crashing_executor)
              service "demo" two_rules (VDict []) (0%nat : World) eq_refl)
    as (summary & self' & x' & Hrun & _ & _ & _ & Htotal & Hlast & _).
  exists summary, self', x'. repeat split; assumption.
Defined.

(** ** Further runs: the language model service and the monitor *)

(** X27 at a model that is down, and a message in capitals. *)
Lemma chat_failures_come_back_as_messages_witness :
  Service.initialized service = true /\
  exists reply x',
    Service.chat_with_agent (chat_model := LocalLLM.as_chat_model local_llm)
      service "SHOW the Rules" None None (0%nat : World)
    = (Ok reply, x') /\
    Service.cr_suggested_actions reply = ["View available business rules"] /\
    Service.cr_message reply = "Error: connection refused".
Proof.
  split; [reflexivity |].
  destruct (chat_failures_come_back_as_messages (ollama := silent_model)
              local_llm service "SHOW the Rules" None None (0%nat : World)
              eq_refl)
    as (reply & x' & Hrun & _ & Hactions & Hmessage).
  exists reply, x'. split; [exact Hrun |]. split.
  - rewrite Hactions. reflexivity.
  - cbn in Hmessage. destruct Hmessage as [_ ->]. reflexivity.
Defined.

(** X28 at a monitor that holds one finished and one running operation. *)
Lemma summary_counts_every_record_once_witness :
  well_formed
    (Performance.mkMonitor
       [Performance.mkMetrics "query" 0 (Some 1) (Some 1) false
                              (Some "timeout") [];
        Performance.mkMetrics "index" 1 None None true None []]
       [0%nat; 1%nat]) /\
  forall s,
    Performance.get_metrics_summary (floats := exact_floats)
      (Performance.mkMonitor
         [Performance.mkMetrics "query" 0 (Some 1) (Some 1) false
                                (Some "timeout") [];
          Performance.mkMetrics "index" 1 None None true None []]
         [0%nat; 1%nat])
    = Performance.Operations s ->
    (Performance.successful_operations s + Performance.failed_operations s
     = Performance.total_operations s)%nat /\
    total_count (Performance.operations_by_type s)
    = Performance.total_operations s.
Proof.
  assert (well_formed
            (Performance.mkMonitor
               [Performance.mkMetrics "query" 0 (Some 1) (Some 1) false
                                      (Some "timeout") [];
                Performance.mkMetrics "index" 1 None None true None []]
               [0%nat; 1%nat])) as Hwf
    by (repeat constructor).
  split; [exact Hwf |].
  intros s Hs.
  destruct (proj2 (summary_counts_every_record_once (floats := exact_floats)
                     Hwf) s Hs)
    as (_ & Hsum & _ & _ & _ & _ & Htotal).
  split; assumption.
Defined.

(** X29 at a function that raises, wrapped on a fresh monitor. *)
Lemma monitored_call_is_transparent_witness :
  well_formed Performance.init /\
  exists monitor' m,
    Performance.sync_wrapper (time := ticking_timer) (floats := exact_floats)
      (Some "lookup") false "src.rag.service" "query_rules" 1 []
      (lift_world (raise (A := nat) (mkExn "ValueError" "bad input")))
      (0%nat, Performance.init)
    = (Raise (mkExn "ValueError" "bad input"), (2%nat, monitor')) /\
    Performance.records monitor' = Performance.records Performance.init ++ [m] /\
    Performance.success m = false /\
    Performance.error m = Some "bad input".
Proof.
  assert (well_formed Performance.init) as Hwf by constructor.
  split; [exact Hwf |].
  destruct (monitored_call_is_transparent (time := ticking_timer)
              (floats := exact_floats) (Some "lookup") false
              "src.rag.service" "query_rules" 1 []
              (raise (A := nat) (mkExn "ValueError" "bad input"))
              (0%nat : World) Hwf)
    as (monitor' & m & Hrun & _ & Hrecords & _ & _ & _ & _ & Hsuccess
        & Herror).
  exists monitor', m. repeat split; assumption.
Defined.

(** X30 at a fresh monitor. *)
Lemma running_operations_count_as_successful_witness :
  well_formed Performance.init /\
  exists ref x' monitor' s,
    Performance.start_operation (time := ticking_timer) "query" None
      (0%nat, Performance.init)
    = (Ok ref, (x', monitor')) /\
    Performance.get_metrics_summary (floats := exact_floats) monitor'
    = Performance.Operations s /\
    Performance.total_operations s = 1%nat /\
    Performance.successful_operations s = 1%nat /\
    Performance.failed_operations s = 0%nat.
Proof.
  assert (well_formed Performance.init) as Hwf by constructor.
  split; [exact Hwf |].
  destruct (running_operations_count_as_successful (time := ticking_timer)
              (floats := exact_floats) "query" None (0%nat : World) Hwf)
    as (ref & x' & monitor' & s & Hrun & _ & Hs & Htotal & Hok & Hfailed & _).
  exists ref, x', monitor', s. repeat split; assumption.
Defined.

End Runs.
